(** * BOAMP data extractor: a shallow embedding of [main.py]

    The development follows the source file top to bottom:
    - [PyStr]: the Python string methods the code calls;
    - values of the JSON documents and of data-frame cells, exceptions;
    - [get_all_records_for_date] (the paginated fetch);
    - [create_excel_simple] (normalisation into a data frame);
    - [filter_by_departments] (department matching);
    - the job ledger [jobs], [process_extraction] and the HTTP handlers.

    Conventions.  A Python [str] is a [string]; a character is a code point
    below 256.  A Python [float] is a binary64 number ([spec_float]).  A
    function that may raise returns an [outcome].  The remote catalogue,
    [json.dumps], [repr], the spreadsheet encoder, the clock and the
    identifier generator are outside the program and are taken as
    parameters. *)

From Stdlib Require Import String Ascii ZArith List Bool Lia Sorted SpecFloat.
From stdpp Require Import gmap strings list fin_maps pretty.

Set Warnings "-register-all".
Open Scope string_scope.
Open Scope list_scope.
Open Scope nat_scope.

(* ===================================================================== *)
(** * Python string methods *)
(* ===================================================================== *)

Module PyStr.

(** [str.isspace] on one character (code points below 256): tab to
    carriage return, the four separators 28-31, space, NEL and the
    no-break space. *)
Definition is_space (c : ascii) : bool :=
  let n := nat_of_ascii c in
  ((9 <=? n) && (n <=? 13)) || ((28 <=? n) && (n <=? 32))
  || (n =? 133) || (n =? 160).

(** Membership of a character in the argument of [strip(chars)]. *)
Fixpoint mem (c : ascii) (chars : string) : bool :=
  match chars with
  | EmptyString => false
  | String d rest => Ascii.eqb c d || mem c rest
  end.

Fixpoint lstrip (p : ascii -> bool) (s : string) : string :=
  match s with
  | EmptyString => EmptyString
  | String c s' => if p c then lstrip p s' else s
  end.

Fixpoint rstrip (p : ascii -> bool) (s : string) : string :=
  match s with
  | EmptyString => EmptyString
  | String c s' =>
      match rstrip p s' with
      | EmptyString => if p c then EmptyString else String c EmptyString
      | r => String c r
      end
  end.

(** [s.strip(chars)] and [s.strip()]. *)
Definition strip_chars (chars : string) (s : string) : string :=
  rstrip (fun c => mem c chars) (lstrip (fun c => mem c chars) s).

Definition strip (s : string) : string := rstrip is_space (lstrip is_space s).

(** [s.replace(c, '')] for a one-character [c]: every occurrence goes. *)
Fixpoint remove_char (c : ascii) (s : string) : string :=
  match s with
  | EmptyString => EmptyString
  | String d s' =>
      if Ascii.eqb d c then remove_char c s' else String d (remove_char c s')
  end.

(** [s.split(sep)] for a one-character separator; the empty string splits
    into one empty piece. *)
Fixpoint split (sep : ascii) (s : string) : list string :=
  match s with
  | EmptyString => [EmptyString]
  | String c s' =>
      if Ascii.eqb c sep then EmptyString :: split sep s'
      else match split sep s' with
           | piece :: pieces => String c piece :: pieces
           | [] => [String c EmptyString]
           end
  end.

(** [sep.join(pieces)]. *)
Fixpoint join (sep : string) (pieces : list string) : string :=
  match pieces with
  | [] => EmptyString
  | [piece] => piece
  | piece :: rest => piece +:+ sep +:+ join sep rest
  end.

(** Truth value of a string. *)
Definition nonempty (s : string) : bool :=
  match s with EmptyString => false | String _ _ => true end.

Definition first_char (s : string) : option ascii :=
  match s with EmptyString => None | String c _ => Some c end.

Fixpoint last_char (s : string) : option ascii :=
  match s with
  | EmptyString => None
  | String c EmptyString => Some c
  | String _ s' => last_char s'
  end.

Fixpoint all_chars (p : ascii -> bool) (s : string) : bool :=
  match s with
  | EmptyString => true
  | String c s' => p c && all_chars p s'
  end.

End PyStr.

Definition dquote : ascii := "034"%char.
Definition squote : ascii := "039"%char.
Definition comma : ascii := ","%char.

(* ===================================================================== *)
(** * Values, exceptions, outcomes *)
(* ===================================================================== *)

(** A value of a decoded JSON document or of a data-frame cell.  [VNaN] is the
    float that pandas puts in a missing cell; [VFloat] carries the other
    floats, as binary64 numbers. *)
Inductive value : Type :=
  | VNone
  | VNaN
  | VBool (b : bool)
  | VInt (z : Z)
  | VFloat (x : spec_float)
  | VStr (s : string)
  | VList (l : list value)
  | VDict (d : gmap string value).

Definition type_name (v : value) : string :=
  match v with
  | VNone => "NoneType"
  | VNaN | VFloat _ => "float"
  | VBool _ => "bool"
  | VInt _ => "int"
  | VStr _ => "str"
  | VList _ => "list"
  | VDict _ => "dict"
  end.

(** [bool(v)]: a float is false when it equals zero. *)
Definition truthy (v : value) : bool :=
  match v with
  | VNone => false
  | VNaN => true
  | VBool b => b
  | VInt z => negb (z =? 0)%Z
  | VFloat x => negb (SFeqb x (S754_zero false))
  | VStr s => PyStr.nonempty s
  | VList l => match l with [] => false | _ => true end
  | VDict d => negb (bool_decide (d = ∅))
  end.

(** [float(z)]: the binary64 number nearest to [z], ties to even. *)
Definition float_of_int (z : Z) : spec_float := binary_normalize 53 1024 z 0 false.

(** [x == z] for a float and an int, which Python compares exactly. *)
Definition float_eq_int (x : spec_float) (z : Z) : bool :=
  match x with
  | S754_zero _ => (z =? 0)%Z
  | S754_finite s m e =>
      let n := if s then Z.neg m else Z.pos m in
      if (0 <=? e)%Z then (n * 2 ^ e =? z)%Z else (n =? z * 2 ^ (- e))%Z
  | _ => false
  end.

Inductive exception_class : Type :=
  | TypeError
  | AttributeError
  | ValueError
  | KeyError
  | IndexError.

(** A raised exception; [exc_message] is what [str(e)] gives. *)
Record exception : Type := Exc {
  exc_class : exception_class;
  exc_message : string
}.

Definition no_attribute (v : value) (attr : string) : exception :=
  Exc AttributeError ("'" +:+ type_name v +:+ "' object has no attribute '" +:+ attr +:+ "'").

Definition not_iterable (v : value) : exception :=
  Exc TypeError ("'" +:+ type_name v +:+ "' object is not iterable").

Definition not_subscriptable (v : value) : exception :=
  Exc TypeError ("'" +:+ type_name v +:+ "' object is not subscriptable").

Definition lt_not_supported (v w : value) : exception :=
  Exc TypeError ("'<' not supported between instances of '" +:+ type_name v
                 +:+ "' and '" +:+ type_name w +:+ "'").

Definition ambiguous_truth : exception :=
  Exc ValueError "The truth value of an array with more than one element is ambiguous. Use a.any() or a.all()".

Definition empty_truth : exception :=
  Exc ValueError "The truth value of an empty array is ambiguous. Use `array.size > 0` to check that an array is not empty.".

Definition index_out_of_range (v : value) : exception :=
  Exc IndexError (match v with VStr _ => "string" | _ => "list" end +:+ " index out of range").

Definition key_error (key : string) : exception :=
  Exc KeyError ("'" +:+ key +:+ "'").

(** The result of running a piece of code: it returns or it raises. *)
Inductive outcome (A : Type) : Type :=
  | Returned (a : A)
  | Raised (e : exception).
Arguments Returned {A} a.
Arguments Raised {A} e.

#[global] Instance outcome_ret : MRet outcome := fun A a => Returned a.

#[global] Instance outcome_bind : MBind outcome := fun A B k m =>
  match m with
  | Returned a => k a
  | Raised e => Raised e
  end.

(** [v.get(key, default)]: only a dict has the method. *)
Definition py_get (v : value) (key : string) (default : value) : outcome value :=
  match v with
  | VDict d => Returned (match d !! key with Some x => x | None => default end)
  | _ => Raised (no_attribute v "get")
  end.

(* ===================================================================== *)
(** * The fetcher: [get_all_records_for_date] *)
(* ===================================================================== *)

(** What one page request gives.  A transport failure in [requests.get] and
    a bad status in [raise_for_status] raise subclasses of [RequestException]
    (so does, in requests 2.27 and later, a body that is not JSON); otherwise
    the body decodes to a value. *)
Inductive response : Type :=
  | RequestException (msg : string)
  | Json (data : value).

(** The remote catalogue, by offset.  A fetch asks for an offset at most once,
    so a function of the offset describes all it can observe. *)
Definition catalogue : Type := Z -> response.

Definition limit : Z := 100.

(** [record.get('dateparution') == target_date]: a value that is not a string
    differs from the target. *)
Definition published_on (target_date : string) (record : value) : outcome bool :=
  d ← py_get record "dateparution" VNone;
  Returned (match d with VStr s => String.eqb s target_date | _ => false end).

(** [[record for record in records if ...]] over the elements of a list. *)
Fixpoint comprehension (target_date : string) (records : list value)
  : outcome (list value) :=
  match records with
  | [] => Returned []
  | record :: rest =>
      keep ← published_on target_date record;
      kept ← comprehension target_date rest;
      Returned (if keep : bool then record :: kept else kept)
  end.

(** The comprehension over whatever [results] holds.  Iterating a string or a
    dict yields strings, which have no [get]; the other values do not iterate. *)
Definition target_records_of (target_date : string) (records : value)
  : outcome (list value) :=
  match records with
  | VList l => comprehension target_date l
  | VStr _ | VDict _ =>
      if truthy records then Raised (no_attribute (VStr EmptyString) "get") else Returned []
  | v => Raised (not_iterable v)
  end.

(** [records[-1]]. *)
Definition last_record (records : value) : outcome value :=
  match records with
  | VList l =>
      match last l with
      | Some r => Returned r
      | None => Raised (index_out_of_range records)
      end
  | VStr s =>
      match PyStr.last_char s with
      | Some c => Returned (VStr (String c EmptyString))
      | None => Raised (index_out_of_range records)
      end
  | VDict _ => Raised (Exc KeyError "-1")
  | v => Raised (not_subscriptable v)
  end.

(** [records and records[-1].get('dateparution', '') < target_date]: a string
    compares by code points, anything else against a string raises. *)
Definition moved_past (target_date : string) (records : value) : outcome bool :=
  if truthy records then
    r ← last_record records;
    d ← py_get r "dateparution" (VStr EmptyString);
    match d with
    | VStr s => Returned (String.ltb s target_date)
    | v => Raised (lt_not_supported v (VStr target_date))
    end
  else Returned false.

(** How the body of the [while] loop ends. *)
Inductive flow : Type :=
  | Break (all_records : list value)
  | Next (all_records : list value) (offset : Z).

(** One turn of the loop: the [try] block and its [except] clause, which
    catches a [RequestException] only. *)
Definition fetch_page (api : catalogue) (target_date : string) (offset : Z)
    (all_records : list value) : outcome flow :=
  match api offset with
  | RequestException _ => Returned (Break all_records)
  | Json data =>
      records ← py_get data "results" (VList []);
      if negb (truthy records) then Returned (Break all_records)
      else
        target_records ← target_records_of target_date records;
        let all_records :=
          match target_records with
          | [] => all_records
          | _ => all_records ++ target_records
          end in
        past ← moved_past target_date records;
        if past : bool then Returned (Break all_records)
        else
          let offset := (offset + limit)%Z in
          if (10000 <? offset)%Z then Returned (Break all_records)
          else Returned (Next all_records offset)
  end.

(** The [while] loop.  Beside the outcome it gives the offsets requested, in
    order.  [fuel] bounds the number of turns; [fetch_loop_fuel] shows that
    the 101 turns of [get_all_records_for_date] are never used up. *)
Fixpoint fetch_loop (fuel : nat) (api : catalogue) (target_date : string)
    (max_records : Z) (offset : Z) (all_records : list value)
  : outcome (list value) * list Z :=
  match fuel with
  | 0 => (Returned all_records, [])
  | S fuel =>
      if (Z.of_nat (length all_records) <? max_records)%Z then
        match fetch_page api target_date offset all_records with
        | Raised e => (Raised e, [offset])
        | Returned (Break all_records) => (Returned all_records, [offset])
        | Returned (Next all_records offset') =>
            let '(out, requested) :=
              fetch_loop fuel api target_date max_records offset' all_records in
            (out, offset :: requested)
        end
      else (Returned all_records, [])
  end.

Definition get_all_records_for_date (api : catalogue) (target_date : string)
    (max_records : Z) : outcome (list value) * list Z :=
  fetch_loop 101 api target_date max_records 0%Z [].

(* ===================================================================== *)
(** * The normaliser: [create_excel_simple] *)
(* ===================================================================== *)

(** A data frame with the default index 0, 1, ...: its column labels and its
    rows, each row a map from label to cell.  A cell holds the value that the
    frame stores there; the order of the columns is not modelled. *)
Record dataframe : Type := DataFrame {
  df_columns : gset string;
  df_rows : list (gmap string value)
}.

(** Library functions whose result the program only stores, splits or sends:
    [json.dumps(v, ensure_ascii=False)], [str] of a dict, [str] of a float,
    and the [with pd.ExcelWriter(...)] block that writes a frame into a
    buffer with [to_excel(writer, index=False, sheet_name=...)], which gives
    the bytes of the workbook or raises (openpyxl refuses a control character
    in a cell). *)
Class PyRuntime : Type := {
  json_dumps : value -> string;
  py_repr : value -> string;
  float_repr : spec_float -> string;
  to_excel : string -> dataframe -> outcome string
}.

(** [len(df)]. *)
Definition df_len (df : dataframe) : nat := length (df_rows df).

(** The branches on one field of a record. *)
Definition clean_value `{PyRuntime} (v : value) : value :=
  match v with
  | VList _ | VDict _ => VStr (json_dumps v)
  | VNone => VStr EmptyString
  | _ => v
  end.

(** The inner loop over [record.items()]. *)
Definition clean_record `{PyRuntime} (record : value) : outcome (gmap string value) :=
  match record with
  | VDict d => Returned (clean_value <$> d)
  | v => Raised (no_attribute v "items")
  end.

Fixpoint clean_records `{PyRuntime} (records : list value)
  : outcome (list (gmap string value)) :=
  match records with
  | [] => Returned []
  | record :: rest =>
      cleaned_record ← clean_record record;
      cleaned ← clean_records rest;
      Returned (cleaned_record :: cleaned)
  end.

(** A cell that a column of numbers can hold, and a cell that is a float. *)
Definition is_number (v : value) : bool :=
  match v with VNaN | VInt _ | VFloat _ => true | _ => false end.

Definition is_float (v : value) : bool :=
  match v with VNaN | VFloat _ => true | _ => false end.

Definition int_cells (cells : list value) : list Z :=
  omap (fun v => match v with VInt z => Some z | _ => None end) cells.

(** The integers of a column fit one 64-bit type: none is below the signed
    range or above the unsigned one, and a negative one does not come with
    one above the signed range. *)
Definition fits_int64 (cells : list value) : bool :=
  forallb (fun z => (- 2 ^ 63 <=? z)%Z && (z <=? 2 ^ 64 - 1)%Z) (int_cells cells)
  && negb (existsb (fun z => 2 ^ 63 - 1 <? z)%Z (int_cells cells)
           && existsb (fun z => z <? 0)%Z (int_cells cells)).

(** The column type that pandas infers for the cells of cleaned records
    (strings, booleans, numbers, NaN): a column of numbers that holds a float
    or a missing cell is stored as float64.  Every other column keeps its
    values: a column with a string, or with a boolean beside anything else,
    or with an integer outside 64 bits holds the Python objects, and a column
    of booleans or of integers alone holds the same booleans or integers. *)
Definition float64_column (cells : list value) : bool :=
  forallb is_number cells && existsb is_float cells && fits_int64 cells.

(** The cells of one column. *)
Definition column_cells (label : string) (rows : list (gmap string value)) : list value :=
  (fun r => default VNaN (r !! label)) <$> rows.

(** What the frame gives back for a cell: in a float64 column an integer has
    become [float(z)]. *)
Definition stored_cell (cells : list value) (cell : value) : value :=
  if float64_column cells then
    match cell with VInt z => VFloat (float_of_int z) | _ => cell end
  else cell.

(** [pd.DataFrame(cleaned_records)]: one row per dict, the columns are all
    the keys, a key a dict lacks gives NaN, and each column gets its type. *)
Definition pd_DataFrame (cleaned_records : list (gmap string value)) : dataframe :=
  let columns : gset string := ⋃ (dom <$> cleaned_records) in
  let filled := (fun r => r ∪ gset_to_gmap VNaN columns) <$> cleaned_records in
  {| df_columns := columns;
     df_rows :=
       (fun r => map_imap (fun label cell =>
                             Some (stored_cell (column_cells label filled) cell)) r)
       <$> filled |}.

Definition create_excel_simple `{PyRuntime} (records : list value)
    (target_date : string) : outcome dataframe :=
  cleaned_records ← clean_records records;
  Returned (pd_DataFrame cleaned_records).

(* ===================================================================== *)
(** * The matcher: [filter_by_departments] *)
(* ===================================================================== *)

Definition is_list (v : value) : bool :=
  match v with VList _ => true | _ => false end.

(** A missing value for [pd.isna]. *)
Definition is_na (v : value) : bool :=
  match v with VNone | VNaN | VFloat S754_nan => true | _ => false end.

Fixpoint common_prefix (s t : list nat) : list nat :=
  match s, t with
  | a :: s', b :: t' => if a =? b then a :: common_prefix s' t' else []
  | _, _ => []
  end.

(** The shape of the object array numpy builds from a list: a dimension goes
    as deep as all the elements are lists of one length. *)
Fixpoint np_shape (v : value) : list nat :=
  match v with
  | VList l =>
      length l ::
        match l with
        | [] => []
        | x :: rest =>
            if forallb is_list l
            then foldr common_prefix (np_shape x) (map np_shape rest)
            else []
        end
  | _ => []
  end.

(** The element of an array that holds exactly one. *)
Fixpoint np_item (dims : nat) (v : value) : value :=
  match dims, v with
  | S dims', VList [x] => np_item dims' x
  | _, _ => v
  end.

(** [pd.isna(code_departement) or code_departement == ""] as the test of the
    [if].  On a list [pd.isna] gives an array, and an array has a truth value
    only when it holds one element (an empty array raises since numpy 2.2 and
    was false before); a list never equals a string. *)
Definition skip_row (code_departement : value) : outcome bool :=
  match code_departement with
  | VList _ =>
      let shape := np_shape code_departement in
      match foldr Nat.mul 1 shape with
      | 0 => Raised empty_truth
      | 1 => Returned (is_na (np_item (length shape) code_departement))
      | _ => Raised ambiguous_truth
      end
  | VStr s => Returned (negb (PyStr.nonempty s))
  | v => Returned (is_na v)
  end.

(** [str(v)] for a cell that is neither a string nor a list. *)
Definition py_str `{PyRuntime} (v : value) : string :=
  match v with
  | VNone => "None"
  | VNaN => "nan"
  | VBool true => "True"
  | VBool false => "False"
  | VInt z => pretty z
  | VFloat x => float_repr x
  | VStr s => s
  | _ => py_repr v
  end.

(** The three input shapes of the department field (the body of the [try]
    up to the matching loop). *)
Definition decode_departments `{PyRuntime} (code_departement : value) : list value :=
  match code_departement with
  | VStr s =>
      let cleaned_str :=
        PyStr.remove_char squote
          (PyStr.remove_char dquote (PyStr.strip_chars "[]" s)) in
      VStr <$> List.filter PyStr.nonempty
                 (PyStr.strip <$> PyStr.split comma cleaned_str)
  | VList l => l
  | v => [VStr (PyStr.strip (py_str v))]
  end.

(** [dep in target_departments]: the targets are strings, and only a string
    equals a string. *)
Definition in_targets (target_departments : list string) (dep : value) : bool :=
  match dep with
  | VStr s => bool_decide (s ∈ target_departments)
  | _ => false
  end.

(** The [for dep in dep_list] loop with its [break]. *)
Fixpoint first_match (target_departments : list string) (dep_list : list value)
  : option value :=
  match dep_list with
  | [] => None
  | dep :: rest =>
      if in_targets target_departments dep then Some dep
      else first_match target_departments rest
  end.

(** The body of the loop over the rows: what is appended to
    [departements_trouves]; the index is kept exactly when this is not [None].
    Nothing in the [try] block raises on these values, so its [except] clause
    has no counterpart. *)
Definition match_row `{PyRuntime} (target_departments : list string)
    (row : gmap string value) : outcome (option value) :=
  let code_departement := default (VStr EmptyString) (row !! "code_departement") in
  skip ← skip_row code_departement;
  if skip : bool then Returned None
  else Returned (first_match target_departments (decode_departments code_departement)).

(** The loop over [df.iterrows()]: [indices_a_conserver] and
    [departements_trouves].  A row is read as the frame stores it, which is
    what [iterrows] gives for a frame with a column of Python objects; every
    frame built from fetched records has one, the publication date being a
    string. *)
Fixpoint scan_rows `{PyRuntime} (target_departments : list string)
    (rows : list (gmap string value)) (index : nat)
  : outcome (list nat * list (option value)) :=
  match rows with
  | [] => Returned ([], [])
  | row :: rest =>
      departement_trouve ← match_row target_departments row;
      scanned ← scan_rows target_departments rest (S index);
      Returned (match departement_trouve : option value with
                | Some _ => index :: fst scanned
                | None => fst scanned
                end,
                departement_trouve :: snd scanned)
  end.

Definition matched_column : string := "code_departement_trouve".

(** [df.loc[indices].copy().reset_index(drop=True)] with the new column
    [[departements_trouves[i] for i in indices]].  The indices come from the
    scan of the same frame, so every lookup succeeds. *)
Definition tagged_rows (rows : list (gmap string value))
    (indices : list nat) (departements_trouves : list (option value))
  : list (gmap string value) :=
  omap (fun i =>
          row ← rows !! i;
          found ← departements_trouves !! i;
          Some (<[matched_column := default VNone found]> row))
       indices.

Definition filter_by_departments `{PyRuntime} (df : dataframe)
    (target_departments : list string) : outcome dataframe :=
  scanned ← scan_rows target_departments (df_rows df) 0;
  let indices_a_conserver := fst scanned in
  let departements_trouves := snd scanned in
  match indices_a_conserver with
  | [] =>
      Returned {| df_columns := df_columns df ∪ {[matched_column]}; df_rows := [] |}
  | _ =>
      Returned {| df_columns := df_columns df ∪ {[matched_column]};
                  df_rows := tagged_rows (df_rows df) indices_a_conserver
                                         departements_trouves |}
  end.

(* ===================================================================== *)
(** * The job ledger and the pipeline: [jobs], [process_extraction] *)
(* ===================================================================== *)

(** [Series.value_counts().to_dict()]: missing cells are dropped, equal
    cells are counted together ([True] equals 1 and 1.0 in Python), and a
    list or a dict cannot be hashed.  The pairs stand for a dict: their order
    carries no meaning. *)
Definition py_eqb (v w : value) : bool :=
  match v, w with
  | VStr s, VStr t => String.eqb s t
  | VInt a, VInt b => (a =? b)%Z
  | VBool a, VBool b => Bool.eqb a b
  | VBool a, VInt b | VInt b, VBool a => (Z.b2z a =? b)%Z
  | VFloat x, VFloat y => SFeqb x y
  | VFloat x, VInt b | VInt b, VFloat x => float_eq_int x b
  | VFloat x, VBool a | VBool a, VFloat x => float_eq_int x (Z.b2z a)
  | _, _ => false
  end.

Fixpoint count_up (key : value) (counts : list (value * nat)) : list (value * nat) :=
  match counts with
  | [] => [(key, 1)]
  | (k, n) :: rest =>
      if py_eqb k key then (k, S n) :: rest else (k, n) :: count_up key rest
  end.

Definition unhashable (v : value) : exception :=
  Exc TypeError ("unhashable type: '" +:+ type_name v +:+ "'").

Fixpoint value_counts_from (counts : list (value * nat)) (column : list value)
  : outcome (list (value * nat)) :=
  match column with
  | [] => Returned counts
  | v :: rest =>
      if is_na v then value_counts_from counts rest
      else match v with
           | VList _ | VDict _ => Raised (unhashable v)
           | _ => value_counts_from (count_up v counts) rest
           end
  end.

Definition value_counts (column : list value) : outcome (list (value * nat)) :=
  value_counts_from [] column.

(** [df[label]] on a frame that has the column. *)
Definition df_column (label : string) (df : dataframe) : list value :=
  (fun row => default VNaN (row !! label)) <$> df_rows df.

(** One entry of [jobs].  The three keys that [extract_data] does not create
    are optional. *)
Record job : Type := Job {
  status : string;
  message : string;
  target_date : string;
  departments : list string;
  total_records : nat;
  filtered_records : nat;
  full_df : option dataframe;
  filtered_df : option dataframe;
  department_distribution : option (list (value * nat))
}.

Definition set_status (v : string) (j : job) : job :=
  Job v (message j) (target_date j) (departments j) (total_records j)
      (filtered_records j) (full_df j) (filtered_df j) (department_distribution j).
Definition set_message (v : string) (j : job) : job :=
  Job (status j) v (target_date j) (departments j) (total_records j)
      (filtered_records j) (full_df j) (filtered_df j) (department_distribution j).
Definition set_total_records (v : nat) (j : job) : job :=
  Job (status j) (message j) (target_date j) (departments j) v
      (filtered_records j) (full_df j) (filtered_df j) (department_distribution j).
Definition set_filtered_records (v : nat) (j : job) : job :=
  Job (status j) (message j) (target_date j) (departments j) (total_records j)
      v (full_df j) (filtered_df j) (department_distribution j).
Definition set_full_df (v : dataframe) (j : job) : job :=
  Job (status j) (message j) (target_date j) (departments j) (total_records j)
      (filtered_records j) (Some v) (filtered_df j) (department_distribution j).
Definition set_filtered_df (v : dataframe) (j : job) : job :=
  Job (status j) (message j) (target_date j) (departments j) (total_records j)
      (filtered_records j) (full_df j) (Some v) (department_distribution j).
Definition set_department_distribution (v : list (value * nat)) (j : job) : job :=
  Job (status j) (message j) (target_date j) (departments j) (total_records j)
      (filtered_records j) (full_df j) (filtered_df j) (Some v).

(** Code that reads and writes the global [jobs] and may raise: the ledger it
    leaves is kept also when it raises. *)
Definition task (A : Type) : Type := gmap string job -> outcome A * gmap string job.

#[global] Instance task_ret : MRet task := fun A a jobs => (Returned a, jobs).

#[global] Instance task_bind : MBind task := fun A B k m jobs =>
  match m jobs with
  | (Returned a, jobs') => k a jobs'
  | (Raised e, jobs') => (Raised e, jobs')
  end.

Definition lift {A} (m : outcome A) : task A := fun jobs => (m, jobs).

(** [jobs[job_id][key] = v]; an unknown identifier is a [KeyError]. *)
Definition update_job (job_id : string) (f : job -> job) : task unit := fun jobs =>
  match jobs !! job_id with
  | Some j => (Returned tt, <[job_id := f j]> jobs)
  | None => (Raised (key_error job_id), jobs)
  end.

(** The body of the [try] of [process_extraction]. *)
Definition process_extraction_try `{PyRuntime} (api : catalogue) (job_id : string)
    (target_date : string) (max_records : Z) (departments : list string) : task unit :=
  update_job job_id (set_status "processing");;
  update_job job_id (set_message "Fetching BOAMP records...");;
  all_records ← lift (fst (get_all_records_for_date api target_date max_records));
  match all_records : list value with
  | [] =>
      update_job job_id (set_status "completed");;
      update_job job_id (set_message ("No records found for date " +:+ target_date));;
      update_job job_id (set_total_records 0);;
      update_job job_id (set_filtered_records 0)
  | _ =>
      update_job job_id (set_total_records (length all_records));;
      update_job job_id
        (set_message ("Found " +:+ pretty (length all_records) +:+ " records. Processing..."));;
      df ← lift (create_excel_simple all_records target_date);
      df_filtered ← lift (filter_by_departments df departments);
      update_job job_id (set_filtered_records (df_len df_filtered));;
      update_job job_id
        (set_message ("Processing complete. " +:+ pretty (df_len df_filtered)
                      +:+ " records after filtering."));;
      update_job job_id (set_full_df df);;
      update_job job_id (set_filtered_df df_filtered);;
      (if (0 <? df_len df_filtered) && bool_decide (matched_column ∈ df_columns df_filtered)
       then
         dept_counts ← lift (value_counts (df_column matched_column df_filtered));
         update_job job_id (set_department_distribution dept_counts)
       else update_job job_id (set_department_distribution []));;
      update_job job_id (set_status "completed")
  end.

(** [process_extraction]: the [try] and its [except Exception] clause. *)
Definition process_extraction `{PyRuntime} (api : catalogue) (job_id : string)
    (target_date : string) (max_records : Z) (departments : list string) : task unit :=
  fun jobs =>
    match process_extraction_try api job_id target_date max_records departments jobs with
    | (Returned _, jobs') => (Returned tt, jobs')
    | (Raised e, jobs') =>
        (update_job job_id (set_status "error");;
         update_job job_id (set_message ("Error during processing: " +:+ exc_message e)))
          jobs'
    end.

(* ===================================================================== *)
(** * The HTTP handlers *)
(* ===================================================================== *)

Record ExtractionRequest : Type := {
  req_target_date : string;
  req_max_records : Z;
  req_departments : list string
}.

Record ExtractionResponse : Type := {
  resp_job_id : string;
  resp_status : string;
  resp_message : string;
  resp_total_records : option nat;
  resp_filtered_records : option nat
}.

(** What a handler answers: a body, or the [HTTPException] it raises. *)
Inductive http (A : Type) : Type :=
  | Ok (body : A)
  | HTTPException (status_code : nat) (detail : string).
Arguments Ok {A} body.
Arguments HTTPException {A} status_code detail.

(** [extract_data]: [job_id] is the fresh [uuid4].  The answer is made before
    the background task runs. *)
Definition extract_data (job_id : string) (request : ExtractionRequest)
    (jobs : gmap string job) : ExtractionResponse * gmap string job :=
  ({| resp_job_id := job_id;
      resp_status := "started";
      resp_message := "Extraction started in background";
      resp_total_records := None;
      resp_filtered_records := None |},
   <[job_id := {| status := "started";
                  message := "Job created, starting processing...";
                  target_date := req_target_date request;
                  departments := req_departments request;
                  total_records := 0;
                  filtered_records := 0;
                  full_df := None;
                  filtered_df := None;
                  department_distribution := None |}]> jobs).

(** A submission followed by its background task. *)
Definition submit_and_run `{PyRuntime} (api : catalogue) (job_id : string)
    (request : ExtractionRequest) (jobs : gmap string job)
  : ExtractionResponse * outcome unit * gmap string job :=
  let '(response, jobs) := extract_data job_id request jobs in
  let '(out, jobs) :=
    process_extraction api job_id (req_target_date request)
      (req_max_records request) (req_departments request) jobs in
  (response, out, jobs).

Record JobStatus : Type := {
  js_job_id : string;
  js_status : string;
  js_message : string;
  js_total_records : nat;
  js_filtered_records : nat;
  js_department_distribution : list (value * nat)
}.

Definition get_job_status (job_id : string) (jobs : gmap string job) : http JobStatus :=
  match jobs !! job_id with
  | None => HTTPException 404 "Job not found"
  | Some job =>
      Ok {| js_job_id := job_id;
            js_status := status job;
            js_message := message job;
            js_total_records := total_records job;
            js_filtered_records := filtered_records job;
            js_department_distribution := default [] (department_distribution job) |}
  end.

(** What a download handler prepares once its guards have passed: the file
    name of the answer, and the sheet name and the frame it hands to
    [to_excel]. *)
Record spreadsheet : Type := {
  filename : string;
  sheet_name : string;
  sheet : dataframe
}.

(** The guards of the handler and what it prepares: [Ok] says that the guards
    have passed, not yet that the workbook was written (see
    [download_full_data_handler]).  [timestamp] is the formatted
    [datetime.now()]. *)
Definition download_full_data (timestamp : string) (job_id : string)
    (jobs : gmap string job) : http spreadsheet :=
  match jobs !! job_id with
  | None => HTTPException 404 "Data not available"
  | Some job =>
      if negb (String.eqb (status job) "completed")
      then HTTPException 404 "Data not available"
      else match full_df job with
           | None => HTTPException 404 "Full data not available"
           | Some df =>
               Ok {| filename := "BOAMP_Full_Results_" +:+ target_date job +:+ "_"
                                 +:+ timestamp +:+ ".xlsx";
                     sheet_name := "BOAMP_Data";
                     sheet := df |}
           end
  end.

(** The same for the filtered dataset (see
    [download_filtered_data_handler]). *)
Definition download_filtered_data (timestamp : string) (job_id : string)
    (jobs : gmap string job) : http spreadsheet :=
  match jobs !! job_id with
  | None => HTTPException 404 "Data not available"
  | Some job =>
      if negb (String.eqb (status job) "completed")
      then HTTPException 404 "Data not available"
      else match filtered_df job with
           | None => HTTPException 404 "Filtered data not available"
           | Some df =>
               Ok {| filename := "BOAMP_Filtered_Results_" +:+ target_date job +:+ "_"
                                 +:+ timestamp +:+ ".xlsx";
                     sheet_name := "BOAMP_Filtered";
                     sheet := df |}
           end
  end.

(** The answer that carries a workbook: the file name of the
    [Content-Disposition] header and the bytes streamed. *)
Record attachment : Type := {
  attachment_filename : string;
  attachment_body : string
}.

(** After the guards the handler writes the frame with [to_excel] and streams
    the buffer.  An exception of the encoder leaves the handler, and the
    server answers with status 500. *)
Definition write_workbook `{PyRuntime} (prepared : http spreadsheet)
  : outcome (http attachment) :=
  match prepared with
  | HTTPException code detail => Returned (HTTPException code detail)
  | Ok s =>
      body ← to_excel (sheet_name s) (sheet s);
      Returned (Ok {| attachment_filename := filename s; attachment_body := body |})
  end.

(** The two download handlers, whole. *)
Definition download_full_data_handler `{PyRuntime} (timestamp : string)
    (job_id : string) (jobs : gmap string job) : outcome (http attachment) :=
  write_workbook (download_full_data timestamp job_id jobs).

Definition download_filtered_data_handler `{PyRuntime} (timestamp : string)
    (job_id : string) (jobs : gmap string job) : outcome (http attachment) :=
  write_workbook (download_filtered_data timestamp job_id jobs).

(* ===================================================================== *)
(** * Vocabulary of the specification *)
(* ===================================================================== *)

(** The records of the page at an offset, when the request succeeds and the
    body carries a list under [results]; no records otherwise. *)
Definition page_records (api : catalogue) (offset : Z) : list value :=
  match api offset with
  | Json (VDict data) =>
      match data !! "results" with
      | Some (VList l) => l
      | _ => []
      end
  | _ => []
  end.

(** The publication date of a record that has one. *)
Definition publication_date (record : value) : option string :=
  match record with
  | VDict r =>
      match r !! "dateparution" with
      | Some (VStr d) => Some d
      | _ => None
      end
  | _ => None
  end.

(** The date filter as a predicate. *)
Definition is_published_on (target_date : string) (record : value) : bool :=
  match publication_date record with
  | Some d => String.eqb d target_date
  | None => false
  end.

(** The records of the target date on the page at an offset. *)
Definition page_matches (api : catalogue) (target_date : string) (offset : Z)
  : list value :=
  List.filter (is_published_on target_date) (page_records api offset).

(** The records a turn of the loop leaves accumulated. *)
Definition flow_records (f : flow) : list value :=
  match f with
  | Break all_records => all_records
  | Next all_records _ => all_records
  end.

(** The outcome of a fetch whose last turn ended in [r]. *)
Definition last_turn (r : outcome flow) : outcome (list value) :=
  match r with
  | Returned f => Returned (flow_records f)
  | Raised e => Raised e
  end.

(* ===================================================================== *)
(** * Sample inputs *)
(* ===================================================================== *)

Definition notice (date : string) (code_departement : value) : value :=
  VDict {[ "dateparution" := VStr date; "code_departement" := code_departement ]}.

Definition page (records : list value) : response :=
  Json (VDict {[ "results" := VList records ]}).

(** A catalogue sorted by date, newest first, in three pages. *)
Definition sample_catalogue : catalogue := fun offset =>
  if (offset =? 0)%Z then
    page [notice "2024-05-02" (VStr "75");
          notice "2024-05-01" (VStr "['75','92']");
          notice "2024-05-01" (VStr "92")]
  else if (offset =? 100)%Z then
    page [notice "2024-05-01" VNone; notice "2024-04-30" (VStr "75")]
  else page [notice "2024-04-29" (VStr "13")].

(** The same catalogue when the request for the second page fails. *)
Definition failing_catalogue : catalogue := fun offset =>
  if (offset =? 0)%Z then sample_catalogue 0%Z
  else RequestException "503 Server Error".

(** A catalogue with nothing in it. *)
Definition empty_catalogue : catalogue := fun _ => page [].

(** The positions, counted from [index], at which a match was recorded. *)
Fixpoint kept_positions {A} (index : nat) (found : list (option A)) : list nat :=
  match found with
  | [] => []
  | Some _ :: rest => index :: kept_positions (S index) rest
  | None :: rest => kept_positions (S index) rest
  end.

(** A row none of whose cells is a list. *)
Definition flat_row (row : gmap string value) : Prop :=
  forall label cell, row !! label = Some cell -> is_list cell = false.

(** The whole number that a float holds, when it holds one. *)
Definition float_whole (x : spec_float) : option Z :=
  match x with
  | S754_zero _ => Some 0%Z
  | S754_finite s m e =>
      let n := if s then Z.neg m else Z.pos m in
      if (0 <=? e)%Z then Some (n * 2 ^ e)%Z
      else if (n mod 2 ^ (- e) =? 0)%Z then Some (n / 2 ^ (- e))%Z
      else None
  | _ => None
  end.

(** A runtime for the sample runs: the texts of [json.dumps] and [repr] are
    only stored or split by the program, so any text will do; the floats of
    the sample runs are small whole numbers, which [str] writes with their
    digits and [.0]; the encoder writes every frame. *)
Definition sample_runtime : PyRuntime :=
  {| json_dumps := fun _ => "[]";
     py_repr := fun _ => "{}";
     float_repr := fun x =>
       match float_whole x with
       | Some z => pretty z +:+ ".0"
       | None => "nan"
       end;
     to_excel := fun _ _ => Returned "PK" |}.

(** A frame with one row whose department field lists 92 before 75. *)
Definition two_codes_row : gmap string value :=
  {[ "idweb" := VStr "24-1"; "code_departement" := VStr "['92', '75']" ]}.

Definition two_codes_frame : dataframe :=
  {| df_columns := {[ "idweb"; "code_departement" ]}; df_rows := [two_codes_row] |}.

(** A well-formed count of departments: string keys that satisfy [P],
    positive counts, no key twice. *)
Definition department_counts (P : string -> Prop) (counts : list (value * nat)) : Prop :=
  Forall (fun kn => (exists s, kn.1 = VStr s /\ P s) /\ 1 <= kn.2) counts
  /\ NoDup (fst <$> counts).

(** A piece of code that never removes the entry of [job_id]. *)
Definition keeps_job (job_id : string) {A} (m : task A) : Prop :=
  forall jobs out jobs',
    is_Some (jobs !! job_id) -> m jobs = (out, jobs') -> is_Some (jobs' !! job_id).

(** The entry [extract_data] creates. *)
Definition new_job (request : ExtractionRequest) : job :=
  {| status := "started";
     message := "Job created, starting processing...";
     target_date := req_target_date request;
     departments := req_departments request;
     total_records := 0;
     filtered_records := 0;
     full_df := None;
     filtered_df := None;
     department_distribution := None |}.

(** The entry the [except] clause leaves. *)
Definition failed_job (e : exception) (j : job) : job :=
  set_message ("Error during processing: " +:+ exc_message e) (set_status "error" j).

Definition sample_request : ExtractionRequest :=
  {| req_target_date := "2024-05-01";
     req_max_records := 5000;
     req_departments := ["75"] |}.

(** A catalogue whose only record carries a null publication date. *)
Definition null_date_catalogue : catalogue := fun _ =>
  page [VDict {[ "dateparution" := VNone ]}].

(** The sample submission, run to its end, and the entry it leaves. *)
Definition sample_run : ExtractionResponse * outcome unit * gmap string job :=
  @submit_and_run sample_runtime sample_catalogue "job-1" sample_request ∅.

Definition sample_final_job : job :=
  default (new_job sample_request) (sample_run.2 !! "job-1").

Definition sample_status : JobStatus :=
  {| js_job_id := "job-1";
     js_status := "completed";
     js_message := "Processing complete. 1 records after filtering.";
     js_total_records := 3;
     js_filtered_records := 1;
     js_department_distribution := [(VStr "75", 1)] |}.

(** The two string forms of a token sequence: quoted inside brackets, and
    bare with commas. *)
Definition quote_token (token : string) : string :=
  String dquote (token +:+ String dquote EmptyString).

Definition bracketed (tokens : list string) : string :=
  "[" +:+ PyStr.join "," (quote_token <$> tokens) +:+ "]".

Definition bare (tokens : list string) : string := PyStr.join "," tokens.

(** A character that the string decoder removes or splits at. *)
Definition separator_char (c : ascii) : bool :=
  Ascii.eqb c comma || Ascii.eqb c dquote || Ascii.eqb c squote.

(** A text that neither begins nor ends with a bracket. *)
Definition unbracketed (s : string) : bool :=
  match PyStr.first_char s with Some c => negb (PyStr.mem c "[]") | None => true end
  && match PyStr.last_char s with Some c => negb (PyStr.mem c "[]") | None => true end.



(* ===================================================================== *)
(** * Further vocabulary and sample inputs *)
(* ===================================================================== *)

(** What [results] holds in the page at an offset, for a body that is a
    dict: [data.get('results', [])]. *)
Definition page_results (api : catalogue) (offset : Z) : option value :=
  match api offset with
  | Json (VDict data) => Some (default (VList []) (data !! "results"))
  | _ => None
  end.

(** A catalogue whose body is a JSON list instead of an object. *)
Definition list_body_catalogue : catalogue := fun _ => Json (VList []).

(** A cell that a spreadsheet can hold as it is: not [None], not a list, not
    a dict. *)
Definition tabular_cell (v : value) : bool :=
  match v with
  | VNone | VList _ | VDict _ => false
  | _ => true
  end.

(** Two records with different keys, one with a null and a nested list. *)
Definition ragged_records : list (gmap string value) :=
  [ {[ "idweb" := VStr "24-1"; "code_departement" := VList [VStr "75"; VStr "92"] ]};
    {[ "idweb" := VStr "24-2"; "objet" := VNone ]} ].

(** What the filter makes of one row that [match_row] judged: the row with the
    new column when a department was found, nothing otherwise. *)
Definition keep_row (row : gmap string value) (judged : outcome (option value))
  : option (gmap string value) :=
  match judged with
  | Returned (Some dep) => Some (<[matched_column := dep]> row)
  | _ => None
  end.

(** The rows of a frame that have a department among the targets, in order,
    each with the new column. *)
Definition matched_rows `{PyRuntime} (target_departments : list string)
    (rows : list (gmap string value)) : list (gmap string value) :=
  omap (fun row => keep_row row (match_row target_departments row)) rows.

(** A row without a department: the field is absent, null, NaN or the empty
    string. *)
Definition no_department (row : gmap string value) : Prop :=
  match row !! "code_departement" with
  | None | Some VNone | Some VNaN | Some (VStr EmptyString) => True
  | _ => False
  end.

(** A frame of three rows: a match, a row without department, another
    match. *)
Definition three_rows_frame : dataframe :=
  {| df_columns := {[ "idweb"; "code_departement" ]};
     df_rows := [ {[ "idweb" := VStr "24-1"; "code_departement" := VStr "75" ]};
                  {[ "idweb" := VStr "24-2"; "code_departement" := VStr "" ]};
                  {[ "idweb" := VStr "24-3"; "code_departement" := VStr "13, 92" ]} ] |}.

(** Its third row, and what the filter gives for the targets 75 and 92. *)
Definition third_row : gmap string value :=
  {[ "idweb" := VStr "24-3"; "code_departement" := VStr "13, 92" ]}.

Definition three_rows_filtered : dataframe :=
  {| df_columns := {[ "idweb"; "code_departement"; matched_column ]};
     df_rows := [ <[matched_column := VStr "75"]>
                    {[ "idweb" := VStr "24-1"; "code_departement" := VStr "75" ]};
                  <[matched_column := VStr "92"]> third_row ] |}.

(** A frame with a cell that holds a list of two codes. *)
Definition list_cell_frame : dataframe :=
  {| df_columns := {[ "idweb"; "code_departement" ]};
     df_rows := [ {[ "idweb" := VStr "24-1"; "code_departement" := VStr "75" ]};
                  {[ "idweb" := VStr "24-2";
                     "code_departement" := VList [VStr "75"; VStr "92"] ]} ] |}.

(** A token as the string decoder gives them: not empty, without a comma or
    a quote character, without white space at either end. *)
Definition clean_token (token : string) : bool :=
  PyStr.nonempty token
  && PyStr.all_chars (fun c => negb (separator_char c)) token
  && match PyStr.first_char token with Some c => negb (PyStr.is_space c) | None => false end
  && match PyStr.last_char token with Some c => negb (PyStr.is_space c) | None => false end.

(** A text of quoted items, a comma and a space between them, in brackets.
    It is the text of a list of strings in JSON (double quotes) when no item
    needs an escape, which a backslash, a double quote or a control character
    would. *)
Definition list_text (quote : ascii) (tokens : list string) : string :=
  "[" +:+ PyStr.join ", " ((fun t => String quote (t +:+ String quote EmptyString)) <$> tokens)
  +:+ "]".

(** A piece of code that leaves every entry of the ledger but that of
    [job_id] as it was. *)
Definition only_touches (job_id : string) {A} (m : task A) : Prop :=
  forall jobs out jobs' other,
    m jobs = (out, jobs') -> other <> job_id -> jobs' !! other = jobs !! other.

(** A ledger with one finished job in it. *)
Definition busy_ledger : gmap string job :=
  {[ "job-0" := set_status "completed" (new_job sample_request) ]}.

(** The date that the comparison with the target reads in a record: the
    field, or the empty string when the record lacks it. *)
Definition date_or_empty (r : gmap string value) : string :=
  match r !! "dateparution" with
  | Some (VStr d) => d
  | _ => EmptyString
  end.

(** Why a fetch made no request after the one for [o]: the request failed,
    the page had no results, the last record of the page is older than the
    target date, the next offset is above the ceiling, or the records
    accumulated reach [max_records]. *)
Definition stop_reason (api : catalogue) (target_date : string) (max_records : Z)
    (o : Z) (rs : list value) : Prop :=
  (exists msg, api o = RequestException msg)
  \/ (exists records, page_results api o = Some records /\ truthy records = false)
  \/ (exists r, last (page_records api o) = Some (VDict r)
                /\ String.ltb (date_or_empty r) target_date = true)
  \/ (10000 < o + 100)%Z
  \/ (max_records <= Z.of_nat (length rs))%Z.

(** [v] is the string [s]. *)
Definition is_str (s : string) (v : value) : bool :=
  match v with
  | VStr t => String.eqb t s
  | _ => false
  end.

(** The row carries [s] in the new column. *)
Definition tagged_with (s : string) (row : gmap string value) : bool :=
  match row !! matched_column with
  | Some v => is_str s v
  | None => false
  end.

(** The count that a distribution holds for [s], over all its entries. *)
Definition key_count (s : string) (counts : list (value * nat)) : nat :=
  sum_list (snd <$> List.filter (fun kn => is_str s kn.1) counts).

(** The rows of the filtered dataset of a job, none when it has no such
    dataset. *)
Definition filtered_rows (j : job) : list (gmap string value) :=
  match filtered_df j with
  | Some df => df_rows df
  | None => []
  end.

(** The field of a record is a number that a float64 column can hold: an
    integer of the signed 64-bit range, a float, or nothing. *)
Definition number_field (label : string) (d : gmap string value) : bool :=
  match d !! label with
  | Some (VInt z) => (- 2 ^ 63 <=? z)%Z && (z <=? 2 ^ 63 - 1)%Z
  | Some (VFloat _) | Some VNaN | None => true
  | _ => false
  end.

(** The field of a record is a float or is missing. *)
Definition float_field (label : string) (d : gmap string value) : bool :=
  match d !! label with
  | Some (VFloat _) | Some VNaN | None => true
  | _ => false
  end.

(** The field of a record is there and is not a number. *)
Definition object_field (label : string) (d : gmap string value) : bool :=
  match d !! label with
  | Some (VInt _) | Some (VFloat _) | Some VNaN | None => false
  | _ => true
  end.

(** The field of a record is an integer. *)
Definition int_field (label : string) (d : gmap string value) : bool :=
  match d !! label with
  | Some (VInt _) => true
  | _ => false
  end.

(** The cells that the cleaned records give to the column of [label]. *)
Definition cleaned_column `{PyRuntime} (label : string) (ds : list (gmap string value))
  : list value :=
  (fun d => match d !! label with Some v => clean_value v | None => VNaN end) <$> ds.

(** Two records of the target date, one with the department as a number and
    one without a department, and a catalogue that serves them. *)
Definition number_code_records : list (gmap string value) :=
  [ {[ "dateparution" := VStr "2024-05-01"; "code_departement" := VInt 75 ]};
    {[ "dateparution" := VStr "2024-05-01" ]} ].

Definition number_code_catalogue : catalogue := fun offset =>
  if (offset =? 0)%Z then page (VDict <$> number_code_records) else page [].

(** Two records with the department once as a number and once as a text. *)
Definition mixed_code_records : list (gmap string value) :=
  [ {[ "code_departement" := VInt 75 ]}; {[ "code_departement" := VStr "92" ]} ].

(* ===================================================================== *)
(** * Properties of the fetcher *)
(* ===================================================================== *)

Section Fetch.
Context (api : catalogue) (target_date : string) (max_records : Z).

(** A turn that goes on moves the offset by one page, below the ceiling. *)
Lemma fetch_page_next offset acc acc' offset' :
  fetch_page api target_date offset acc = Returned (Next acc' offset') ->
  offset' = (offset + 100)%Z /\ (offset' <= 10000)%Z.
Proof.
  unfold fetch_page, limit. intros Hp.
  destruct (api offset) as [msg|data]; [discriminate|].
  destruct (py_get data "results" (VList [])) as [records|e]; simpl in Hp; [|discriminate].
  destruct (negb (truthy records)); [discriminate|].
  destruct (target_records_of target_date records) as [tr|e]; simpl in Hp; [|discriminate].
  destruct (moved_past target_date records) as [[|]|e]; simpl in Hp; try discriminate.
  destruct (10000 <? offset + 100)%Z eqn:Hc; [discriminate|].
  injection Hp as _ <-. split; [reflexivity|]. apply Z.ltb_ge in Hc. lia.
Qed.

(** The loop needs no more turns than the ceiling on the offset allows:
    any two supplies of fuel that cover it give the same run. *)
Lemma fetch_loop_fuel fuel1 fuel2 offset acc :
  (offset <= 10000)%Z ->
  (10000 < offset + 100 * Z.of_nat fuel1)%Z ->
  (10000 < offset + 100 * Z.of_nat fuel2)%Z ->
  fetch_loop fuel1 api target_date max_records offset acc
  = fetch_loop fuel2 api target_date max_records offset acc.
Proof.
  revert fuel2 offset acc.
  induction fuel1 as [|fuel1 IH]; intros fuel2 offset acc Hle H1 H2; [lia|].
  destruct fuel2 as [|fuel2]; [lia|]. simpl.
  destruct (Z.of_nat (length acc) <? max_records)%Z; [|reflexivity].
  destruct (fetch_page api target_date offset acc) as [[acc'|acc' offset']|e] eqn:Hp;
    try reflexivity.
  apply fetch_page_next in Hp as [-> Hle'].
  rewrite (IH fuel2); [reflexivity|lia..].
Qed.

(** More fuel than [get_all_records_for_date] supplies changes nothing. *)
Lemma get_all_records_for_date_fuel extra :
  fetch_loop (101 + extra) api target_date max_records 0 []
  = get_all_records_for_date api target_date max_records.
Proof. unfold get_all_records_for_date. apply fetch_loop_fuel; lia. Qed.

End Fetch.

Section FetchRuns.
Context (api : catalogue) (target_date : string) (max_records : Z).

(** The comprehension is the date filter, whenever it does not raise. *)
Lemma comprehension_filter l kept :
  comprehension target_date l = Returned kept ->
  kept = List.filter (is_published_on target_date) l.
Proof.
  revert kept. induction l as [|r l IH]; intros kept Hc; simpl in Hc.
  - by injection Hc as <-.
  - destruct r as [| | | | | |?|d]; try discriminate. simpl in Hc.
    destruct (comprehension target_date l) as [kept'|e]; [|discriminate].
    simpl in Hc. injection Hc as <-. rewrite (IH kept' eq_refl).
    change (List.filter ?f (?x :: ?l')) with (if f x then x :: List.filter f l' else List.filter f l').
    unfold is_published_on at 3. simpl.
    destruct (d !! "dateparution") as [[]|]; reflexivity.
Qed.

(** The records it keeps are dicts. *)
Lemma comprehension_dicts l kept :
  comprehension target_date l = Returned kept ->
  Forall (fun r => exists d, r = VDict d) kept.
Proof.
  revert kept. induction l as [|r l IH]; intros kept Hc; simpl in Hc.
  - injection Hc as <-. constructor.
  - destruct r as [| | | | | |?|d]; try discriminate. simpl in Hc.
    destruct (comprehension target_date l) as [kept'|e]; [|discriminate].
    simpl in Hc. injection Hc as <-.
    destruct (d !! "dateparution") as [[| | | | |s| |]|]; try by apply IH.
    destruct (s =? target_date)%string; [constructor; [eauto|]|]; by apply IH.
Qed.

(** A turn that does not raise appends the page's records of the target
    date, all of them. *)
Lemma fetch_page_records offset acc f :
  fetch_page api target_date offset acc = Returned f ->
  flow_records f = acc ++ page_matches api target_date offset.
Proof.
  unfold fetch_page, page_matches, page_records. intros Hp.
  destruct (api offset) as [msg|data].
  { injection Hp as <-. simpl. by rewrite app_nil_r. }
  destruct data as [| | | | | | |d]; try discriminate. simpl in Hp.
  destruct (d !! "results") as [records|]; simpl in Hp.
  2:{ injection Hp as <-. simpl. by rewrite app_nil_r. }
  destruct (truthy records) eqn:Ht; simpl in Hp.
  2:{ injection Hp as <-. destruct records as [| | | | | |[|]|]; try discriminate;
      simpl; by rewrite app_nil_r. }
  destruct records as [| | | | |s|l|d']; simpl in Ht, Hp; try discriminate.
  1,3: rewrite Ht in Hp; discriminate.
  destruct (comprehension target_date l) as [tr|e] eqn:Hc; simpl in Hp; [|discriminate].
  apply comprehension_filter in Hc as ->.
  set (tr := List.filter _ l) in *.
  assert (Hacc : match tr with [] => acc | _ :: _ => acc ++ tr end = acc ++ tr).
  { destruct tr; [by rewrite app_nil_r|done]. }
  rewrite Hacc in Hp.
  destruct (moved_past target_date (VList l)) as [[|]|e]; simpl in Hp; try discriminate.
  - by injection Hp as <-.
  - destruct (10000 <? offset + limit)%Z; by injection Hp as <-.
Qed.

Lemma fetch_page_dicts offset acc f :
  Forall (fun r => exists d, r = VDict d) acc ->
  fetch_page api target_date offset acc = Returned f ->
  Forall (fun r => exists d, r = VDict d) (flow_records f).
Proof.
  intros Hacc Hp. rewrite (fetch_page_records _ _ _ Hp).
  apply Forall_app. split; [done|].
  unfold page_matches. apply Forall_forall. intros r Hr.
  apply list_elem_of_In, filter_In in Hr as [_ Hr].
  unfold is_published_on, publication_date in Hr.
  destruct r; try discriminate. eauto.
Qed.

(** A run that requests nothing returns what it started from. *)
Lemma fetch_loop_nil fuel offset acc out :
  fetch_loop fuel api target_date max_records offset acc = (out, []) ->
  out = Returned acc.
Proof.
  destruct fuel as [|fuel]; simpl; [by intros [= <-]|].
  destruct (Z.of_nat (length acc) <? max_records)%Z; [|by intros [= <-]].
  destruct (fetch_page api target_date offset acc) as [[a|a o]|e]; try discriminate.
  destruct (fetch_loop fuel api target_date max_records o a). discriminate.
Qed.

(** The first request is for the offset the run starts at. *)
Lemma fetch_loop_first fuel offset acc out o rest :
  fetch_loop fuel api target_date max_records offset acc = (out, o :: rest) ->
  o = offset.
Proof.
  destruct fuel as [|fuel]; simpl; [discriminate|].
  destruct (Z.of_nat (length acc) <? max_records)%Z; [|discriminate].
  destruct (fetch_page api target_date offset acc) as [[a|a o1]|e]; try by intros [= _ <-].
  destruct (fetch_loop fuel api target_date max_records o1 a). by intros [= _ <-].
Qed.

(** The state of a run at each of its requests: the offset, the records
    accumulated so far, the loop test, and how the turn ends. *)
Lemma fetch_loop_inv fuel offset acc out requested before o after :
  fetch_loop fuel api target_date max_records offset acc = (out, requested) ->
  requested = before ++ o :: after ->
  let acc' := acc ++ concat (page_matches api target_date <$> before) in
  o = (offset + 100 * Z.of_nat (length before))%Z /\
  (Z.of_nat (length acc') < max_records)%Z /\
  match after with
  | [] => out = last_turn (fetch_page api target_date o acc')
  | o' :: _ => exists a, fetch_page api target_date o acc' = Returned (Next a o')
  end.
Proof.
  revert offset acc requested before.
  induction fuel as [|fuel IH]; intros offset acc requested before Hrun Hreq; simpl in Hrun.
  { injection Hrun as _ <-. by destruct before. }
  destruct (Z.of_nat (length acc) <? max_records)%Z eqn:Htest.
  2:{ injection Hrun as _ <-. by destruct before. }
  apply Z.ltb_lt in Htest.
  destruct (fetch_page api target_date offset acc) as [[a|a o1]|e] eqn:Hp.
  - injection Hrun as <- <-. destruct before as [|? [|]]; try discriminate.
    injection Hreq as <- <-. simpl. rewrite app_nil_r, Hp.
    split; [lia|]. split; [lia|done].
  - destruct (fetch_loop fuel api target_date max_records o1 a) as [out' req'] eqn:Hrec.
    injection Hrun as <- <-.
    destruct before as [|b before]; simpl in Hreq; injection Hreq as <- ->.
    + simpl. rewrite app_nil_r. split; [lia|]. split; [lia|].
      destruct after as [|o' after].
      * apply fetch_loop_nil in Hrec as ->. by rewrite Hp.
      * apply fetch_loop_first in Hrec as ->. eauto.
    + destruct (IH _ _ _ _ Hrec eq_refl) as (Ho & Hlen & Hafter).
      pose proof (fetch_page_next _ _ _ _ _ _ Hp) as [-> _].
      pose proof (fetch_page_records _ _ _ Hp) as Ha. simpl in Ha. subst a.
      simpl. rewrite app_assoc. split; [lia|]. split; [done|done].
  - injection Hrun as <- <-. destruct before as [|? [|]]; try discriminate.
    injection Hreq as <- <-. simpl. rewrite app_nil_r, Hp.
    split; [lia|]. split; [lia|done].
Qed.

End FetchRuns.

(** ** Stopping on the date *)

(** A page whose last record is older than the target ends the loop. *)
Lemma fetch_page_stops api target_date offset acc r d a o :
  last (page_records api offset) = Some r ->
  publication_date r = Some d ->
  String.ltb d target_date = true ->
  fetch_page api target_date offset acc <> Returned (Next a o).
Proof.
  unfold fetch_page, page_records. intros Hlast Hd Hlt Hp.
  destruct (api offset) as [msg|[| | | | | | |data]]; try discriminate.
  unfold py_get in Hp at 1. cbn [mbind outcome_bind] in Hp.
  destruct (data !! "results") as [[| | | | | |l|]|]; try discriminate.
  destruct l as [|r0 l]; [discriminate|].
  change (negb (truthy (VList (r0 :: l)))) with false in Hp. cbv iota in Hp.
  destruct (target_records_of target_date (VList (r0 :: l))) as [tr|e];
    cbn [mbind outcome_bind] in Hp; [|discriminate].
  unfold moved_past in Hp.
  change (truthy (VList (r0 :: l))) with true in Hp. cbv iota in Hp.
  unfold last_record in Hp. rewrite Hlast in Hp. cbn [mbind outcome_bind] in Hp.
  destruct r as [| | | | | | |rd]; try discriminate.
  unfold py_get in Hp. cbn [mbind outcome_bind] in Hp. simpl in Hd.
  destruct (rd !! "dateparution") as [[| | | | |s| |]|]; try discriminate.
  injection Hd as ->. rewrite Hlt in Hp. discriminate.
Qed.

(** C4.  Whatever the catalogue (sorted or not), once a requested page ends in
    a record whose publication date is strictly earlier than the target date,
    that page is the last one requested: the run stops there, whatever
    [max_records] is, and every other request was for a smaller offset. *)
Theorem fetch_stops_after_older_page api target_date max_records out requested o r d :
  get_all_records_for_date api target_date max_records = (out, requested) ->
  o ∈ requested ->
  last (page_records api o) = Some r ->
  publication_date r = Some d ->
  String.ltb d target_date = true ->
  exists before, requested = before ++ [o] /\ Forall (fun o' => (o' < o)%Z) before.
Proof.
  intros Hrun Hin Hlast Hd Hlt.
  apply list_elem_of_split in Hin as (before & after & Hreq).
  pose proof (fetch_loop_inv _ _ _ _ _ _ _ _ _ _ _ Hrun Hreq) as (Ho & _ & Hafter).
  destruct after as [|o' after].
  2:{ destruct Hafter as [a Ha]. by eapply fetch_page_stops in Ha. }
  exists before. split; [done|].
  apply Forall_forall. intros o' Hin'.
  apply list_elem_of_split in Hin' as (b1 & b2 & ->).
  rewrite <- app_assoc in Hreq. simpl in Hreq.
  pose proof (fetch_loop_inv _ _ _ _ _ _ _ _ _ _ _ Hrun Hreq) as (Ho' & _).
  rewrite length_app in Ho. simpl in Ho. lia.
Qed.

Lemma fetch_stops_after_older_page_witness :
  exists before,
    snd (get_all_records_for_date sample_catalogue "2024-05-01" 5000) = before ++ [100%Z]
    /\ Forall (fun o' => (o' < 100)%Z) before.
Proof.
  apply (fetch_stops_after_older_page sample_catalogue "2024-05-01" 5000
           (fst (get_all_records_for_date sample_catalogue "2024-05-01" 5000))
           _ 100 (notice "2024-04-30" (VStr "75")) "2024-04-30").
  - vm_compute. reflexivity.
  - vm_compute. apply list_elem_of_further, list_elem_of_here.
  - vm_compute. reflexivity.
  - vm_compute. reflexivity.
  - vm_compute. reflexivity.
Defined.

(** ** The role of [max_records] *)

(** A run that returns gives every record of the target date of every page
    it requested. *)
Lemma fetch_loop_records api target_date max_records fuel offset acc rs requested :
  fetch_loop fuel api target_date max_records offset acc = (Returned rs, requested) ->
  rs = acc ++ concat (page_matches api target_date <$> requested).
Proof.
  revert offset acc requested.
  induction fuel as [|fuel IH]; intros offset acc requested Hrun; simpl in Hrun.
  { injection Hrun as <- <-. simpl. by rewrite app_nil_r. }
  destruct (Z.of_nat (length acc) <? max_records)%Z.
  2:{ injection Hrun as <- <-. simpl. by rewrite app_nil_r. }
  destruct (fetch_page api target_date offset acc) as [[a|a o1]|e] eqn:Hp.
  - injection Hrun as <- <-. apply fetch_page_records in Hp. simpl in *.
    by rewrite app_nil_r.
  - destruct (fetch_loop fuel api target_date max_records o1 a) as [out' req'] eqn:Hrec.
    injection Hrun as -> <-. apply IH in Hrec as ->.
    apply fetch_page_records in Hp. simpl in *. subst a. by rewrite app_assoc.
  - discriminate.
Qed.

(** C5.  [max_records] is only the test of the loop.  Some fetch returns more
    than [max_records] records; and every fetch that returns gives all the
    records of the target date of all the pages it requested, without
    truncation, each page having been requested while the records of the pages
    before it were fewer than [max_records]. *)
Theorem max_records_is_a_loop_test :
  (exists api target_date max_records rs requested,
      get_all_records_for_date api target_date max_records = (Returned rs, requested)
      /\ (max_records < Z.of_nat (length rs))%Z)
  /\
  (forall api target_date max_records rs requested,
      get_all_records_for_date api target_date max_records = (Returned rs, requested) ->
      rs = concat (page_matches api target_date <$> requested)
      /\ forall before o after,
           requested = before ++ o :: after ->
           (Z.of_nat (length (concat (page_matches api target_date <$> before)))
            < max_records)%Z).
Proof.
  split.
  - exists sample_catalogue, "2024-05-01", 1%Z. eexists _, _.
    split; [vm_compute; reflexivity|]. simpl. lia.
  - intros api target_date max_records rs requested Hrun. split.
    + by apply fetch_loop_records in Hrun.
    + intros before o after Hreq.
      by pose proof (fetch_loop_inv _ _ _ _ _ _ _ _ _ _ _ Hrun Hreq) as (_ & Hlen & _).
Qed.

Lemma max_records_is_a_loop_test_witness :
  fst (get_all_records_for_date sample_catalogue "2024-05-01" 1)
  = Returned (concat (page_matches sample_catalogue "2024-05-01" <$> [0%Z]))
  /\ (1 < Z.of_nat (length (concat (page_matches sample_catalogue "2024-05-01" <$> [0%Z]))))%Z.
Proof.
  destruct (proj2 max_records_is_a_loop_test sample_catalogue "2024-05-01" 1%Z
              (concat (page_matches sample_catalogue "2024-05-01" <$> [0%Z])) [0%Z])
    as [_ _].
  - vm_compute. reflexivity.
  - split; [vm_compute; reflexivity|]. vm_compute. reflexivity.
Defined.

(* ===================================================================== *)
(** * Properties of the normaliser *)
(* ===================================================================== *)

Section Normaliser.
Context `{PyRuntime}.

Lemma clean_value_flat v : is_list (clean_value v) = false.
Proof. by destruct v. Qed.

(** Dicts are cleaned without an exception, one row each, and no cell of a
    cleaned record is a list. *)
Lemma clean_records_dicts records :
  Forall (fun r => exists d, r = VDict d) records ->
  exists cleaned,
    clean_records records = Returned cleaned
    /\ length cleaned = length records
    /\ Forall flat_row cleaned.
Proof.
  induction 1 as [|r records [d ->] _ (cleaned & Hc & Hlen & Hflat)].
  - exists []. by repeat split.
  - exists ((clean_value <$> d) :: cleaned). simpl. rewrite Hc. simpl.
    repeat split; [by rewrite Hlen|].
    constructor; [|done]. intros label cell Hcell.
    rewrite lookup_fmap in Hcell.
    destruct (d !! label) as [v|]; [|done]. injection Hcell as <-.
    apply clean_value_flat.
Qed.

Lemma pd_DataFrame_len cleaned : df_len (pd_DataFrame cleaned) = length cleaned.
Proof. unfold df_len, pd_DataFrame. simpl. by rewrite !length_fmap. Qed.

Lemma stored_cell_flat cells cell :
  is_list cell = false -> is_list (stored_cell cells cell) = false.
Proof. unfold stored_cell. destruct (float64_column cells); [|done]. by destruct cell. Qed.

Lemma pd_DataFrame_flat cleaned :
  Forall flat_row cleaned -> Forall flat_row (df_rows (pd_DataFrame cleaned)).
Proof.
  intros Hflat. unfold pd_DataFrame. simpl. apply Forall_fmap, Forall_fmap.
  eapply Forall_impl; [exact Hflat|]. intros row Hrow label cell Hcell. simpl in Hcell.
  rewrite map_lookup_imap in Hcell.
  destruct (_ !! label) as [c|] eqn:Hc; [|done]. simpl in Hcell. injection Hcell as <-.
  apply stored_cell_flat.
  apply lookup_union_Some_raw in Hc as [Hc|[_ Hc]]; [by eapply Hrow|].
  apply lookup_gset_to_gmap_Some in Hc as [_ <-]. done.
Qed.

(** Normalisation of fetched records: total, one row per record. *)
Lemma create_excel_simple_dicts records target_date :
  Forall (fun r => exists d, r = VDict d) records ->
  exists df,
    create_excel_simple records target_date = Returned df
    /\ df_len df = length records
    /\ Forall flat_row (df_rows df).
Proof.
  intros (cleaned & Hc & Hlen & Hflat)%clean_records_dicts.
  exists (pd_DataFrame cleaned). unfold create_excel_simple. rewrite Hc. simpl.
  repeat split.
  - by rewrite pd_DataFrame_len.
  - by apply pd_DataFrame_flat.
Qed.

End Normaliser.

(* ===================================================================== *)
(** * Properties of the matcher *)
(* ===================================================================== *)

Section KeptPositions.
Context {A : Type}.
Implicit Types found : list (option A).

Lemma kept_positions_lookup found index i :
  i ∈ kept_positions index found <->
  index <= i /\ exists d, found !! (i - index) = Some (Some d).
Proof.
  revert index. induction found as [|[d|] found IH]; intros index; simpl.
  - split; [by intros ?%elem_of_nil|]. by intros (_ & d & ?).
  - rewrite elem_of_cons, IH. split.
    + intros [->|(Hle & d' & Hd')].
      * split; [lia|]. exists d. by rewrite Nat.sub_diag.
      * split; [lia|]. exists d'.
        replace (i - index) with (S (i - S index)) by lia. done.
    + intros (Hle & d' & Hd').
      destruct (decide (i = index)) as [->|Hne]; [by left|]. right.
      split; [lia|]. exists d'.
      replace (i - index) with (S (i - S index)) in Hd' by lia. done.
  - rewrite IH. split.
    + intros (Hle & d' & Hd'). split; [lia|]. exists d'.
      replace (i - index) with (S (i - S index)) by lia. done.
    + intros (Hle & d' & Hd').
      destruct (decide (i = index)) as [->|Hne].
      { rewrite Nat.sub_diag in Hd'. discriminate. }
      split; [lia|]. exists d'.
      replace (i - index) with (S (i - S index)) in Hd' by lia. done.
Qed.

Lemma kept_positions_sorted found index :
  StronglySorted lt (kept_positions index found).
Proof.
  revert index. induction found as [|[d|] found IH]; intros index; simpl.
  - constructor.
  - constructor; [apply IH|]. apply Forall_forall. intros i Hi.
    apply kept_positions_lookup in Hi. lia.
  - apply IH.
Qed.

Lemma kept_positions_length found index :
  length (kept_positions index found) <= length found.
Proof.
  revert index. induction found as [|[d|] found IH]; intros index; simpl;
    [lia| |]; specialize (IH (S index)); lia.
Qed.

End KeptPositions.

Section Matcher.
Context `{PyRuntime}.
Implicit Types (rows : list (gmap string value)) (found : list (option value)).

(** The loop with its [break] records the first token of the targets. *)
Lemma first_match_first targets pre dep post :
  Forall (fun x => in_targets targets x = false) pre ->
  in_targets targets dep = true ->
  first_match targets (pre ++ dep :: post) = Some dep.
Proof.
  intros Hpre Hdep. induction Hpre as [|x pre Hx _ IH]; simpl.
  - by rewrite Hdep.
  - by rewrite Hx.
Qed.

Lemma first_match_Some targets dep_list dep :
  first_match targets dep_list = Some dep ->
  exists pre post,
    dep_list = pre ++ dep :: post
    /\ Forall (fun x => in_targets targets x = false) pre
    /\ in_targets targets dep = true.
Proof.
  induction dep_list as [|x l IH]; simpl; [discriminate|].
  destruct (in_targets targets x) eqn:Hx.
  - intros [= ->]. exists [], l. by repeat split.
  - intros (pre & post & -> & Hpre & Hdep)%IH.
    exists (x :: pre), post. repeat split; [|done]. by constructor.
Qed.

Lemma first_match_None targets dep_list :
  first_match targets dep_list = None ->
  Forall (fun x => in_targets targets x = false) dep_list.
Proof.
  induction dep_list as [|x l IH]; simpl; [constructor|].
  destruct (in_targets targets x) eqn:Hx; [discriminate|].
  intros ?%IH. by constructor.
Qed.

Lemma in_targets_str targets dep :
  in_targets targets dep = true -> exists s, dep = VStr s /\ s ∈ targets.
Proof.
  destruct dep; try discriminate. simpl. intros ?%bool_decide_eq_true. eauto.
Qed.

(** What the scan of the rows records: for each row the outcome of
    [match_row], and the positions of the rows with a match. *)
Lemma scan_rows_spec targets rows index indices found :
  scan_rows targets rows index = Returned (indices, found) ->
  Forall2 (fun row f => match_row targets row = Returned f) rows found
  /\ indices = kept_positions index found.
Proof.
  revert index indices found.
  induction rows as [|row rows IH]; intros index indices found; simpl.
  - intros [= <- <-]. split; [constructor|done].
  - destruct (match_row targets row) as [f|e] eqn:Hrow; [|discriminate]. simpl.
    destruct (scan_rows targets rows (S index)) as [[indices' found']|e] eqn:Hscan;
      [|discriminate].
    simpl. intros [= <- <-].
    destruct (IH _ _ _ Hscan) as [Hall ->].
    split; [by constructor|]. by destruct f.
Qed.

(** On a cell that is not a list the test of the [if] does not raise. *)
Lemma skip_row_flat cell :
  is_list cell = false -> exists b, skip_row cell = Returned b.
Proof. destruct cell; try discriminate; simpl; eauto. Qed.

Lemma match_row_flat targets row :
  flat_row row -> exists f, match_row targets row = Returned f.
Proof.
  intros Hflat. unfold match_row.
  destruct (skip_row_flat (default (VStr EmptyString) (row !! "code_departement")))
    as [b ->].
  { destruct (row !! "code_departement") eqn:Hcell; simpl; [by eapply Hflat|done]. }
  simpl. destruct b; eauto.
Qed.

Lemma scan_rows_flat targets rows index :
  Forall flat_row rows ->
  exists scanned, scan_rows targets rows index = Returned scanned.
Proof.
  intros Hflat. revert index.
  induction Hflat as [|row rows Hrow _ IH]; intros index; simpl; [eauto|].
  destruct (match_row_flat targets row Hrow) as [f ->].
  destruct (IH (S index)) as [scanned ->]. simpl. eauto.
Qed.

(** The rows of the filtered frame, one per kept index, in order: the row of
    the input at that index with the recorded department in the new column. *)
Lemma tagged_rows_spec rows found index_list :
  Forall (fun i => exists row d, rows !! i = Some row /\ found !! i = Some (Some d))
         index_list ->
  Forall2 (fun i frow =>
             exists row d, rows !! i = Some row /\ found !! i = Some (Some d)
                           /\ frow = <[matched_column := d]> row)
          index_list (tagged_rows rows index_list found).
Proof.
  induction 1 as [|i l (row & d & Hrow & Hd) _ IH]; unfold tagged_rows; simpl.
  - constructor.
  - rewrite Hrow, Hd. simpl. constructor; [|exact IH]. eauto.
Qed.

(** What [filter_by_departments] returns, when it returns. *)
Lemma filter_by_departments_spec df targets out :
  filter_by_departments df targets = Returned out ->
  exists found,
    Forall2 (fun row f => match_row targets row = Returned f) (df_rows df) found
    /\ Forall2 (fun i frow =>
                  exists row d, df_rows df !! i = Some row
                                /\ found !! i = Some (Some d)
                                /\ frow = <[matched_column := d]> row)
               (kept_positions 0 found) (df_rows out)
    /\ df_columns out = df_columns df ∪ {[matched_column]}.
Proof.
  unfold filter_by_departments.
  destruct (scan_rows targets (df_rows df) 0) as [[indices found]|e] eqn:Hscan;
    [|discriminate].
  simpl. destruct (scan_rows_spec _ _ _ _ _ Hscan) as [Hall ->].
  intros Hout. exists found. split; [done|].
  assert (Hrows : df_rows out = tagged_rows (df_rows df) (kept_positions 0 found) found
                  /\ df_columns out = df_columns df ∪ {[matched_column]}).
  { destruct (kept_positions 0 found); injection Hout as <-; done. }
  destruct Hrows as [-> ->]. split; [|done].
  apply tagged_rows_spec. apply Forall_forall. intros i Hi.
  apply kept_positions_lookup in Hi as (_ & d & Hd). rewrite Nat.sub_0_r in Hd.
  destruct (Forall2_lookup_r _ _ _ _ _ Hall Hd) as (row & Hrow & _). eauto.
Qed.

Lemma filter_by_departments_flat df targets :
  Forall flat_row (df_rows df) ->
  exists out, filter_by_departments df targets = Returned out.
Proof.
  intros Hflat. unfold filter_by_departments.
  destruct (scan_rows_flat targets _ 0 Hflat) as [scanned ->]. simpl.
  destruct (fst scanned); eauto.
Qed.

End Matcher.

Section FirstMatch.
Context `{PyRuntime}.

(** C3.  When the filter returns, every row that reaches the decoder (its
    department field is neither missing nor empty) and whose decoded tokens
    include a member of the target list is in the filtered frame, and the
    department recorded for it is the first token of the decoded list, in
    the list's order, that is in the target list: it is a member of the
    target list, and no token before it in the decoded list is one. *)
Theorem first_matching_token_is_recorded df targets out i row member :
  filter_by_departments df targets = Returned out ->
  df_rows df !! i = Some row ->
  skip_row (default (VStr EmptyString) (row !! "code_departement")) = Returned false ->
  VStr member ∈ decode_departments (default (VStr EmptyString) (row !! "code_departement")) ->
  member ∈ targets ->
  exists pre dep post k,
    decode_departments (default (VStr EmptyString) (row !! "code_departement"))
    = pre ++ VStr dep :: post
    /\ dep ∈ targets
    /\ (forall token, token ∈ targets -> VStr token ∉ pre)
    /\ df_rows out !! k = Some (<[matched_column := VStr dep]> row).
Proof.
  intros Hout Hrow Hskip Hmem Hin.
  destruct (filter_by_departments_spec _ _ _ Hout) as (found & Hall & Hrows & _).
  destruct (Forall2_lookup_l _ _ _ _ _ Hall Hrow) as (f & Hf & Hmatch).
  unfold match_row in Hmatch. rewrite Hskip in Hmatch. simpl in Hmatch.
  injection Hmatch as <-.
  destruct (first_match targets _) as [d|] eqn:Hfirst.
  2:{ apply first_match_None in Hfirst.
      rewrite Forall_forall in Hfirst. specialize (Hfirst _ Hmem).
      simpl in Hfirst. by apply bool_decide_eq_false in Hfirst. }
  destruct (first_match_Some _ _ _ Hfirst) as (pre & post & Hdec & Hpre & Hdep).
  destruct (in_targets_str _ _ Hdep) as (dep & -> & Hdep').
  assert (Hi : i ∈ kept_positions 0 found).
  { apply kept_positions_lookup. split; [lia|]. exists (VStr dep). by rewrite Nat.sub_0_r. }
  apply list_elem_of_lookup in Hi as [k Hk].
  destruct (Forall2_lookup_l _ _ _ _ _ Hrows Hk)
    as (frow & Hfrow & row' & d' & Hrow' & Hd' & ->).
  rewrite Hrow in Hrow'. injection Hrow' as <-.
  rewrite Hf in Hd'. injection Hd' as <-.
  exists pre, dep, post, k. repeat split; [done..| |done].
  intros token Htoken Hpre'. rewrite Forall_forall in Hpre.
  specialize (Hpre _ Hpre'). simpl in Hpre. by apply bool_decide_eq_false in Hpre.
Qed.

End FirstMatch.

(** A cell that holds a list of two codes does not reach the decoder: the
    test on missing values raises on it. *)
Example list_cell_of_two_raises :
  skip_row (VList [VStr "75"; VStr "92"]) = Raised ambiguous_truth.
Proof. reflexivity. Qed.

(** The example of the specification: codes 92 then 75 against the targets 75
    and 92 record 92. *)
Example first_match_92 :
  @filter_by_departments sample_runtime two_codes_frame ["75"; "92"]
  = Returned {| df_columns := {[ "idweb"; "code_departement"; matched_column ]};
                df_rows := [<[matched_column := VStr "92"]> two_codes_row] |}.
Proof. vm_compute. reflexivity. Qed.

(** Codes 13 then 92 against the same targets: 13 is passed over, and the
    row is kept with 92. *)
Example first_match_after_13 :
  @decode_departments sample_runtime (VStr "13, 92") = [VStr "13"; VStr "92"]
  /\ @filter_by_departments sample_runtime three_rows_frame ["75"; "92"]
     = Returned three_rows_filtered.
Proof. split; vm_compute; reflexivity. Qed.

(** The third row of the sample frame holds the codes 13 and 92: 13 is not
    a target and is passed over, 92 is recorded. *)
Lemma first_matching_token_is_recorded_witness :
  exists pre dep post k,
    @decode_departments sample_runtime
      (default (VStr EmptyString) (third_row !! "code_departement"))
    = pre ++ VStr dep :: post
    /\ dep ∈ ["75"; "92"]
    /\ (forall token, token ∈ ["75"; "92"] -> VStr token ∉ pre)
    /\ df_rows three_rows_filtered !! k = Some (<[matched_column := VStr dep]> third_row).
Proof.
  apply (@first_matching_token_is_recorded sample_runtime three_rows_frame ["75"; "92"]
           three_rows_filtered 2 third_row "92").
  - vm_compute. reflexivity.
  - reflexivity.
  - vm_compute. reflexivity.
  - vm_compute. apply list_elem_of_further, list_elem_of_here.
  - apply list_elem_of_further, list_elem_of_here.
Defined.

(* ===================================================================== *)
(** * Properties of the counting *)
(* ===================================================================== *)

Section Counting.
Context (P : string -> Prop).

Lemma count_up_sum key counts :
  sum_list (snd <$> count_up key counts) = S (sum_list (snd <$> counts)).
Proof.
  induction counts as [|[k n] counts IH]; [done|].
  cbn [count_up]. destruct (py_eqb k key); rewrite !fmap_cons; cbn [sum_list snd]; [done|].
  rewrite IH. lia.
Qed.

Lemma count_up_keys s counts :
  Forall (fun kn => exists s', kn.1 = VStr s') counts ->
  (VStr s ∈ (fst <$> counts)
   /\ (fst <$> count_up (VStr s) counts) = (fst <$> counts))
  \/ ((VStr s ∉ (fst <$> counts))
      /\ (fst <$> count_up (VStr s) counts) = (fst <$> counts) ++ [VStr s]).
Proof.
  induction 1 as [|[k n] counts [s' Hk] _ IH].
  - right. split; [apply not_elem_of_nil|done].
  - simpl in Hk. subst k. cbn [count_up py_eqb].
    destruct (String.eqb s' s) eqn:Heq; rewrite !fmap_cons; cbn [fst].
    + apply String.eqb_eq in Heq as ->. left. split; [left|done].
    + apply String.eqb_neq in Heq.
      destruct IH as [[Hin Hk]|[Hnin Hk]]; rewrite Hk.
      * left. split; [by right|done].
      * right. split; [|done]. rewrite not_elem_of_cons. split; [congruence|done].
Qed.

Lemma count_up_department_counts s counts :
  P s -> department_counts P counts -> department_counts P (count_up (VStr s) counts).
Proof.
  intros Hs [Hall Hnodup]. split.
  - clear Hnodup. induction Hall as [|[k n] counts [Hk Hn] Hall IH]; cbn [count_up].
    + constructor; [|constructor]. simpl. split; [eauto|lia].
    + destruct (py_eqb k (VStr s)).
      * constructor; [|done]. simpl in *. split; [done|lia].
      * by constructor.
  - destruct (count_up_keys s counts) as [[_ ->]|[Hnin ->]]; [|done|].
    + eapply Forall_impl; [exact Hall|]. by intros kn [(s' & ? & _) _]; eauto.
    + apply NoDup_app. split; [done|]. split; [|apply NoDup_singleton].
      intros x Hx ->%list_elem_of_singleton. done.
Qed.

(** Counting a column of department strings does not raise, counts every
    cell once and keeps the counts well formed. *)
Lemma value_counts_from_strings column counts :
  Forall (fun v => exists s, v = VStr s /\ P s) column ->
  department_counts P counts ->
  exists counts',
    value_counts_from counts column = Returned counts'
    /\ department_counts P counts'
    /\ sum_list (snd <$> counts') = sum_list (snd <$> counts) + length column.
Proof.
  intros Hcol. revert counts.
  induction Hcol as [|v column (s & -> & Hs) _ IH]; intros counts Hcounts; simpl.
  - exists counts. split; [done|]. split; [done|]. lia.
  - destruct (IH (count_up (VStr s) counts)) as (counts' & -> & Hc' & Hsum).
    { by apply count_up_department_counts. }
    exists counts'. split; [done|]. split; [done|].
    rewrite Hsum, count_up_sum. lia.
Qed.

Lemma value_counts_strings column :
  Forall (fun v => exists s, v = VStr s /\ P s) column ->
  exists counts,
    value_counts column = Returned counts
    /\ department_counts P counts
    /\ sum_list (snd <$> counts) = length column.
Proof.
  intros Hcol.
  destruct (value_counts_from_strings column [] Hcol) as (counts & Hc & Hd & Hsum).
  { split; [constructor|constructor]. }
  exists counts. split; [done|]. split; [done|]. simpl in Hsum. lia.
Qed.

End Counting.

Section MatchedColumn.
Context `{PyRuntime}.

Lemma match_row_Some targets row d :
  match_row targets row = Returned (Some d) -> in_targets targets d = true.
Proof.
  unfold match_row.
  destruct (skip_row _) as [[|]|e]; simpl; try discriminate.
  intros [= Hfirst]. by apply first_match_Some in Hfirst as (_ & _ & _ & _ & ?).
Qed.

(** The new column of a filtered frame holds members of the target list. *)
Lemma filtered_column_targets df targets out :
  filter_by_departments df targets = Returned out ->
  Forall (fun v => exists s, v = VStr s /\ s ∈ targets) (df_column matched_column out).
Proof.
  intros (found & Hall & Hrows & _)%filter_by_departments_spec.
  unfold df_column. apply Forall_fmap, Forall_forall. intros frow Hfrow.
  apply list_elem_of_lookup in Hfrow as [k Hk].
  destruct (Forall2_lookup_r _ _ _ _ _ Hrows Hk)
    as (i & _ & row & d & Hrow & Hd & ->).
  destruct (Forall2_lookup_r _ _ _ _ _ Hall Hd) as (row' & _ & Hmatch).
  simpl. rewrite lookup_insert_eq. simpl.
  by apply match_row_Some, in_targets_str in Hmatch.
Qed.

End MatchedColumn.

(* ===================================================================== *)
(** * Properties of the pipeline *)
(* ===================================================================== *)

Lemma bind_update {A} job_id f (k : unit -> task A) jobs j :
  jobs !! job_id = Some j ->
  (update_job job_id f ≫= k) jobs = k tt (<[job_id := f j]> jobs).
Proof.
  intros Hj. unfold mbind, task_bind, update_job. by rewrite Hj.
Qed.

Lemma update_job_Some job_id f jobs j :
  jobs !! job_id = Some j ->
  update_job job_id f jobs = (Returned tt, <[job_id := f j]> jobs).
Proof. intros Hj. unfold update_job. by rewrite Hj. Qed.

Lemma bind_lift_Returned {A B} (a : A) (k : A -> task B) jobs :
  (lift (Returned a) ≫= k) jobs = k a jobs.
Proof. reflexivity. Qed.

Lemma bind_lift_Raised {A B} e (k : A -> task B) jobs :
  (lift (Raised e) ≫= k) jobs = (Raised e, jobs).
Proof. reflexivity. Qed.

Lemma bind_assoc {A B C} (m : task A) (k1 : A -> task B) (k2 : B -> task C) jobs :
  ((m ≫= k1) ≫= k2) jobs = (m ≫= (fun a => k1 a ≫= k2)) jobs.
Proof.
  unfold mbind, task_bind. by destruct (m jobs) as [[a|e] jobs'].
Qed.

(** One assignment to the job's entry, run on a ledger that has the entry. *)
Ltac run_update :=
  first
    [ erewrite bind_update by (first [eassumption | apply lookup_insert_eq])
    | erewrite update_job_Some by (first [eassumption | apply lookup_insert_eq]) ];
  cbv beta; rewrite ?insert_insert_eq.

(** The fetched records are dicts. *)
Lemma get_all_records_for_date_dicts api target_date max_records rs requested :
  get_all_records_for_date api target_date max_records = (Returned rs, requested) ->
  Forall (fun r => exists d, r = VDict d) rs.
Proof.
  intros ->%fetch_loop_records. simpl.
  apply Forall_concat, Forall_fmap, Forall_forall. intros o _. simpl.
  unfold page_matches. apply Forall_forall. intros r Hr.
  apply list_elem_of_In, filter_In in Hr as [_ Hr].
  unfold is_published_on, publication_date in Hr. destruct r; try discriminate. eauto.
Qed.

Section Pipeline.
Context `{PyRuntime}.
Context (api : catalogue) (job_id target : string) (max_records : Z)
        (targets : list string).

(** The fetch found nothing: the short cut. *)
Lemma process_extraction_try_zero jobs j :
  jobs !! job_id = Some j ->
  fst (get_all_records_for_date api target max_records) = Returned [] ->
  process_extraction_try api job_id target max_records targets jobs
  = (Returned tt,
     <[job_id := {| status := "completed";
                    message := "No records found for date " +:+ target;
                    target_date := target_date j;
                    departments := departments j;
                    total_records := 0;
                    filtered_records := 0;
                    full_df := full_df j;
                    filtered_df := filtered_df j;
                    department_distribution := department_distribution j |}]> jobs).
Proof.
  intros Hj Hfetch. unfold process_extraction_try.
  do 2 run_update. rewrite Hfetch, bind_lift_Returned.
  do 4 run_update. reflexivity.
Qed.

(** The fetch found records: the frames, the counts and the entry the
    pipeline leaves. *)
Lemma process_extraction_try_records jobs j rs :
  jobs !! job_id = Some j ->
  fst (get_all_records_for_date api target max_records) = Returned rs ->
  rs <> [] ->
  exists df df_filtered dept_counts,
    create_excel_simple rs target = Returned df
    /\ df_len df = length rs
    /\ filter_by_departments df targets = Returned df_filtered
    /\ (if 0 <? df_len df_filtered
        then value_counts (df_column matched_column df_filtered) = Returned dept_counts
        else dept_counts = [])
    /\ process_extraction_try api job_id target max_records targets jobs
       = (Returned tt,
          <[job_id := {| status := "completed";
                         message := "Processing complete. "
                                    +:+ pretty (df_len df_filtered)
                                    +:+ " records after filtering.";
                         target_date := target_date j;
                         departments := departments j;
                         total_records := length rs;
                         filtered_records := df_len df_filtered;
                         full_df := Some df;
                         filtered_df := Some df_filtered;
                         department_distribution := Some dept_counts |}]> jobs).
Proof.
  intros Hj Hfetch Hrs.
  destruct (get_all_records_for_date api target max_records) as [out requested] eqn:Hrun.
  simpl in Hfetch. subst out.
  pose proof (get_all_records_for_date_dicts _ _ _ _ _ Hrun) as Hdicts.
  destruct (create_excel_simple_dicts rs target Hdicts) as (df & Hdf & Hlen & Hflat).
  destruct (filter_by_departments_flat df targets Hflat) as [dff Hdff].
  pose proof (filtered_column_targets _ _ _ Hdff) as Hcol.
  destruct (value_counts_strings _ _ Hcol) as (counts & Hcounts & _).
  destruct (filter_by_departments_spec _ _ _ Hdff) as (_ & _ & _ & Hcolumns).
  exists df, dff, (if 0 <? df_len dff then counts else []).
  split; [done|]. split; [done|]. split; [done|].
  split; [by destruct (0 <? df_len dff)|].
  unfold process_extraction_try.
  do 2 run_update. rewrite Hrun. cbn [fst]. rewrite bind_lift_Returned.
  destruct rs as [|r rs]; [done|].
  do 2 run_update. rewrite Hdf, bind_lift_Returned, Hdff, bind_lift_Returned.
  do 4 run_update.
  rewrite Hcolumns.
  rewrite (bool_decide_eq_true_2 (matched_column ∈ _)) by (clear; set_solver).
  rewrite andb_true_r.
  destruct (0 <? df_len dff).
  - rewrite bind_assoc, Hcounts, bind_lift_Returned. do 2 run_update. reflexivity.
  - do 2 run_update. reflexivity.
Qed.

End Pipeline.

Section KeepsJob.
Context (job_id : string).

Lemma keeps_update f : keeps_job job_id (update_job job_id f).
Proof.
  intros jobs out jobs' [j Hj]. unfold update_job. rewrite Hj.
  intros [= _ <-]. rewrite lookup_insert_eq. eauto.
Qed.

Lemma keeps_lift {A} (m : outcome A) : keeps_job job_id (lift m).
Proof. by intros jobs out jobs' Hj [= _ <-]. Qed.

Lemma keeps_bind {A B} (m : task A) (k : A -> task B) :
  keeps_job job_id m -> (forall a, keeps_job job_id (k a)) ->
  keeps_job job_id (m ≫= k).
Proof.
  intros Hm Hk jobs out jobs' Hj. unfold mbind, task_bind.
  destruct (m jobs) as [[a|e] jobs1] eqn:Hrun.
  - intros Hrun'. eapply Hk; [|exact Hrun']. eapply Hm; [exact Hj|exact Hrun].
  - intros [= _ <-]. eapply Hm; [exact Hj|exact Hrun].
Qed.

Lemma keeps_if {A} (b : bool) (m1 m2 : task A) :
  keeps_job job_id m1 -> keeps_job job_id m2 ->
  keeps_job job_id (if b then m1 else m2).
Proof. by destruct b. Qed.

End KeepsJob.

Ltac keeps_steps :=
  repeat first
    [ apply keeps_update
    | apply keeps_lift
    | apply keeps_if
    | apply keeps_bind; [|intros ?] ].

Section ProcessExtraction.
Context `{PyRuntime}.
Context (api : catalogue) (job_id target : string) (max_records : Z)
        (targets : list string).

(** The body of the [try] never removes the job's entry. *)
Lemma process_extraction_try_keeps :
  keeps_job job_id (process_extraction_try api job_id target max_records targets).
Proof.
  unfold process_extraction_try. keeps_steps.
  match goal with |- context [match ?rs with [] => _ | _ => _ end] => destruct rs end;
    keeps_steps.
Qed.

(** The [except] clause: an exception out of the [try] is recorded in the
    entry and goes no further. *)
Lemma process_extraction_Raised jobs e jobs1 :
  is_Some (jobs !! job_id) ->
  process_extraction_try api job_id target max_records targets jobs = (Raised e, jobs1) ->
  exists j1,
    jobs1 !! job_id = Some j1
    /\ process_extraction api job_id target max_records targets jobs
       = (Returned tt, <[job_id := failed_job e j1]> jobs1).
Proof.
  intros Hj Htry.
  destruct (process_extraction_try_keeps _ _ _ Hj Htry) as [j1 Hj1].
  exists j1. split; [done|].
  unfold process_extraction. rewrite Htry. do 2 run_update. reflexivity.
Qed.

Lemma process_extraction_Returned jobs jobs1 :
  process_extraction_try api job_id target max_records targets jobs = (Returned tt, jobs1) ->
  process_extraction api job_id target max_records targets jobs = (Returned tt, jobs1).
Proof. intros Htry. unfold process_extraction. by rewrite Htry. Qed.

(** An exception out of the fetch leaves the entry in error. *)
Lemma process_extraction_try_fetch_Raised jobs j e :
  jobs !! job_id = Some j ->
  fst (get_all_records_for_date api target max_records) = Raised e ->
  process_extraction_try api job_id target max_records targets jobs
  = (Raised e,
     <[job_id := set_message "Fetching BOAMP records..." (set_status "processing" j)]> jobs).
Proof.
  intros Hj Hfetch. unfold process_extraction_try.
  do 2 run_update. by rewrite Hfetch, bind_lift_Raised.
Qed.

End ProcessExtraction.

Section Submission.
Context `{PyRuntime}.
Context (api : catalogue) (job_id : string) (request : ExtractionRequest)
        (jobs : gmap string job).

Local Abbreviation run := (submit_and_run api job_id request jobs).

Lemma new_job_lookup :
  <[job_id := new_job request]> jobs !! job_id = Some (new_job request).
Proof. apply lookup_insert_eq. Qed.

Lemma submit_and_run_unfold :
  run = (fst (extract_data job_id request jobs),
         fst (process_extraction api job_id (req_target_date request)
                (req_max_records request) (req_departments request)
                (<[job_id := new_job request]> jobs)),
         snd (process_extraction api job_id (req_target_date request)
                (req_max_records request) (req_departments request)
                (<[job_id := new_job request]> jobs))).
Proof.
  unfold submit_and_run, extract_data. fold (new_job request).
  by destruct (process_extraction _ _ _ _ _ _).
Qed.

(** The answer to the submission does not wait for the task. *)
Lemma submit_and_run_response :
  resp_job_id run.1.1 = job_id /\ resp_status run.1.1 = "started".
Proof. rewrite submit_and_run_unfold. by split. Qed.

(** The three ways a submitted job ends, by what the fetch does. *)
Lemma submit_and_run_Raised e :
  fst (get_all_records_for_date api (req_target_date request) (req_max_records request))
  = Raised e ->
  run.1.2 = Returned tt
  /\ run.2 !! job_id
     = Some (failed_job e (set_message "Fetching BOAMP records..."
                             (set_status "processing" (new_job request)))).
Proof.
  intros Hfetch. rewrite submit_and_run_unfold. cbn [fst snd].
  pose proof (process_extraction_try_fetch_Raised api job_id _ _
                (req_departments request) _ _ e new_job_lookup Hfetch) as Htry.
  destruct (process_extraction_Raised _ _ _ _ _ _ _ _
              (mk_is_Some _ _ new_job_lookup) Htry) as (j1 & Hj1 & ->).
  rewrite lookup_insert_eq in Hj1. injection Hj1 as <-.
  cbn [fst snd]. by rewrite lookup_insert_eq.
Qed.

Lemma submit_and_run_zero :
  fst (get_all_records_for_date api (req_target_date request) (req_max_records request))
  = Returned [] ->
  run.1.2 = Returned tt
  /\ run.2 !! job_id
     = Some {| status := "completed";
               message := "No records found for date " +:+ req_target_date request;
               target_date := req_target_date request;
               departments := req_departments request;
               total_records := 0;
               filtered_records := 0;
               full_df := None;
               filtered_df := None;
               department_distribution := None |}.
Proof.
  intros Hfetch. rewrite submit_and_run_unfold. cbn [fst snd].
  rewrite (process_extraction_Returned _ _ _ _ _ _ _
             (process_extraction_try_zero api job_id _ _ (req_departments request)
                _ _ new_job_lookup Hfetch)).
  cbn [fst snd]. by rewrite lookup_insert_eq.
Qed.

Lemma submit_and_run_records rs :
  fst (get_all_records_for_date api (req_target_date request) (req_max_records request))
  = Returned rs ->
  rs <> [] ->
  exists df df_filtered dept_counts,
    create_excel_simple rs (req_target_date request) = Returned df
    /\ df_len df = length rs
    /\ filter_by_departments df (req_departments request) = Returned df_filtered
    /\ (if 0 <? df_len df_filtered
        then value_counts (df_column matched_column df_filtered) = Returned dept_counts
        else dept_counts = [])
    /\ run.1.2 = Returned tt
    /\ run.2 !! job_id
       = Some {| status := "completed";
                 message := "Processing complete. " +:+ pretty (df_len df_filtered)
                            +:+ " records after filtering.";
                 target_date := req_target_date request;
                 departments := req_departments request;
                 total_records := length rs;
                 filtered_records := df_len df_filtered;
                 full_df := Some df;
                 filtered_df := Some df_filtered;
                 department_distribution := Some dept_counts |}.
Proof.
  intros Hfetch Hrs.
  destruct (process_extraction_try_records api job_id _ _ (req_departments request)
              _ _ rs new_job_lookup Hfetch Hrs)
    as (df & dff & counts & Hdf & Hlen & Hdff & Hcounts & Htry).
  exists df, dff, counts. do 4 (split; [done|]).
  rewrite submit_and_run_unfold. cbn [fst snd].
  rewrite (process_extraction_Returned _ _ _ _ _ _ _ Htry).
  cbn [fst snd]. by rewrite lookup_insert_eq.
Qed.

End Submission.

(* ===================================================================== *)
(** * The job, as its caller sees it *)
(* ===================================================================== *)

(** C1, as amended.  When the fetch yields no record the job ends completed
    with both counts zero and no dataset stored, and both download handlers
    answer 404 for it. *)
Theorem zero_records_completed_without_datasets `{PyRuntime} api job_id request jobs :
  fst (get_all_records_for_date api (req_target_date request) (req_max_records request))
  = Returned [] ->
  exists job',
    (submit_and_run api job_id request jobs).2 !! job_id = Some job'
    /\ status job' = "completed"
    /\ total_records job' = 0
    /\ filtered_records job' = 0
    /\ full_df job' = None
    /\ filtered_df job' = None
    /\ forall timestamp,
         download_full_data timestamp job_id (submit_and_run api job_id request jobs).2
         = HTTPException 404 "Full data not available"
         /\ download_filtered_data timestamp job_id
              (submit_and_run api job_id request jobs).2
            = HTTPException 404 "Filtered data not available".
Proof.
  intros Hfetch.
  destruct (submit_and_run_zero api job_id request jobs Hfetch) as [_ Hjob].
  eexists. split; [exact Hjob|]. do 5 (split; [reflexivity|]).
  intros timestamp. unfold download_full_data, download_filtered_data.
  rewrite Hjob. by split.
Qed.

Lemma zero_records_completed_without_datasets_witness :
  exists job',
    (@submit_and_run sample_runtime empty_catalogue "job-1" sample_request ∅).2 !! "job-1"
    = Some job'
    /\ status job' = "completed"
    /\ total_records job' = 0
    /\ filtered_records job' = 0
    /\ full_df job' = None
    /\ filtered_df job' = None
    /\ forall timestamp,
         download_full_data timestamp "job-1"
           (@submit_and_run sample_runtime empty_catalogue "job-1" sample_request ∅).2
         = HTTPException 404 "Full data not available"
         /\ download_filtered_data timestamp "job-1"
              (@submit_and_run sample_runtime empty_catalogue "job-1" sample_request ∅).2
            = HTTPException 404 "Filtered data not available".
Proof.
  apply (@zero_records_completed_without_datasets sample_runtime empty_catalogue
           "job-1" sample_request ∅).
  vm_compute. reflexivity.
Defined.

(** C1 as stated fails: after a fetch that yields no record the job is
    completed with zero counts, yet neither download returns a spreadsheet. *)
Lemma zero_records_downloads_counterexample :
  let jobs := (@submit_and_run sample_runtime empty_catalogue "job-1" sample_request ∅).2 in
  fst (get_all_records_for_date empty_catalogue "2024-05-01" 5000) = Returned []
  /\ (status <$> jobs !! "job-1") = Some "completed"
  /\ ~ (exists s, download_full_data "20240502_090000" "job-1" jobs = Ok s)
  /\ ~ (exists s, download_filtered_data "20240502_090000" "job-1" jobs = Ok s).
Proof.
  split; [vm_compute; reflexivity|]. split; [vm_compute; reflexivity|].
  split; intros [s Hs]; vm_compute in Hs; discriminate.
Qed.

(** C9.  Each download handler returns a spreadsheet exactly when the job
    exists, its status is completed and the dataset is stored, and the
    spreadsheet is then made of the whole stored dataset; in every other case
    the answer is a 404. *)
Theorem download_only_when_completed_and_stored timestamp job_id jobs :
  match download_full_data timestamp job_id jobs with
  | Ok s =>
      exists job, jobs !! job_id = Some job /\ status job = "completed"
                  /\ full_df job = Some (sheet s)
  | HTTPException code _ =>
      code = 404
      /\ ~ exists job df, jobs !! job_id = Some job /\ status job = "completed"
                          /\ full_df job = Some df
  end
  /\
  match download_filtered_data timestamp job_id jobs with
  | Ok s =>
      exists job, jobs !! job_id = Some job /\ status job = "completed"
                  /\ filtered_df job = Some (sheet s)
  | HTTPException code _ =>
      code = 404
      /\ ~ exists job df, jobs !! job_id = Some job /\ status job = "completed"
                          /\ filtered_df job = Some df
  end.
Proof.
  unfold download_full_data, download_filtered_data.
  destruct (jobs !! job_id) as [job|] eqn:Hjob.
  2:{ split; (split; [done|]); by intros (? & ? & ? & _). }
  destruct (String.eqb (status job) "completed") eqn:Hstatus; simpl.
  - apply String.eqb_eq in Hstatus.
    split.
    + destruct (full_df job) as [df|] eqn:Hdf.
      * exists job. by repeat split.
      * split; [done|]. intros (job' & df & [= <-] & _ & Hdf'). congruence.
    + destruct (filtered_df job) as [df|] eqn:Hdf.
      * exists job. by repeat split.
      * split; [done|]. intros (job' & df & [= <-] & _ & Hdf'). congruence.
  - apply String.eqb_neq in Hstatus.
    split; (split; [done|]); by intros (job' & df & [= <-] & ? & _).
Qed.

(** C6.  A failed page request ends the fetch at once: it is the last
    request, the fetch returns (it does not raise) exactly the records of the
    target date of the pages requested before it, and a job run on that fetch
    ends completed, not in error. *)
Theorem request_failure_keeps_partial_results `{PyRuntime}
    api target max_records out requested o msg :
  get_all_records_for_date api target max_records = (out, requested) ->
  o ∈ requested ->
  api o = RequestException msg ->
  (exists before,
      requested = before ++ [o]
      /\ out = Returned (concat (page_matches api target <$> before)))
  /\ forall job_id targets jobs,
       let run :=
         submit_and_run api job_id
           {| req_target_date := target;
              req_max_records := max_records;
              req_departments := targets |} jobs in
       run.1.2 = Returned tt
       /\ exists job', run.2 !! job_id = Some job' /\ status job' = "completed".
Proof.
  intros Hrun Hin Hfail.
  apply list_elem_of_split in Hin as (before & after & Hreq).
  pose proof (fetch_loop_inv _ _ _ _ _ _ _ _ _ _ _ Hrun Hreq) as (_ & _ & Hafter).
  assert (Hpage : forall acc, fetch_page api target o acc = Returned (Break acc)).
  { intros acc. unfold fetch_page. by rewrite Hfail. }
  destruct after as [|o' after].
  2:{ destruct Hafter as [a Ha]. rewrite Hpage in Ha. discriminate. }
  rewrite Hpage in Hafter. simpl in Hafter.
  split; [by exists before|].
  intros job_id targets jobs run. subst run.
  set (request := {| req_target_date := target |}).
  assert (Hfetch : fst (get_all_records_for_date api (req_target_date request)
                          (req_max_records request))
                   = Returned (concat (page_matches api target <$> before))).
  { simpl. by rewrite Hrun. }
  destruct (concat (page_matches api target <$> before)) as [|r rs] eqn:Hrs.
  - destruct (submit_and_run_zero api job_id request jobs Hfetch) as [Hout Hjob].
    split; [exact Hout|]. eexists. split; [exact Hjob|reflexivity].
  - destruct (submit_and_run_records api job_id request jobs (r :: rs) Hfetch)
      as (df & dff & counts & _ & _ & _ & _ & Hout & Hjob); [done|].
    split; [exact Hout|]. eexists. split; [exact Hjob|reflexivity].
Qed.

Lemma request_failure_keeps_partial_results_witness :
  (exists before,
      snd (get_all_records_for_date failing_catalogue "2024-05-01" 5000)
      = before ++ [100%Z]
      /\ fst (get_all_records_for_date failing_catalogue "2024-05-01" 5000)
         = Returned (concat (page_matches failing_catalogue "2024-05-01" <$> before)))
  /\ forall job_id targets jobs,
       let run :=
         @submit_and_run sample_runtime failing_catalogue job_id
           {| req_target_date := "2024-05-01";
              req_max_records := 5000;
              req_departments := targets |} jobs in
       run.1.2 = Returned tt
       /\ exists job', run.2 !! job_id = Some job' /\ status job' = "completed".
Proof.
  apply (@request_failure_keeps_partial_results sample_runtime failing_catalogue
           "2024-05-01" 5000 _ _ 100%Z "503 Server Error").
  - apply surjective_pairing.
  - vm_compute. apply list_elem_of_further, list_elem_of_here.
  - reflexivity.
Defined.

(** C7.  Whatever exception the body of the task raises, at whatever stage,
    the task itself returns: the exception is recorded in the job's entry as
    status error with a message that quotes it, and the submission had
    already been answered with status started. *)
Theorem pipeline_fault_is_recorded_not_raised `{PyRuntime} api job_id request jobs :
  (submit_and_run api job_id request jobs).1.2 = Returned tt
  /\ resp_status (submit_and_run api job_id request jobs).1.1 = "started"
  /\ forall e jobs1,
       process_extraction_try api job_id (req_target_date request)
         (req_max_records request) (req_departments request)
         (snd (extract_data job_id request jobs))
       = (Raised e, jobs1) ->
       exists job',
         (submit_and_run api job_id request jobs).2 !! job_id = Some job'
         /\ status job' = "error"
         /\ message job' = "Error during processing: " +:+ exc_message e.
Proof.
  pose proof (submit_and_run_unfold api job_id request jobs) as Hrun.
  cbv zeta in Hrun. rewrite Hrun. cbn [fst snd].
  assert (Hnew : is_Some (<[job_id := new_job request]> jobs !! job_id)).
  { rewrite lookup_insert_eq. eauto. }
  destruct (process_extraction_try api job_id (req_target_date request)
              (req_max_records request) (req_departments request)
              (<[job_id := new_job request]> jobs)) as [[[]|e] jobs1] eqn:Htry.
  - rewrite (process_extraction_Returned _ _ _ _ _ _ _ Htry). cbn [fst snd].
    split; [done|]. split; [done|].
    intros e jobs1'. unfold extract_data. cbn [snd]. fold (new_job request).
    rewrite Htry. discriminate.
  - destruct (process_extraction_Raised _ _ _ _ _ _ _ _ Hnew Htry) as (j1 & Hj1 & ->).
    cbn [fst snd]. split; [done|]. split; [done|].
    intros e' jobs1'. unfold extract_data. cbn [snd]. fold (new_job request).
    rewrite Htry. intros [= <- <-].
    exists (failed_job e j1). rewrite lookup_insert_eq. by repeat split.
Qed.

Lemma pipeline_fault_is_recorded_not_raised_witness :
  exists job',
    (@submit_and_run sample_runtime null_date_catalogue "job-1" sample_request ∅).2
      !! "job-1" = Some job'
    /\ status job' = "error"
    /\ message job'
       = "Error during processing: '<' not supported between instances of 'NoneType' and 'str'".
Proof.
  eapply (proj2 (proj2 (@pipeline_fault_is_recorded_not_raised sample_runtime
                          null_date_catalogue "job-1" sample_request ∅))
            (lt_not_supported VNone (VStr "2024-05-01"))).
  vm_compute. reflexivity.
Defined.

(** The three outcomes of the fetch, for case analysis. *)
Lemma fetch_outcome_cases (out : outcome (list value)) :
  (exists e, out = Raised e) \/ out = Returned [] \/ (exists rs, out = Returned rs /\ rs <> []).
Proof.
  destruct out as [[|r rs]|e]; [by right; left| |by left; eauto].
  right; right. by exists (r :: rs).
Qed.

(** The end-to-end scenario of the specification: three records of the day,
    one of them in department 75. *)
Example sample_run_status : get_job_status "job-1" sample_run.2 = Ok sample_status.
Proof. vm_compute. reflexivity. Qed.

(** C8.  For a job that ends completed after a fetch that found records:
    [filtered_records] is the number of rows of the filtered dataset and is at
    most [total_records], the number of rows of the full dataset; and the rows
    of the filtered dataset are, in order, rows of the full dataset at
    strictly increasing positions, equal to them on every column but the added
    one. *)
Theorem filtered_rows_come_from_full_rows `{PyRuntime} api job_id request jobs job' :
  (submit_and_run api job_id request jobs).2 !! job_id = Some job' ->
  status job' = "completed" ->
  fst (get_all_records_for_date api (req_target_date request) (req_max_records request))
  <> Returned [] ->
  exists full filtered indices,
    full_df job' = Some full
    /\ filtered_df job' = Some filtered
    /\ total_records job' = df_len full
    /\ filtered_records job' = df_len filtered
    /\ filtered_records job' <= total_records job'
    /\ StronglySorted lt indices
    /\ Forall2 (fun i frow =>
                  exists row, df_rows full !! i = Some row
                              /\ forall label, label <> matched_column ->
                                               frow !! label = row !! label)
               indices (df_rows filtered).
Proof.
  intros Hjob Hstatus Hnonzero.
  destruct (fetch_outcome_cases
              (fst (get_all_records_for_date api (req_target_date request)
                      (req_max_records request))))
    as [[e Hfetch]|[Hfetch|(rs & Hfetch & Hrs)]]; [|done|].
  { destruct (submit_and_run_Raised api job_id request jobs e Hfetch) as [_ Hjob'].
    cbv zeta in Hjob'. rewrite Hjob in Hjob'. injection Hjob' as ->. discriminate. }
  destruct (submit_and_run_records api job_id request jobs rs Hfetch Hrs)
    as (df & dff & counts & Hdf & Hlen & Hdff & _ & _ & Hjob').
  cbv zeta in Hjob'. rewrite Hjob in Hjob'. injection Hjob' as ->. simpl.
  destruct (filter_by_departments_spec _ _ _ Hdff) as (found & Hall & Hrows & _).
  exists df, dff, (kept_positions 0 found).
  pose proof (Forall2_length _ _ _ Hall) as Hlen1.
  pose proof (Forall2_length _ _ _ Hrows) as Hlen2.
  pose proof (kept_positions_length found 0) as Hlen3.
  unfold df_len in *.
  do 4 (split; [done|]). split; [lia|]. split; [apply kept_positions_sorted|].
  eapply Forall2_impl; [exact Hrows|].
  intros i frow (row & d & Hrow & _ & ->). exists row. split; [done|].
  intros label Hlabel. by rewrite lookup_insert_ne.
Qed.

Lemma filtered_rows_come_from_full_rows_witness :
  exists full filtered indices,
    full_df sample_final_job = Some full
    /\ filtered_df sample_final_job = Some filtered
    /\ total_records sample_final_job = df_len full
    /\ filtered_records sample_final_job = df_len filtered
    /\ filtered_records sample_final_job <= total_records sample_final_job
    /\ StronglySorted lt indices
    /\ Forall2 (fun i frow =>
                  exists row, df_rows full !! i = Some row
                              /\ forall label, label <> matched_column ->
                                               frow !! label = row !! label)
               indices (df_rows filtered).
Proof.
  apply (@filtered_rows_come_from_full_rows sample_runtime sample_catalogue "job-1"
           sample_request ∅ sample_final_job).
  - vm_compute. reflexivity.
  - vm_compute. reflexivity.
  - vm_compute. discriminate.
Defined.

(** C10.  For a job that ends completed, the department distribution that a
    status query reports has only requested departments as keys, each once,
    every count at least 1, and the counts add up to [filtered_records]; it is
    empty when no row passed the filter. *)
Theorem department_distribution_counts_filtered_rows `{PyRuntime}
    api job_id request jobs js :
  get_job_status job_id (submit_and_run api job_id request jobs).2 = Ok js ->
  js_status js = "completed" ->
  (forall k n, (k, n) ∈ js_department_distribution js ->
               (exists s, k = VStr s /\ s ∈ req_departments request) /\ 1 <= n)
  /\ NoDup (fst <$> js_department_distribution js)
  /\ sum_list (snd <$> js_department_distribution js) = js_filtered_records js
  /\ (js_filtered_records js = 0 -> js_department_distribution js = []).
Proof.
  unfold get_job_status. intros Hjs Hstatus.
  destruct (fetch_outcome_cases
              (fst (get_all_records_for_date api (req_target_date request)
                      (req_max_records request))))
    as [[e Hfetch]|[Hfetch|(rs & Hfetch & Hrs)]].
  - destruct (submit_and_run_Raised api job_id request jobs e Hfetch) as [_ Hjob].
    cbv zeta in Hjob. rewrite Hjob in Hjs. injection Hjs as <-. discriminate.
  - destruct (submit_and_run_zero api job_id request jobs Hfetch) as [_ Hjob].
    cbv zeta in Hjob. rewrite Hjob in Hjs. injection Hjs as <-. simpl.
    split; [by intros k n ?%elem_of_nil|]. split; [constructor|]. done.
  - destruct (submit_and_run_records api job_id request jobs rs Hfetch Hrs)
      as (df & dff & counts & _ & _ & Hdff & Hcounts & _ & Hjob).
    cbv zeta in Hjob. rewrite Hjob in Hjs. injection Hjs as <-. simpl.
    destruct (0 <? df_len dff) eqn:Hpos.
    + pose proof (filtered_column_targets _ _ _ Hdff) as Hcol.
      destruct (value_counts_strings _ _ Hcol) as (counts' & Hc' & [Hall Hnodup] & Hsum).
      rewrite Hcounts in Hc'. injection Hc' as <-.
      split.
      { intros k n Hkn. rewrite Forall_forall in Hall. exact (Hall _ Hkn). }
      split; [done|]. split.
      { rewrite Hsum. unfold df_column, df_len. by rewrite length_fmap. }
      apply Nat.ltb_lt in Hpos. lia.
    + subst counts. apply Nat.ltb_ge in Hpos.
      split; [by intros k n ?%elem_of_nil|]. split; [constructor|].
      split; [simpl; lia|done].
Qed.

Lemma department_distribution_counts_filtered_rows_witness :
  (forall k n, (k, n) ∈ js_department_distribution sample_status ->
               (exists s, k = VStr s /\ s ∈ req_departments sample_request) /\ 1 <= n)
  /\ NoDup (fst <$> js_department_distribution sample_status)
  /\ sum_list (snd <$> js_department_distribution sample_status)
     = js_filtered_records sample_status
  /\ (js_filtered_records sample_status = 0 -> js_department_distribution sample_status = []).
Proof.
  apply (@department_distribution_counts_filtered_rows sample_runtime sample_catalogue
           "job-1" sample_request ∅ sample_status).
  - vm_compute. reflexivity.
  - reflexivity.
Defined.

(* ===================================================================== *)
(** * Properties of the string methods and of the decoder *)
(* ===================================================================== *)

Module PyStrFacts.
Import PyStr.

(** Nothing is stripped from a string whose end is not in the set. *)
Lemma lstrip_id p s :
  match first_char s with Some c => p c = false | None => True end ->
  lstrip p s = s.
Proof. destruct s as [|c s]; simpl; [done|]. by intros ->. Qed.

Lemma rstrip_id p s :
  match last_char s with Some c => p c = false | None => True end ->
  rstrip p s = s.
Proof.
  induction s as [|c s IH]; [done|]. simpl.
  destruct s as [|c' s]; [by intros ->|].
  intros Hlast. by rewrite (IH Hlast).
Qed.

(** A final character of the set goes. *)
Lemma rstrip_snoc p s c :
  p c = true -> rstrip p (s +:+ String c EmptyString) = rstrip p s.
Proof.
  intros Hc. induction s as [|a s IH]; simpl; [by rewrite Hc|]. by rewrite IH.
Qed.

Lemma remove_char_app c a b :
  remove_char c (a +:+ b) = remove_char c a +:+ remove_char c b.
Proof.
  induction a as [|d a IH]; simpl; [done|].
  destruct (Ascii.eqb d c); simpl; by rewrite IH.
Qed.

Lemma remove_char_id c s :
  all_chars (fun d => negb (Ascii.eqb d c)) s = true -> remove_char c s = s.
Proof.
  induction s as [|d s IH]; simpl; [done|].
  intros [Hd Hs]%andb_true_iff. apply negb_true_iff in Hd. rewrite Hd.
  by rewrite IH.
Qed.

Lemma all_chars_app p a b :
  all_chars p (a +:+ b) = all_chars p a && all_chars p b.
Proof.
  induction a as [|d a IH]; simpl; [done|]. by rewrite IH, andb_assoc.
Qed.

Lemma all_chars_impl (p q : ascii -> bool) s :
  (forall c, p c = true -> q c = true) ->
  all_chars p s = true -> all_chars q s = true.
Proof.
  intros Hpq. induction s as [|d s IH]; simpl; [done|].
  intros [Hd Hs]%andb_true_iff. by rewrite (Hpq _ Hd), IH.
Qed.

(** Splitting at a separator that the first piece does not contain. *)
Lemma split_no_sep sep s :
  all_chars (fun d => negb (Ascii.eqb d sep)) s = true -> split sep s = [s].
Proof.
  induction s as [|d s IH]; simpl; [done|].
  intros [Hd Hs]%andb_true_iff. apply negb_true_iff in Hd. rewrite Hd.
  by rewrite IH.
Qed.

Lemma split_app_sep sep s rest :
  all_chars (fun d => negb (Ascii.eqb d sep)) s = true ->
  split sep (s +:+ String sep rest) = s :: split sep rest.
Proof.
  induction s as [|d s IH]; simpl.
  - intros _. by rewrite Ascii.eqb_refl.
  - intros [Hd Hs]%andb_true_iff. apply negb_true_iff in Hd. rewrite Hd.
    by rewrite IH.
Qed.

Lemma first_char_app a b :
  nonempty a = true -> first_char (a +:+ b) = first_char a.
Proof. by destruct a. Qed.

Lemma last_char_app a b :
  nonempty b = true -> last_char (a +:+ b) = last_char b.
Proof.
  intros Hb. induction a as [|d a IH]; [done|].
  simpl. rewrite IH. destruct (a +:+ b) eqn:Hab; [|done].
  destruct a, b; discriminate.
Qed.

Lemma nonempty_app a b : nonempty (a +:+ b) = nonempty a || nonempty b.
Proof. by destruct a. Qed.

(** [join] of tokens none of which contains the separator splits back. *)
Lemma split_join sep tokens :
  tokens <> [] ->
  Forall (fun t => all_chars (fun d => negb (Ascii.eqb d sep)) t = true) tokens ->
  split sep (join (String sep EmptyString) tokens) = tokens.
Proof.
  intros Hne Hall. induction Hall as [|t tokens Ht Hall IH]; [done|].
  destruct tokens as [|t' tokens].
  - by apply split_no_sep.
  - change (join (String sep EmptyString) (t :: t' :: tokens))
      with (t +:+ String sep (join (String sep EmptyString) (t' :: tokens))).
    rewrite split_app_sep by done. f_equal. by apply IH.
Qed.

Lemma remove_char_join c sep tokens :
  remove_char c (join sep tokens) = join (remove_char c sep) (remove_char c <$> tokens).
Proof.
  induction tokens as [|t tokens IH]; [done|].
  destruct tokens as [|t' tokens]; [done|].
  change (join sep (t :: t' :: tokens)) with (t +:+ sep +:+ join sep (t' :: tokens)).
  rewrite !remove_char_app, IH. done.
Qed.

Lemma all_chars_join p sep tokens :
  all_chars p sep = true ->
  Forall (fun t => all_chars p t = true) tokens ->
  all_chars p (join sep tokens) = true.
Proof.
  intros Hsep Hall. induction Hall as [|t tokens Ht Hall IH]; [done|].
  destruct tokens as [|t' tokens]; [done|].
  change (join sep (t :: t' :: tokens)) with (t +:+ sep +:+ join sep (t' :: tokens)).
  by rewrite !all_chars_app, Ht, Hsep, IH.
Qed.

(** The ends of a [join] of non-empty tokens are ends of tokens. *)
Lemma join_ends (ok : ascii -> bool) sep tokens :
  tokens <> [] ->
  Forall (fun t => nonempty t = true
                   /\ match first_char t with Some c => ok c = true | None => False end
                   /\ match last_char t with Some c => ok c = true | None => False end)
         tokens ->
  nonempty (join sep tokens) = true
  /\ match first_char (join sep tokens) with Some c => ok c = true | None => False end
  /\ match last_char (join sep tokens) with Some c => ok c = true | None => False end.
Proof.
  intros Hne Hall. induction Hall as [|t tokens (Ht & Hfirst & Hlast) Hall IH]; [done|].
  destruct tokens as [|t' tokens]; [done|].
  destruct IH as (Hn & _ & Hl); [done|].
  change (join sep (t :: t' :: tokens)) with (t +:+ (sep +:+ join sep (t' :: tokens))).
  rewrite nonempty_app, Ht, first_char_app by done.
  rewrite last_char_app by (by rewrite nonempty_app, Hn, orb_true_r).
  rewrite last_char_app by done. done.
Qed.

End PyStrFacts.

Section Decoder.
Import PyStr PyStrFacts.

(** What [clean_token] gives, in the form the lemmas on strings take. *)
Lemma clean_token_facts t :
  clean_token t = true ->
  nonempty t = true
  /\ (forall c, separator_char c = true ->
                all_chars (fun d => negb (Ascii.eqb d c)) t = true)
  /\ match first_char t with Some c => is_space c = false | None => False end
  /\ match last_char t with Some c => is_space c = false | None => False end.
Proof.
  unfold clean_token. rewrite !andb_true_iff. intros [[[Hne Hsep] Hfirst] Hlast].
  split; [done|]. split.
  - intros c Hc. eapply all_chars_impl; [|exact Hsep]. intros d Hd. simpl in Hd.
    apply negb_true_iff. apply negb_true_iff in Hd.
    destruct (Ascii.eqb d c) eqn:Hdc; [|done].
    apply Ascii.eqb_eq in Hdc as ->. congruence.
  - split.
    + destruct (first_char t); [|done]. by apply negb_true_iff.
    + destruct (last_char t); [|done]. by apply negb_true_iff.
Qed.

Lemma strip_clean t : clean_token t = true -> strip t = t.
Proof.
  intros (_ & _ & Hfirst & Hlast)%clean_token_facts. unfold strip.
  rewrite lstrip_id.
  - apply rstrip_id. by destruct (last_char t).
  - by destruct (first_char t).
Qed.

Lemma remove_char_bare c tokens :
  separator_char c = true -> c <> comma ->
  Forall (fun t => clean_token t = true) tokens ->
  remove_char c (bare tokens) = bare tokens.
Proof.
  intros Hc Hcomma Hall. apply remove_char_id, all_chars_join.
  - cbn [all_chars]. apply Ascii.eqb_neq in Hcomma. rewrite Ascii.eqb_sym in Hcomma.
    unfold comma in Hcomma. by rewrite Hcomma.
  - eapply Forall_impl; [exact Hall|].
    intros t (_ & Hsep & _)%clean_token_facts. by apply Hsep.
Qed.

Lemma strip_filter_clean tokens :
  Forall (fun t => clean_token t = true) tokens ->
  List.filter nonempty (strip <$> tokens) = tokens.
Proof.
  induction 1 as [|t tokens Ht Hall IH]; [done|].
  rewrite fmap_cons, (strip_clean t Ht). cbn [List.filter].
  destruct (clean_token_facts t Ht) as [-> _]. by rewrite IH.
Qed.

(** The pieces that the decoder cuts out of the bare form are the tokens. *)
Lemma pieces_of_bare tokens :
  Forall (fun t => clean_token t = true) tokens ->
  List.filter nonempty
    (strip <$> split comma
                 (remove_char squote (remove_char dquote (bare tokens))))
  = tokens.
Proof.
  intros Hall. destruct tokens as [|t0 tokens0]; [reflexivity|].
  rewrite (remove_char_bare dquote), (remove_char_bare squote) by done.
  unfold bare. change "," with (String comma EmptyString).
  rewrite split_join.
  - by apply strip_filter_clean.
  - done.
  - eapply Forall_impl; [exact Hall|].
    intros t (_ & Hsep & _)%clean_token_facts. by apply Hsep.
Qed.

(** Nothing is stripped from a text without a bracket at its ends. *)
Lemma strip_chars_unbracketed s :
  unbracketed s = true -> strip_chars "[]" s = s.
Proof.
  unfold unbracketed. intros [Hfirst Hlast]%andb_true_iff.
  unfold strip_chars. rewrite lstrip_id.
  - apply rstrip_id. destruct (last_char s); [|done]. by apply negb_true_iff.
  - destruct (first_char s); [|done]. by apply negb_true_iff.
Qed.

Lemma append_empty s : s +:+ EmptyString = s.
Proof.
  induction s as [|c s IH]; [done|].
  change (String c (s +:+ EmptyString) = String c s). by rewrite IH.
Qed.

Lemma remove_dquote_quote_token t :
  clean_token t = true -> remove_char dquote (quote_token t) = t.
Proof.
  intros (_ & Hsep & _)%clean_token_facts. unfold quote_token.
  cbn [remove_char]. rewrite Ascii.eqb_refl, remove_char_app.
  rewrite remove_char_id by (by apply Hsep).
  cbn [remove_char]. rewrite Ascii.eqb_refl. apply append_empty.
Qed.

Lemma remove_dquote_quoted tokens :
  Forall (fun t => clean_token t = true) tokens ->
  remove_char dquote (join "," (quote_token <$> tokens)) = bare tokens.
Proof.
  intros Hall. rewrite remove_char_join. unfold bare.
  change (remove_char dquote ",") with ",". f_equal.
  induction Hall as [|t tokens Ht Hall IH]; [done|].
  by rewrite !fmap_cons, IH, remove_dquote_quote_token.
Qed.

Lemma strip_chars_bracketed tokens :
  strip_chars "[]" (bracketed tokens) = join "," (quote_token <$> tokens).
Proof.
  destruct tokens as [|t0 tokens0]; [reflexivity|].
  set (tokens := t0 :: tokens0).
  destruct (join_ends (fun c => negb (mem c "[]")) "," (quote_token <$> tokens))
    as (Hne & Hfirst & Hlast); [done| |].
  { apply Forall_fmap, Forall_forall. intros t _. unfold quote_token.
    split; [reflexivity|]. split; [reflexivity|].
    change (String dquote (t +:+ String dquote EmptyString))
      with (String dquote t +:+ String dquote EmptyString).
    rewrite last_char_app by reflexivity. reflexivity. }
  unfold strip_chars, bracketed.
  set (body := join "," (quote_token <$> tokens)) in *.
  change ("[" +:+ body +:+ "]") with (String "["%char (body +:+ "]")).
  change (lstrip (fun c => mem c "[]") (String "["%char (body +:+ "]")))
    with (lstrip (fun c => mem c "[]") (body +:+ "]")).
  rewrite lstrip_id.
  - rewrite rstrip_snoc by done. apply rstrip_id.
    destruct (last_char body); [|done]. by apply negb_true_iff in Hlast.
  - rewrite first_char_app by done.
    destruct (first_char body); [|done]. by apply negb_true_iff in Hfirst.
Qed.

(** The two string forms of clean tokens decode to the tokens. *)
Lemma decode_bracketed `{PyRuntime} tokens :
  Forall (fun t => clean_token t = true) tokens ->
  decode_departments (VStr (bracketed tokens)) = VStr <$> tokens.
Proof.
  intros Hall. unfold decode_departments.
  rewrite strip_chars_bracketed, remove_dquote_quoted by done.
  rewrite <- (remove_char_bare dquote tokens) at 1 by done.
  by rewrite pieces_of_bare.
Qed.

Lemma decode_bare `{PyRuntime} tokens :
  Forall (fun t => clean_token t = true) tokens ->
  unbracketed (bare tokens) = true ->
  decode_departments (VStr (bare tokens)) = VStr <$> tokens.
Proof.
  intros Hall Hends. unfold decode_departments.
  by rewrite strip_chars_unbracketed, pieces_of_bare.
Qed.

End Decoder.


(* ===================================================================== *)
(** * Further properties of the fetcher *)
(* ===================================================================== *)

(** X1.  The requests of a fetch are for the offsets 0, 100, 200, ... in
    order; none is for an offset above 10000, so a fetch makes at most 101
    requests, whatever [max_records] and the catalogue are. *)
Theorem fetch_requests_are_bounded api target_date max_records out requested :
  get_all_records_for_date api target_date max_records = (out, requested) ->
  (forall i o, requested !! i = Some o ->
               o = (100 * Z.of_nat i)%Z /\ (0 <= o <= 10000)%Z)
  /\ length requested <= 101.
Proof.
  intros Hrun.
  assert (Hpos : forall i o, requested !! i = Some o ->
                             o = (100 * Z.of_nat i)%Z /\ (0 <= o <= 10000)%Z).
  { intros i o Hi.
    pose proof (take_drop_middle _ _ _ Hi) as Hsplit. symmetry in Hsplit.
    pose proof (fetch_loop_inv _ _ _ _ _ _ _ _ _ _ _ Hrun Hsplit) as (Ho & _ & _).
    rewrite length_take_le in Ho by (apply lookup_lt_Some in Hi; lia).
    split; [lia|]. split; [lia|].
    destruct i as [|j]; [lia|].
    destruct (lookup_lt_is_Some_2 requested j) as [o' Hj].
    { apply lookup_lt_Some in Hi. lia. }
    pose proof (take_drop_middle _ _ _ Hj) as Hsplit'. symmetry in Hsplit'.
    rewrite (drop_S _ _ _ Hi) in Hsplit'.
    pose proof (fetch_loop_inv _ _ _ _ _ _ _ _ _ _ _ Hrun Hsplit') as (_ & _ & [a Ha]).
    by apply fetch_page_next in Ha as [_ ?]. }
  split; [exact Hpos|].
  destruct (length requested) as [|n] eqn:Hlen; [lia|].
  destruct (lookup_lt_is_Some_2 requested n) as [o Hn]; [lia|].
  destruct (Hpos _ _ Hn) as [-> ?]. lia.
Qed.

Lemma fetch_requests_are_bounded_witness :
  (forall i o, snd (get_all_records_for_date sample_catalogue "2024-05-01" 5000) !! i
               = Some o ->
               o = (100 * Z.of_nat i)%Z /\ (0 <= o <= 10000)%Z)
  /\ length (snd (get_all_records_for_date sample_catalogue "2024-05-01" 5000)) <= 101.
Proof.
  apply (fetch_requests_are_bounded sample_catalogue "2024-05-01" 5000
           (fst (get_all_records_for_date sample_catalogue "2024-05-01" 5000))).
  apply surjective_pairing.
Defined.

(** A turn that ends the loop without a new record, or raises, whatever has
    been accumulated, ends the fetch when its page is requested. *)
Lemma fetch_ends_at api target_date max_records out requested o
    (turn : list value -> outcome flow) :
  get_all_records_for_date api target_date max_records = (out, requested) ->
  o ∈ requested ->
  (forall acc, fetch_page api target_date o acc = turn acc) ->
  (forall acc a o', turn acc <> Returned (Next a o')) ->
  exists before,
    requested = before ++ [o]
    /\ out = last_turn (turn (concat (page_matches api target_date <$> before))).
Proof.
  intros Hrun Hin Hturn Hstop.
  apply list_elem_of_split in Hin as (before & after & Hreq).
  pose proof (fetch_loop_inv _ _ _ _ _ _ _ _ _ _ _ Hrun Hreq) as (_ & _ & Hafter).
  destruct after as [|o' after].
  - exists before. split; [done|]. by rewrite Hafter, Hturn.
  - destruct Hafter as [a Ha]. rewrite Hturn in Ha. by apply Hstop in Ha.
Qed.

(** X2.  A page without results (the key is missing, or holds an empty list
    or another false value) ends the fetch: it is the last request and the
    fetch returns the records of the pages before it. *)
Theorem fetch_stops_at_empty_page api target_date max_records out requested o records :
  get_all_records_for_date api target_date max_records = (out, requested) ->
  o ∈ requested ->
  page_results api o = Some records ->
  truthy records = false ->
  exists before,
    requested = before ++ [o]
    /\ out = Returned (concat (page_matches api target_date <$> before)).
Proof.
  intros Hrun Hin Hpage Hfalse.
  apply (fetch_ends_at _ _ _ _ _ _ (fun acc => Returned (Break acc)) Hrun Hin);
    [|discriminate].
  intros acc. unfold fetch_page. unfold page_results in Hpage.
  destruct (api o) as [msg|[| | | | | | |data]]; try discriminate.
  injection Hpage as <-. cbn [py_get mbind outcome_bind default].
  change (match data !! "results" with Some x => x | None => VList [] end)
    with (default (VList []) (data !! "results")).
  by rewrite Hfalse.
Qed.

Lemma fetch_stops_at_empty_page_witness :
  exists before,
    snd (get_all_records_for_date empty_catalogue "2024-05-01" 5000) = before ++ [0%Z]
    /\ fst (get_all_records_for_date empty_catalogue "2024-05-01" 5000)
       = Returned (concat (page_matches empty_catalogue "2024-05-01" <$> before)).
Proof.
  apply (fetch_stops_at_empty_page empty_catalogue "2024-05-01" 5000 _ _ 0%Z (VList [])).
  - apply surjective_pairing.
  - vm_compute. apply list_elem_of_here.
  - vm_compute. reflexivity.
  - reflexivity.
Defined.

(** X3.  With [max_records] zero or negative the loop is never entered: the
    fetch makes no request and returns no record. *)
Theorem fetch_without_quota_requests_nothing api target_date max_records :
  (max_records <= 0)%Z ->
  get_all_records_for_date api target_date max_records = (Returned [], []).
Proof.
  intros Hmax. unfold get_all_records_for_date. cbn [fetch_loop length].
  destruct (Z.ltb_spec (Z.of_nat 0) max_records) as [Hlt|_]; [|done].
  simpl in Hlt. lia.
Qed.

Lemma fetch_without_quota_requests_nothing_witness :
  get_all_records_for_date sample_catalogue "2024-05-01" 0 = (Returned [], []).
Proof.
  apply (fetch_without_quota_requests_nothing sample_catalogue "2024-05-01" 0). lia.
Defined.

(** X4.  A body that is not a JSON object is not caught by the handler of
    request failures: the fetch raises the [AttributeError] of the call of
    [get] on it, at that request. *)
Theorem fetch_raises_on_non_object_body api target_date max_records out requested o data :
  get_all_records_for_date api target_date max_records = (out, requested) ->
  o ∈ requested ->
  api o = Json data ->
  (forall d, data <> VDict d) ->
  (exists before, requested = before ++ [o])
  /\ out = Raised (no_attribute data "get").
Proof.
  intros Hrun Hin Hbody Hdata.
  destruct (fetch_ends_at _ _ _ _ _ _ (fun _ => Raised (no_attribute data "get")) Hrun Hin)
    as (before & Hreq & Hout); [|discriminate|by eauto].
  intros acc. unfold fetch_page. rewrite Hbody.
  destruct data; try reflexivity. by destruct (Hdata d).
Qed.

Lemma fetch_raises_on_non_object_body_witness :
  (exists before,
      snd (get_all_records_for_date list_body_catalogue "2024-05-01" 5000) = before ++ [0%Z])
  /\ fst (get_all_records_for_date list_body_catalogue "2024-05-01" 5000)
     = Raised (no_attribute (VList []) "get").
Proof.
  apply (fetch_raises_on_non_object_body list_body_catalogue "2024-05-01" 5000 _ _ 0%Z).
  - apply surjective_pairing.
  - vm_compute. apply list_elem_of_here.
  - reflexivity.
  - discriminate.
Defined.

(** The comprehension does not raise on dicts. *)
Lemma comprehension_total target_date l :
  Forall (fun r => exists d, r = VDict d) l ->
  exists kept, comprehension target_date l = Returned kept.
Proof.
  induction 1 as [|r l [d ->] _ [kept IH]]; [by exists []|].
  cbn [comprehension published_on py_get mbind outcome_bind]. rewrite IH.
  cbn [mbind outcome_bind]. eauto.
Qed.

(** X5.  A page of records whose last record carries a publication date that
    is not a string (a null, a number) makes the comparison with the target
    date raise a [TypeError], which the handler of request failures does not
    catch: the fetch raises it at that request. *)
Theorem fetch_raises_on_non_string_date
    api target_date max_records out requested o data l r v :
  get_all_records_for_date api target_date max_records = (out, requested) ->
  o ∈ requested ->
  api o = Json (VDict data) ->
  data !! "results" = Some (VList l) ->
  Forall (fun r => exists d, r = VDict d) l ->
  last l = Some (VDict r) ->
  r !! "dateparution" = Some v ->
  (forall s, v <> VStr s) ->
  (exists before, requested = before ++ [o])
  /\ out = Raised (lt_not_supported v (VStr target_date)).
Proof.
  intros Hrun Hin Hbody Hresults Hdicts Hlast Hdate Hv.
  destruct (fetch_ends_at _ _ _ _ _ _
              (fun _ => Raised (lt_not_supported v (VStr target_date))) Hrun Hin)
    as (before & Hreq & Hout); [|discriminate|by eauto].
  intros acc. unfold fetch_page. rewrite Hbody.
  cbn [py_get mbind outcome_bind]. rewrite Hresults.
  destruct l as [|r0 l]; [discriminate|].
  change (negb (truthy (VList (r0 :: l)))) with false. cbv iota.
  cbn [target_records_of].
  destruct (comprehension_total target_date _ Hdicts) as [kept ->].
  cbn [mbind outcome_bind].
  unfold moved_past. change (truthy (VList (r0 :: l))) with true. cbv iota.
  unfold last_record. rewrite Hlast. cbn [mbind outcome_bind py_get]. rewrite Hdate.
  destruct v; try reflexivity. by destruct (Hv s).
Qed.

Lemma fetch_raises_on_non_string_date_witness :
  (exists before,
      snd (get_all_records_for_date null_date_catalogue "2024-05-01" 5000) = before ++ [0%Z])
  /\ fst (get_all_records_for_date null_date_catalogue "2024-05-01" 5000)
     = Raised (lt_not_supported VNone (VStr "2024-05-01")).
Proof.
  apply (fetch_raises_on_non_string_date null_date_catalogue "2024-05-01" 5000 _ _ 0%Z
           {[ "results" := VList [VDict {[ "dateparution" := VNone ]}] ]}
           [VDict {[ "dateparution" := VNone ]}] {[ "dateparution" := VNone ]} VNone).
  - apply surjective_pairing.
  - vm_compute. apply list_elem_of_here.
  - reflexivity.
  - vm_compute. reflexivity.
  - repeat constructor. eauto.
  - reflexivity.
  - vm_compute. reflexivity.
  - discriminate.
Defined.

(* ===================================================================== *)
(** * Further properties of the normaliser *)
(* ===================================================================== *)

Lemma clean_records_VDict `{PyRuntime} (ds : list (gmap string value)) :
  clean_records (VDict <$> ds) = Returned ((fun d : gmap string value => clean_value <$> d) <$> ds).
Proof.
  induction ds as [|d ds IH]; [done|].
  rewrite !fmap_cons. cbn [clean_records clean_record mbind outcome_bind].
  by rewrite IH.
Qed.

Lemma clean_value_tabular `{PyRuntime} v : tabular_cell (clean_value v) = true.
Proof. by destruct v. Qed.

Lemma union_list_dom_fmap `{PyRuntime} (ds : list (gmap string value)) :
  ⋃ (dom <$> ((fun d : gmap string value => clean_value <$> d) <$> ds)) = (⋃ (dom <$> ds) : gset string).
Proof.
  induction ds as [|d ds IH]; [done|].
  rewrite !fmap_cons. cbn [union_list foldr]. by rewrite dom_fmap_L, IH.
Qed.

Lemma stored_cell_tabular cells cell :
  tabular_cell cell = true -> tabular_cell (stored_cell cells cell) = true.
Proof. unfold stored_cell. destruct (float64_column cells); [|done]. by destruct cell. Qed.

(** X6.  Normalising records that are dicts does not raise and drops no
    record: the frame has one row per record, in order; its columns are all
    the keys of all the records; every row has exactly these columns; a key
    the record lacks is NaN; a field of the record is in the row, a null as
    the empty string, a list or a dict as its JSON text, a string, a
    boolean or a float as it is, and an integer as it is or as the float of
    the same number; no cell is a null, a list or a dict. *)
Theorem normalised_frame `{PyRuntime} (ds : list (gmap string value)) target_date :
  exists df,
    create_excel_simple (VDict <$> ds) target_date = Returned df
    /\ df_columns df = ⋃ (dom <$> ds)
    /\ length (df_rows df) = length ds
    /\ forall i d, ds !! i = Some d ->
         exists row,
           df_rows df !! i = Some row
           /\ dom row = df_columns df
           /\ (forall label,
                 d !! label = None -> label ∈ df_columns df -> row !! label = Some VNaN)
           /\ (forall label v,
                 d !! label = Some v ->
                 exists cell,
                   row !! label = Some cell
                   /\ match v with
                      | VNone => cell = VStr EmptyString
                      | VList _ | VDict _ => cell = VStr (json_dumps v)
                      | VInt z => cell = VInt z \/ cell = VFloat (float_of_int z)
                      | _ => cell = v
                      end)
           /\ (forall label cell, row !! label = Some cell -> tabular_cell cell = true).
Proof.
  exists (pd_DataFrame ((fun d : gmap string value => clean_value <$> d) <$> ds)).
  unfold create_excel_simple. rewrite clean_records_VDict. cbn [mbind outcome_bind].
  split; [done|]. unfold pd_DataFrame. cbn [df_columns df_rows].
  rewrite union_list_dom_fmap. split; [done|]. split; [by rewrite !length_fmap|].
  intros i d Hd. set (columns := ⋃ (dom <$> ds) : gset string).
  set (filled := (fun r : gmap string value => r ∪ gset_to_gmap VNaN columns)
                 <$> ((fun d : gmap string value => clean_value <$> d) <$> ds)).
  assert (Hsub : dom d ⊆ columns).
  { intros label Hlabel. apply elem_of_union_list. exists (dom d). split; [|done].
    apply list_elem_of_fmap. exists d. split; [done|]. by eapply list_elem_of_lookup_2. }
  assert (Hlookup : forall label,
             ((clean_value <$> d) ∪ gset_to_gmap VNaN columns) !! label
             = match d !! label with
               | Some v => Some (clean_value v)
               | None => if decide (label ∈ columns) then Some VNaN else None
               end).
  { intros label. rewrite lookup_union, lookup_fmap, lookup_gset_to_gmap.
    destruct (d !! label) as [v|]; simpl.
    - by destruct (guard _).
    - unfold guard. by destruct (decide (label ∈ columns)). }
  eexists. split.
  { unfold filled. rewrite !list_lookup_fmap, Hd. reflexivity. }
  split.
  { apply set_eq. intros label. rewrite elem_of_dom, map_lookup_imap, Hlookup.
    destruct (d !! label) as [v|] eqn:Hv; simpl.
    - split; [|by eauto]. intros _. apply Hsub, elem_of_dom. by eauto.
    - destruct (decide (label ∈ columns)); simpl; [by split; eauto|].
      split; [by intros [? ?]|done]. }
  split.
  { intros label Hnone Hin. rewrite map_lookup_imap, Hlookup, Hnone.
    destruct (decide (label ∈ columns)); [|done]. simpl. unfold stored_cell.
    by destruct (float64_column _). }
  split.
  { intros label v Hv. rewrite map_lookup_imap, Hlookup, Hv. simpl.
    eexists. split; [reflexivity|]. unfold stored_cell.
    destruct (float64_column _); destruct v; simpl; auto. }
  intros label cell. rewrite map_lookup_imap, Hlookup.
  destruct (d !! label) as [v|].
  - simpl. intros [= <-]. apply stored_cell_tabular, clean_value_tabular.
  - destruct (decide _); [|done]. simpl. intros [= <-]. by apply stored_cell_tabular.
Qed.

(** X7.  A record that is not a dict stops the normalisation with the
    [AttributeError] of the call of [items] on it. *)
Theorem normalisation_raises_on_non_dict `{PyRuntime}
    (ds : list (gmap string value)) v rest target_date :
  (forall d, v <> VDict d) ->
  create_excel_simple ((VDict <$> ds) ++ v :: rest) target_date
  = Raised (no_attribute v "items").
Proof.
  intros Hv. unfold create_excel_simple.
  assert (Hclean : clean_records ((VDict <$> ds) ++ v :: rest)
                   = Raised (no_attribute v "items")).
  { induction ds as [|d ds IH].
    - cbn [fmap list_fmap app clean_records].
      destruct v; try reflexivity. by destruct (Hv d).
    - rewrite fmap_cons. cbn [app clean_records clean_record mbind outcome_bind].
      by rewrite IH. }
  by rewrite Hclean.
Qed.

Lemma normalisation_raises_on_non_dict_witness :
  @create_excel_simple sample_runtime ((VDict <$> ragged_records) ++ [VStr "24-3"])
    "2024-05-01"
  = Raised (no_attribute (VStr "24-3") "items").
Proof.
  apply (@normalisation_raises_on_non_dict sample_runtime ragged_records (VStr "24-3") []).
  discriminate.
Defined.

(* ===================================================================== *)
(** * Further properties of the matcher *)
(* ===================================================================== *)

Section MatcherRows.
Context `{PyRuntime}.
Implicit Types (rows : list (gmap string value)) (found : list (option value)).

(** The rows cut out at the kept positions are the matched rows. *)
Lemma tagged_rows_matched targets pre pre_found rows found out_rows :
  length pre = length pre_found ->
  Forall2 (fun row f => match_row targets row = Returned f) rows found ->
  Forall2 (fun i frow =>
             exists row d, (pre ++ rows) !! i = Some row
                           /\ (pre_found ++ found) !! i = Some (Some d)
                           /\ frow = <[matched_column := d]> row)
          (kept_positions (length pre) found) out_rows ->
  out_rows = matched_rows targets rows.
Proof.
  intros Hlen Hall. revert pre pre_found Hlen out_rows.
  induction Hall as [|row f rows found Hrow Hall IH];
    intros pre pre_found Hlen out_rows Hout; cbn [kept_positions] in Hout.
  - by apply Forall2_nil_inv_l in Hout as ->.
  - unfold matched_rows. cbn [omap list_omap]. rewrite Hrow.
    fold (matched_rows targets rows).
    assert (Hnext : forall out', Forall2 (fun i frow =>
               exists row0 d, (pre ++ row :: rows) !! i = Some row0
                              /\ (pre_found ++ f :: found) !! i = Some (Some d)
                              /\ frow = <[matched_column := d]> row0)
               (kept_positions (S (length pre)) found) out' ->
             out' = matched_rows targets rows).
    { intros out' Hout'.
      apply (IH (pre ++ [row]) (pre_found ++ [f])).
      - rewrite !length_app. simpl. lia.
      - rewrite length_app. simpl. rewrite Nat.add_1_r.
        by rewrite <- !app_assoc. }
    destruct f as [d|]; cbn [keep_row]; cbn [kept_positions] in Hout.
    + apply Forall2_cons_inv_l in Hout
        as (frow & out' & (row0 & d0 & Hrow0 & Hd0 & ->) & Hout' & ->).
      rewrite list_lookup_middle in Hrow0 by done.
      rewrite list_lookup_middle in Hd0 by done.
      injection Hrow0 as <-. injection Hd0 as <-.
      by rewrite (Hnext out' Hout').
    + apply Hnext. exact Hout.
Qed.

Lemma filter_by_departments_rows df targets out :
  filter_by_departments df targets = Returned out ->
  df_rows out = matched_rows targets (df_rows df).
Proof.
  intros (found & Hall & Hrows & _)%filter_by_departments_spec.
  by apply (tagged_rows_matched targets [] [] (df_rows df) found).
Qed.

(** The scan returns when every row is judged without an exception. *)
Lemma scan_rows_Returned targets rows index :
  Forall (fun row => exists f, match_row targets row = Returned f) rows ->
  exists scanned, scan_rows targets rows index = Returned scanned.
Proof.
  intros Hall. revert index.
  induction Hall as [|row rows [f Hrow] _ IH]; intros index; [by eexists|].
  cbn [scan_rows]. rewrite Hrow. cbn [mbind outcome_bind].
  destruct (IH (S index)) as [scanned ->]. cbn [mbind outcome_bind]. eauto.
Qed.

Lemma filter_by_departments_Returned df targets :
  Forall (fun row => exists f, match_row targets row = Returned f) (df_rows df) ->
  exists out, filter_by_departments df targets = Returned out.
Proof.
  intros Hall. unfold filter_by_departments.
  destruct (scan_rows_Returned targets _ 0 Hall) as [scanned ->].
  cbn [mbind outcome_bind]. destruct (fst scanned); eauto.
Qed.

Lemma no_department_skipped targets row :
  no_department row -> match_row targets row = Returned None.
Proof.
  unfold no_department, match_row.
  destruct (row !! "code_departement") as [[| | | | |[|]| |]|]; try done.
Qed.

End MatcherRows.

(** X8.  The filter is a stable selection: when it returns, the rows of the
    filtered frame are exactly the rows of the input for which a department
    of the target list was found, in the order of the input, each with the
    found department in the new column; the columns are those of the input
    and the new one. *)
Theorem filter_is_a_stable_selection `{PyRuntime} df targets out :
  filter_by_departments df targets = Returned out ->
  df_rows out = matched_rows targets (df_rows df)
  /\ df_columns out = df_columns df ∪ {[matched_column]}.
Proof.
  intros Hout. split; [by apply filter_by_departments_rows|].
  by apply filter_by_departments_spec in Hout as (_ & _ & _ & ?).
Qed.

Lemma filter_is_a_stable_selection_witness :
  df_rows {| df_columns := {[ "idweb"; "code_departement"; matched_column ]};
             df_rows := [ {[ "idweb" := VStr "24-1"; "code_departement" := VStr "75";
                             matched_column := VStr "75" ]};
                          {[ "idweb" := VStr "24-3"; "code_departement" := VStr "13, 92";
                             matched_column := VStr "92" ]} ] |}
  = @matched_rows sample_runtime ["75"; "92"] (df_rows three_rows_frame)
  /\ df_columns {| df_columns := {[ "idweb"; "code_departement"; matched_column ]};
                   df_rows := [ {[ "idweb" := VStr "24-1"; "code_departement" := VStr "75";
                                   matched_column := VStr "75" ]};
                                {[ "idweb" := VStr "24-3";
                                   "code_departement" := VStr "13, 92";
                                   matched_column := VStr "92" ]} ] |}
     = df_columns three_rows_frame ∪ {[matched_column]}.
Proof.
  apply (@filter_is_a_stable_selection sample_runtime three_rows_frame ["75"; "92"]).
  vm_compute. reflexivity.
Defined.

(** X9.  A row without a department (the field is absent, null, NaN or
    empty) never passes the filter, whatever the targets: taking it out of the
    input changes nothing in the filtered rows. *)
Theorem rows_without_department_are_dropped `{PyRuntime}
    columns pre row post targets out :
  filter_by_departments {| df_columns := columns; df_rows := pre ++ row :: post |} targets
  = Returned out ->
  no_department row ->
  exists out',
    filter_by_departments {| df_columns := columns; df_rows := pre ++ post |} targets
    = Returned out'
    /\ df_rows out' = df_rows out.
Proof.
  intros Hout Hrow.
  pose proof (filter_by_departments_rows _ _ _ Hout) as Hrows.
  destruct (filter_by_departments_spec _ _ _ Hout) as (found & Hall & _).
  cbn [df_rows] in *.
  destruct (filter_by_departments_Returned
              {| df_columns := columns; df_rows := pre ++ post |} targets)
    as [out' Hout'].
  { cbn [df_rows].
    assert (Hret : Forall (fun r => exists f, match_row targets r = Returned f)
                          (pre ++ row :: post)).
    { apply Forall_lookup. intros i r Hi.
      destruct (Forall2_lookup_l _ _ _ _ _ Hall Hi) as (f & _ & Hf). eauto. }
    apply Forall_app in Hret as [Hpre Hpost]. apply Forall_cons in Hpost as [_ Hpost].
    apply Forall_app. by split. }
  exists out'. split; [done|].
  rewrite (filter_by_departments_rows _ _ _ Hout'), Hrows. cbn [df_rows].
  unfold matched_rows. rewrite !omap_app. cbn [omap list_omap].
  by rewrite (no_department_skipped targets row Hrow).
Qed.

Lemma rows_without_department_are_dropped_witness :
  exists out',
    @filter_by_departments sample_runtime
      {| df_columns := df_columns three_rows_frame;
         df_rows := [ {[ "idweb" := VStr "24-1"; "code_departement" := VStr "75" ]} ]
                    ++ [ {[ "idweb" := VStr "24-3";
                            "code_departement" := VStr "13, 92" ]} ] |}
      ["75"; "92"]
    = Returned out'
    /\ df_rows out'
       = df_rows {| df_columns := {[ "idweb"; "code_departement"; matched_column ]};
                    df_rows := [ {[ "idweb" := VStr "24-1"; "code_departement" := VStr "75";
                                    matched_column := VStr "75" ]};
                                 {[ "idweb" := VStr "24-3";
                                    "code_departement" := VStr "13, 92";
                                    matched_column := VStr "92" ]} ] |}.
Proof.
  apply (@rows_without_department_are_dropped sample_runtime
           (df_columns three_rows_frame)
           [ {[ "idweb" := VStr "24-1"; "code_departement" := VStr "75" ]} ]
           {[ "idweb" := VStr "24-2"; "code_departement" := VStr "" ]}
           [ {[ "idweb" := VStr "24-3"; "code_departement" := VStr "13, 92" ]} ]
           ["75"; "92"]).
  - vm_compute. reflexivity.
  - vm_compute. exact I.
Defined.

(** X10.  With an empty list of targets nothing passes the filter. *)
Theorem no_targets_no_rows `{PyRuntime} df out :
  filter_by_departments df [] = Returned out -> df_rows out = [].
Proof.
  intros ->%filter_by_departments_rows. unfold matched_rows.
  induction (df_rows df) as [|row rows IH]; [done|].
  cbn [omap list_omap]. rewrite IH.
  destruct (match_row [] row) as [[d|]|e] eqn:Hrow; try done.
  apply match_row_Some, in_targets_str in Hrow as (s & _ & Hs).
  by apply elem_of_nil in Hs.
Qed.

Lemma no_targets_no_rows_witness :
  df_rows {| df_columns := {[ "idweb"; "code_departement"; matched_column ]};
             df_rows := [] |} = [].
Proof.
  apply (@no_targets_no_rows sample_runtime three_rows_frame). vm_compute. reflexivity.
Defined.

(** X11.  The department recorded in the new column of a filtered row is a
    string of the target list. *)
Theorem recorded_department_is_a_target `{PyRuntime} df targets out frow :
  filter_by_departments df targets = Returned out ->
  frow ∈ df_rows out ->
  exists s, frow !! matched_column = Some (VStr s) /\ s ∈ targets.
Proof.
  intros Hout Hfrow.
  pose proof (filtered_column_targets _ _ _ Hout) as Hcol.
  unfold df_column in Hcol. rewrite Forall_fmap, Forall_forall in Hcol.
  destruct (Hcol _ Hfrow) as (s & Hs & Hin). simpl in Hs.
  exists s. split; [|done].
  destruct (frow !! matched_column) as [v|]; simpl in Hs; [by subst|discriminate].
Qed.

Lemma recorded_department_is_a_target_witness :
  exists s,
    ({[ "idweb" := VStr "24-3"; "code_departement" := VStr "13, 92";
        matched_column := VStr "92" ]} : gmap string value) !! matched_column
    = Some (VStr s)
    /\ s ∈ ["75"; "92"].
Proof.
  apply (@recorded_department_is_a_target sample_runtime three_rows_frame ["75"; "92"]
           {| df_columns := {[ "idweb"; "code_departement"; matched_column ]};
              df_rows := [ {[ "idweb" := VStr "24-1"; "code_departement" := VStr "75";
                              matched_column := VStr "75" ]};
                           {[ "idweb" := VStr "24-3"; "code_departement" := VStr "13, 92";
                              matched_column := VStr "92" ]} ] |}).
  - vm_compute. reflexivity.
  - apply list_elem_of_further, list_elem_of_here.
Defined.

(** X12.  Normalisation makes the filter safe: on the frame built from any
    records that are dicts, whatever their fields hold, the filter returns,
    and it keeps at most as many rows as there are records. *)
Theorem filter_returns_on_normalised_frame `{PyRuntime}
    (ds : list (gmap string value)) target_date targets :
  exists df out,
    create_excel_simple (VDict <$> ds) target_date = Returned df
    /\ filter_by_departments df targets = Returned out
    /\ df_len out <= length ds.
Proof.
  destruct (create_excel_simple_dicts (VDict <$> ds) target_date)
    as (df & Hdf & Hlen & Hflat).
  { apply Forall_fmap, Forall_true. simpl. eauto. }
  destruct (filter_by_departments_flat df targets Hflat) as [out Hout].
  exists df, out. split; [done|]. split; [done|].
  destruct (filter_by_departments_spec _ _ _ Hout) as (found & Hall & Hrows & _).
  pose proof (Forall2_length _ _ _ Hall) as Hlen1.
  pose proof (Forall2_length _ _ _ Hrows) as Hlen2.
  pose proof (kept_positions_length found 0) as Hlen3.
  rewrite length_fmap in Hlen. unfold df_len in *. lia.
Qed.

(** A list of two or more values that are not lists has no truth value as an
    array. *)
Lemma skip_row_flat_list l :
  2 <= length l ->
  Forall (fun x => is_list x = false) l ->
  skip_row (VList l) = Raised ambiguous_truth.
Proof.
  intros Hlen Hflat. destruct l as [|x [|y l]]; simpl in Hlen; [lia..|].
  apply Forall_cons in Hflat as [Hx _].
  unfold skip_row. cbn [np_shape forallb]. rewrite Hx. cbn [andb foldr length].
  rewrite Nat.mul_1_r. reflexivity.
Qed.

(** X13.  A cell that holds a list of two or more codes, as the list branch
    of the decoder expects, never reaches the decoder: the test on missing
    values raises a [ValueError] on it and the whole filter raises. *)
Theorem filter_raises_on_list_cell `{PyRuntime} columns pre row post targets l :
  Forall flat_row pre ->
  row !! "code_departement" = Some (VList l) ->
  2 <= length l ->
  Forall (fun x => is_list x = false) l ->
  filter_by_departments {| df_columns := columns; df_rows := pre ++ row :: post |} targets
  = Raised ambiguous_truth.
Proof.
  intros Hpre Hcell Hlen Hflat.
  assert (Hrow : match_row targets row = Raised ambiguous_truth).
  { unfold match_row. rewrite Hcell.
    change (default (VStr EmptyString) (Some (VList l))) with (VList l).
    by rewrite (skip_row_flat_list l Hlen Hflat). }
  assert (Hscan : forall index,
             scan_rows targets (pre ++ row :: post) index = Raised ambiguous_truth).
  { induction Hpre as [|r pre Hr _ IH]; intros index; cbn [app scan_rows].
    - by rewrite Hrow.
    - destruct (match_row_flat targets r Hr) as [f ->]. cbn [mbind outcome_bind].
      by rewrite IH. }
  unfold filter_by_departments. cbn [df_rows]. by rewrite Hscan.
Qed.

Lemma filter_raises_on_list_cell_witness :
  @filter_by_departments sample_runtime
    {| df_columns := df_columns list_cell_frame;
       df_rows := [ {[ "idweb" := VStr "24-1"; "code_departement" := VStr "75" ]} ]
                  ++ {[ "idweb" := VStr "24-2";
                        "code_departement" := VList [VStr "75"; VStr "92"] ]} :: [] |}
    ["75"]
  = Raised ambiguous_truth.
Proof.
  apply (@filter_raises_on_list_cell sample_runtime (df_columns list_cell_frame)
           [ {[ "idweb" := VStr "24-1"; "code_departement" := VStr "75" ]} ]
           {[ "idweb" := VStr "24-2"; "code_departement" := VList [VStr "75"; VStr "92"] ]}
           [] ["75"] [VStr "75"; VStr "92"]).
  - constructor; [|constructor]. intros label cell Hcell.
    destruct (decide (label = "idweb")) as [->|Hne1].
    { vm_compute in Hcell. by injection Hcell as <-. }
    destruct (decide (label = "code_departement")) as [->|Hne2].
    { vm_compute in Hcell. by injection Hcell as <-. }
    rewrite lookup_insert_ne, lookup_singleton_ne in Hcell by done. discriminate.
  - vm_compute. reflexivity.
  - simpl. lia.
  - repeat constructor.
Defined.

(* ===================================================================== *)
(** * Further properties of the decoder *)
(* ===================================================================== *)

Module PyStrMore.
Import PyStr PyStrFacts.

Lemma remove_char_absent c s :
  all_chars (fun d => negb (Ascii.eqb d c)) (remove_char c s) = true.
Proof.
  induction s as [|d s IH]; [done|]. cbn [remove_char].
  destruct (Ascii.eqb d c) eqn:Hd; [done|]. cbn [all_chars]. by rewrite Hd, IH.
Qed.

Lemma remove_char_all_chars p c s :
  all_chars p s = true -> all_chars p (remove_char c s) = true.
Proof.
  induction s as [|d s IH]; [done|]. cbn [remove_char all_chars].
  intros [Hd Hs]%andb_true_iff.
  destruct (Ascii.eqb d c); [by apply IH|]. cbn [all_chars]. by rewrite Hd, IH.
Qed.

Lemma split_pieces sep s :
  Forall (fun t => all_chars (fun d => negb (Ascii.eqb d sep)) t = true) (split sep s).
Proof.
  induction s as [|c s IH]; [by repeat constructor|]. cbn [split].
  destruct (Ascii.eqb c sep) eqn:Hc; [by constructor|].
  destruct (split sep s) as [|piece pieces]; [by repeat constructor; cbn; rewrite Hc|].
  apply Forall_cons in IH as [Hpiece Hpieces].
  constructor; [|done]. cbn [all_chars]. by rewrite Hc, Hpiece.
Qed.

Lemma split_all_chars p sep s :
  all_chars p s = true -> Forall (fun t => all_chars p t = true) (split sep s).
Proof.
  induction s as [|c s IH]; [by repeat constructor|]. cbn [split all_chars].
  intros [Hc Hs]%andb_true_iff. specialize (IH Hs).
  destruct (Ascii.eqb c sep); [by constructor|].
  destruct (split sep s) as [|piece pieces]; [by repeat constructor; cbn; rewrite Hc|].
  apply Forall_cons in IH as [Hpiece Hpieces].
  constructor; [|done]. cbn [all_chars]. by rewrite Hc, Hpiece.
Qed.

Lemma lstrip_all_chars p q s :
  all_chars q s = true -> all_chars q (lstrip p s) = true.
Proof.
  induction s as [|c s IH]; [done|]. cbn [lstrip]. intros Hs.
  destruct (p c); [|done]. apply IH. cbn [all_chars] in Hs.
  by apply andb_true_iff in Hs as [_ ?].
Qed.

Lemma rstrip_all_chars p q s :
  all_chars q s = true -> all_chars q (rstrip p s) = true.
Proof.
  induction s as [|c s IH]; [done|]. cbn [rstrip all_chars].
  intros [Hc Hs]%andb_true_iff. specialize (IH Hs).
  destruct (rstrip p s) as [|c' r].
  - destruct (p c); [done|]. cbn [all_chars]. by rewrite Hc.
  - cbn [all_chars] in *. by rewrite Hc, IH.
Qed.

Lemma lstrip_first p s :
  match first_char (lstrip p s) with Some c => p c = false | None => True end.
Proof.
  induction s as [|c s IH]; [done|]. cbn [lstrip].
  by destruct (p c) eqn:Hc.
Qed.

Lemma rstrip_last p s :
  match last_char (rstrip p s) with Some c => p c = false | None => True end.
Proof.
  induction s as [|c s IH]; [done|]. cbn [rstrip].
  destruct (rstrip p s) as [|c' r].
  - by destruct (p c) eqn:Hc.
  - exact IH.
Qed.

Lemma rstrip_first p s :
  match first_char (rstrip p s) with
  | Some c => first_char s = Some c
  | None => True
  end.
Proof.
  destruct s as [|c s]; [done|]. cbn [rstrip].
  destruct (rstrip p s); [by destruct (p c)|done].
Qed.

Lemma last_char_None s : last_char s = None -> s = EmptyString.
Proof.
  induction s as [|c s IH]; [done|]. cbn [last_char].
  destruct s as [|c' s]; [discriminate|]. intros Hs. by apply IH in Hs.
Qed.

(** What [strip] returns has no white space at either end. *)
Lemma strip_ends s :
  match first_char (strip s) with Some c => is_space c = false | None => True end
  /\ match last_char (strip s) with Some c => is_space c = false | None => True end.
Proof.
  unfold strip. split; [|apply rstrip_last].
  pose proof (rstrip_first is_space (lstrip is_space s)) as Hfirst.
  pose proof (lstrip_first is_space s) as Hl.
  destruct (first_char (rstrip is_space (lstrip is_space s))); [|done].
  by rewrite Hfirst in Hl.
Qed.

Lemma strip_all_chars q s : all_chars q s = true -> all_chars q (strip s) = true.
Proof. intros Hs. by apply rstrip_all_chars, lstrip_all_chars. Qed.

Lemma all_chars_and (p q : ascii -> bool) s :
  all_chars p s = true -> all_chars q s = true ->
  all_chars (fun c => p c && q c) s = true.
Proof.
  induction s as [|c s IH]; [done|]. cbn [all_chars].
  intros [Hp Hs]%andb_true_iff [Hq Hs']%andb_true_iff. by rewrite Hp, Hq, IH.
Qed.

(** A space before a piece goes with [strip]. *)
Lemma strip_space s : strip (String " "%char s) = strip s.
Proof. reflexivity. Qed.

(** [split] after [join] with a comma and a space: every piece but the first
    begins with the space. *)
Lemma split_join_spaced t tokens :
  Forall (fun t => all_chars (fun d => negb (Ascii.eqb d comma)) t = true) (t :: tokens) ->
  split comma (join ", " (t :: tokens)) = t :: (String " "%char <$> tokens).
Proof.
  revert t. induction tokens as [|t' tokens IH]; intros t Hall.
  - apply Forall_cons in Hall as [Ht _]. by apply split_no_sep.
  - apply Forall_cons in Hall as [Ht Hall].
    change (join ", " (t :: t' :: tokens))
      with (t +:+ String comma (String " "%char (join ", " (t' :: tokens)))).
    rewrite split_app_sep by done. f_equal.
    cbn [split]. change (Ascii.eqb " "%char comma) with false. cbv iota.
    by rewrite (IH t' Hall).
Qed.

End PyStrMore.

Section DecoderMore.
Import PyStr PyStrFacts PyStrMore.

(** X14.  Whatever string the department field holds, the tokens decoded from
    it are strings that are not empty, contain no comma and no quote
    character, and have no white space at either end. *)
Theorem decoded_tokens_are_clean `{PyRuntime} s :
  Forall (fun v => exists t, v = VStr t /\ clean_token t = true)
         (decode_departments (VStr s)).
Proof.
  unfold decode_departments.
  set (cleaned := remove_char squote (remove_char dquote (strip_chars "[]" s))).
  assert (Hsq : all_chars (fun d => negb (Ascii.eqb d squote)) cleaned = true)
    by apply remove_char_absent.
  assert (Hdq : all_chars (fun d => negb (Ascii.eqb d dquote)) cleaned = true)
    by apply remove_char_all_chars, remove_char_absent.
  pose proof (split_pieces comma cleaned) as Hcomma.
  pose proof (split_all_chars _ comma cleaned Hsq) as Hsq'.
  pose proof (split_all_chars _ comma cleaned Hdq) as Hdq'.
  apply Forall_fmap, Forall_forall. intros t Ht. exists t. split; [done|].
  apply list_elem_of_In, filter_In in Ht as [Ht Hne].
  apply list_elem_of_In, list_elem_of_fmap in Ht as (piece & -> & Hpiece).
  rewrite Forall_forall in Hcomma, Hsq', Hdq'.
  unfold clean_token. rewrite Hne. cbn [andb].
  destruct (strip_ends piece) as [Hfirst Hlast].
  destruct (first_char (strip piece)) as [c|] eqn:Hc.
  2:{ by destruct (strip piece). }
  destruct (last_char (strip piece)) as [c'|] eqn:Hc'.
  2:{ apply last_char_None in Hc'. rewrite Hc' in Hne. discriminate. }
  rewrite Hfirst, Hlast. cbn [negb]. rewrite !andb_true_r.
  apply strip_all_chars.
  eapply all_chars_impl;
    [|exact (all_chars_and _ _ _ (Hcomma _ Hpiece)
               (all_chars_and _ _ _ (Hdq' _ Hpiece) (Hsq' _ Hpiece)))].
  intros d. cbv beta. unfold separator_char.
  by destruct (Ascii.eqb d comma), (Ascii.eqb d dquote), (Ascii.eqb d squote).
Qed.

Lemma wrap_unquoted quote t :
  quote = dquote \/ quote = squote ->
  clean_token t = true ->
  remove_char squote (remove_char dquote (String quote (t +:+ String quote EmptyString)))
  = t.
Proof.
  intros Hq (_ & Hsep & _)%clean_token_facts.
  assert (Hdq : remove_char dquote t = t) by (by apply remove_char_id, Hsep).
  assert (Hsq : remove_char squote t = t) by (by apply remove_char_id, Hsep).
  destruct Hq as [-> | ->].
  - cbn [remove_char]. rewrite Ascii.eqb_refl, remove_char_app, Hdq.
    cbn [remove_char]. rewrite Ascii.eqb_refl, append_empty. exact Hsq.
  - cbn [remove_char]. change (Ascii.eqb squote dquote) with false. cbv iota.
    rewrite remove_char_app, Hdq. cbn [remove_char].
    change (Ascii.eqb squote dquote) with false. cbv iota.
    cbn [remove_char]. rewrite Ascii.eqb_refl, remove_char_app, Hsq.
    cbn [remove_char]. by rewrite Ascii.eqb_refl, append_empty.
Qed.

Lemma strip_chars_list_text quote tokens :
  quote = dquote \/ quote = squote ->
  strip_chars "[]" (list_text quote tokens)
  = join ", " ((fun t => String quote (t +:+ String quote EmptyString)) <$> tokens).
Proof.
  intros Hq. destruct tokens as [|t0 tokens0]; [reflexivity|].
  set (tokens := t0 :: tokens0).
  set (wrap := fun t => String quote (t +:+ String quote EmptyString)).
  assert (Hquote : negb (mem quote "[]") = true) by (by destruct Hq as [-> | ->]).
  destruct (join_ends (fun c => negb (mem c "[]")) ", " (wrap <$> tokens))
    as (Hne & Hfirst & Hlast); [done| |].
  { apply Forall_fmap, Forall_forall. intros t _. unfold wrap.
    split; [reflexivity|]. split; [exact Hquote|].
    change (String quote (t +:+ String quote EmptyString))
      with (String quote t +:+ String quote EmptyString).
    rewrite last_char_app by reflexivity. exact Hquote. }
  unfold strip_chars, list_text. fold wrap.
  set (body := join ", " (wrap <$> tokens)) in *.
  change ("[" +:+ body +:+ "]") with (String "["%char (body +:+ "]")).
  change (lstrip (fun c => mem c "[]") (String "["%char (body +:+ "]")))
    with (lstrip (fun c => mem c "[]") (body +:+ "]")).
  rewrite lstrip_id.
  - rewrite rstrip_snoc by done. apply rstrip_id.
    destruct (last_char body); [|done]. by apply negb_true_iff in Hlast.
  - rewrite first_char_app by done.
    destruct (first_char body); [|done]. by apply negb_true_iff in Hfirst.
Qed.

Lemma decode_list_text `{PyRuntime} quote tokens :
  quote = dquote \/ quote = squote ->
  Forall (fun t => clean_token t = true) tokens ->
  decode_departments (VStr (list_text quote tokens)) = VStr <$> tokens.
Proof.
  intros Hq Hall. unfold decode_departments. f_equal.
  rewrite strip_chars_list_text by done.
  rewrite !remove_char_join.
  change (remove_char squote (remove_char dquote ", ")) with ", ".
  rewrite <- !list_fmap_compose.
  assert (Hunwrap :
            (remove_char squote ∘ remove_char dquote
             ∘ (fun t => String quote (t +:+ String quote EmptyString))) <$> tokens
            = tokens).
  { clear -Hq Hall. induction Hall as [|t tokens Ht _ IH]; [done|].
    rewrite fmap_cons, IH. f_equal. by apply wrap_unquoted. }
  rewrite Hunwrap.
  destruct tokens as [|t tokens]; [reflexivity|].
  rewrite split_join_spaced.
  2:{ eapply Forall_impl; [exact Hall|].
      intros t' (_ & Hsep & _)%clean_token_facts. by apply Hsep. }
  rewrite fmap_cons, <- list_fmap_compose.
  rewrite (list_fmap_ext (strip ∘ String " "%char) strip tokens) by done.
  by apply (strip_filter_clean (t :: tokens)).
Qed.

(** X15.  The string forms of a sequence of tokens decode to that sequence,
    when every token is one the decoder can give (not empty, without a comma
    or a quote character, without white space at its ends): the tokens in
    double or in single quotes, separated by a comma and a space, in
    brackets; the tokens in double quotes, separated by a comma, in
    brackets; and the bare tokens separated by commas, when that text
    neither begins nor ends with a bracket. *)
Theorem string_forms_decode_to_their_tokens `{PyRuntime} tokens :
  Forall (fun t => clean_token t = true) tokens ->
  decode_departments (VStr (list_text dquote tokens)) = VStr <$> tokens
  /\ decode_departments (VStr (list_text squote tokens)) = VStr <$> tokens
  /\ decode_departments (VStr (bracketed tokens)) = VStr <$> tokens
  /\ (unbracketed (bare tokens) = true ->
      decode_departments (VStr (bare tokens)) = VStr <$> tokens).
Proof.
  intros Hall. split; [by apply decode_list_text; [left|]|].
  split; [by apply decode_list_text; [right|]|].
  split; [by apply decode_bracketed|]. by apply decode_bare.
Qed.

End DecoderMore.

Lemma string_forms_decode_to_their_tokens_witness :
  @decode_departments sample_runtime (VStr (list_text dquote ["75"; "2A"])) = VStr <$> ["75"; "2A"]
  /\ @decode_departments sample_runtime (VStr (list_text squote ["75"; "2A"]))
     = VStr <$> ["75"; "2A"]
  /\ @decode_departments sample_runtime (VStr (bracketed ["75"; "2A"])) = VStr <$> ["75"; "2A"]
  /\ (unbracketed (bare ["75"; "2A"]) = true ->
      @decode_departments sample_runtime (VStr (bare ["75"; "2A"])) = VStr <$> ["75"; "2A"]).
Proof.
  apply (@string_forms_decode_to_their_tokens sample_runtime ["75"; "2A"]).
  repeat constructor.
Defined.

(* ===================================================================== *)
(** * Further properties of the job ledger *)
(* ===================================================================== *)

Section OnlyTouches.
Context (job_id : string).

Lemma touches_update f : only_touches job_id (update_job job_id f).
Proof.
  intros jobs out jobs' other. unfold update_job.
  destruct (jobs !! job_id); intros [= _ <-] Hne; [|done].
  by rewrite lookup_insert_ne.
Qed.

Lemma touches_lift {A} (m : outcome A) : only_touches job_id (lift m).
Proof. by intros jobs out jobs' other [= _ <-]. Qed.

Lemma touches_bind {A B} (m : task A) (k : A -> task B) :
  only_touches job_id m -> (forall a, only_touches job_id (k a)) ->
  only_touches job_id (m ≫= k).
Proof.
  intros Hm Hk jobs out jobs' other. unfold mbind, task_bind.
  destruct (m jobs) as [[a|e] jobs1] eqn:Hrun.
  - intros Hrun' Hne. rewrite (Hk _ _ _ _ _ Hrun' Hne). by eapply Hm.
  - intros [= _ <-] Hne. by eapply Hm.
Qed.

Lemma touches_if {A} (b : bool) (m1 m2 : task A) :
  only_touches job_id m1 -> only_touches job_id m2 ->
  only_touches job_id (if b then m1 else m2).
Proof. by destruct b. Qed.

End OnlyTouches.

Ltac touches_steps :=
  repeat first
    [ apply touches_update
    | apply touches_lift
    | apply touches_if
    | apply touches_bind; [|intros ?] ].

Lemma process_extraction_try_touches `{PyRuntime} api job_id target max_records targets :
  only_touches job_id (process_extraction_try api job_id target max_records targets).
Proof.
  unfold process_extraction_try. touches_steps.
  match goal with |- context [match ?rs with [] => _ | _ => _ end] => destruct rs end;
    touches_steps.
Qed.

Lemma process_extraction_touches `{PyRuntime} api job_id target max_records targets :
  only_touches job_id (process_extraction api job_id target max_records targets).
Proof.
  intros jobs out jobs' other. unfold process_extraction.
  destruct (process_extraction_try api job_id target max_records targets jobs)
    as [[[]|e] jobs1] eqn:Htry.
  - intros [= _ <-] Hne. by eapply process_extraction_try_touches.
  - intros Hhandler Hne.
    assert (Hh : only_touches job_id
                   (update_job job_id (set_status "error");;
                    update_job job_id
                      (set_message ("Error during processing: " +:+ exc_message e))))
      by touches_steps.
    rewrite (Hh _ _ _ _ Hhandler Hne). by eapply process_extraction_try_touches.
Qed.

(** X16.  Run for an identifier that is not in the ledger, the task raises a
    [KeyError] (the handler of the [try] fails like the body) and leaves the
    ledger as it was. *)
Theorem task_for_unknown_job_raises `{PyRuntime}
    api job_id target max_records targets jobs :
  jobs !! job_id = None ->
  process_extraction api job_id target max_records targets jobs
  = (Raised (key_error job_id), jobs).
Proof.
  intros Hjob. unfold process_extraction, process_extraction_try.
  unfold mbind at 1. unfold task_bind at 1. unfold update_job at 1. rewrite Hjob.
  unfold mbind, task_bind, update_job. by rewrite Hjob.
Qed.

Lemma task_for_unknown_job_raises_witness :
  @process_extraction sample_runtime sample_catalogue "job-1" "2024-05-01" 5000 ["75"]
    busy_ledger
  = (Raised (key_error "job-1"), busy_ledger).
Proof.
  apply (@task_for_unknown_job_raises sample_runtime sample_catalogue "job-1"
           "2024-05-01" 5000 ["75"] busy_ledger).
  vm_compute. reflexivity.
Defined.

(** X17.  A submission and its task change no entry of the ledger but the
    job's own: every other job keeps its status, counts and datasets. *)
Theorem other_jobs_are_untouched `{PyRuntime} api job_id request jobs other :
  other <> job_id ->
  (extract_data job_id request jobs).2 !! other = jobs !! other
  /\ (submit_and_run api job_id request jobs).2 !! other = jobs !! other.
Proof.
  intros Hne.
  assert (Hnew : (extract_data job_id request jobs).2 !! other = jobs !! other).
  { unfold extract_data. cbn [snd]. by rewrite lookup_insert_ne. }
  split; [done|].
  pose proof (submit_and_run_unfold api job_id request jobs) as Hrun.
  cbv zeta in Hrun. rewrite Hrun. cbn [snd].
  destruct (process_extraction api job_id (req_target_date request)
              (req_max_records request) (req_departments request)
              (<[job_id := new_job request]> jobs)) as [out jobs'] eqn:Htask.
  cbn [snd]. rewrite (process_extraction_touches _ _ _ _ _ _ _ _ _ Htask Hne).
  by rewrite lookup_insert_ne.
Qed.

Lemma other_jobs_are_untouched_witness :
  (extract_data "job-1" sample_request busy_ledger).2 !! "job-0" = busy_ledger !! "job-0"
  /\ (@submit_and_run sample_runtime sample_catalogue "job-1" sample_request busy_ledger).2
       !! "job-0"
     = busy_ledger !! "job-0".
Proof.
  apply (@other_jobs_are_untouched sample_runtime sample_catalogue "job-1"
           sample_request busy_ledger "job-0").
  discriminate.
Defined.

(** X18.  A submitted job always reaches a final state, and which one is
    decided by the fetch alone: when the fetch raises, the job ends in error
    with a message that quotes the exception; when the fetch returns, the job
    ends completed with [total_records] the number of records fetched.  The
    date and the departments of the entry are those of the request. *)
Theorem job_ends_completed_or_in_error `{PyRuntime} api job_id request jobs :
  exists job',
    (submit_and_run api job_id request jobs).2 !! job_id = Some job'
    /\ target_date job' = req_target_date request
    /\ departments job' = req_departments request
    /\ match fst (get_all_records_for_date api (req_target_date request)
                    (req_max_records request)) with
       | Raised e =>
           status job' = "error"
           /\ message job' = "Error during processing: " +:+ exc_message e
       | Returned rs =>
           status job' = "completed" /\ total_records job' = length rs
       end.
Proof.
  destruct (fetch_outcome_cases
              (fst (get_all_records_for_date api (req_target_date request)
                      (req_max_records request))))
    as [[e Hfetch]|[Hfetch|(rs & Hfetch & Hrs)]].
  - destruct (submit_and_run_Raised api job_id request jobs e Hfetch) as [_ Hjob].
    eexists. split; [exact Hjob|]. rewrite Hfetch. by repeat split.
  - destruct (submit_and_run_zero api job_id request jobs Hfetch) as [_ Hjob].
    eexists. split; [exact Hjob|]. rewrite Hfetch. by repeat split.
  - destruct (submit_and_run_records api job_id request jobs rs Hfetch Hrs)
      as (df & dff & counts & _ & _ & _ & _ & _ & Hjob).
    eexists. split; [exact Hjob|]. rewrite Hfetch. by repeat split.
Qed.

(** X19.  After a job whose fetch found records, neither download answers
    404: each handler passes its guards and writes a workbook, the full one
    from the normalised frame of the fetched records, the filtered one from
    the result of the filter on it.  When the encoder returns, the answer
    carries its bytes under a file name made of the target date and the time
    stamp; when the encoder raises, the handler raises the same exception. *)
Theorem downloads_after_completion `{PyRuntime} api job_id request jobs rs timestamp :
  fst (get_all_records_for_date api (req_target_date request) (req_max_records request))
  = Returned rs ->
  rs <> [] ->
  exists df df_filtered,
    create_excel_simple rs (req_target_date request) = Returned df
    /\ filter_by_departments df (req_departments request) = Returned df_filtered
    /\ download_full_data_handler timestamp job_id (submit_and_run api job_id request jobs).2
       = match to_excel "BOAMP_Data" df with
         | Returned body =>
             Returned (Ok {| attachment_filename :=
                               "BOAMP_Full_Results_" +:+ req_target_date request +:+ "_"
                               +:+ timestamp +:+ ".xlsx";
                             attachment_body := body |})
         | Raised e => Raised e
         end
    /\ download_filtered_data_handler timestamp job_id
         (submit_and_run api job_id request jobs).2
       = match to_excel "BOAMP_Filtered" df_filtered with
         | Returned body =>
             Returned (Ok {| attachment_filename :=
                               "BOAMP_Filtered_Results_" +:+ req_target_date request +:+ "_"
                               +:+ timestamp +:+ ".xlsx";
                             attachment_body := body |})
         | Raised e => Raised e
         end.
Proof.
  intros Hfetch Hrs.
  destruct (submit_and_run_records api job_id request jobs rs Hfetch Hrs)
    as (df & dff & counts & Hdf & _ & Hdff & _ & _ & Hjob).
  cbv zeta in Hjob. exists df, dff. split; [done|]. split; [done|].
  unfold download_full_data_handler, download_filtered_data_handler,
    download_full_data, download_filtered_data.
  rewrite Hjob. cbn. split.
  - by destruct (to_excel "BOAMP_Data" df).
  - by destruct (to_excel "BOAMP_Filtered" dff).
Qed.

Lemma downloads_after_completion_witness :
  exists df df_filtered,
    @create_excel_simple sample_runtime
      [notice "2024-05-01" (VStr "['75','92']");
       notice "2024-05-01" (VStr "92");
       notice "2024-05-01" VNone]
      (req_target_date sample_request) = Returned df
    /\ @filter_by_departments sample_runtime df (req_departments sample_request)
       = Returned df_filtered
    /\ @download_full_data_handler sample_runtime "20240502_090000" "job-1" sample_run.2
       = match @to_excel sample_runtime "BOAMP_Data" df with
         | Returned body =>
             Returned (Ok {| attachment_filename :=
                               "BOAMP_Full_Results_" +:+ req_target_date sample_request
                               +:+ "_" +:+ "20240502_090000" +:+ ".xlsx";
                             attachment_body := body |})
         | Raised e => Raised e
         end
    /\ @download_filtered_data_handler sample_runtime "20240502_090000" "job-1" sample_run.2
       = match @to_excel sample_runtime "BOAMP_Filtered" df_filtered with
         | Returned body =>
             Returned (Ok {| attachment_filename :=
                               "BOAMP_Filtered_Results_" +:+ req_target_date sample_request
                               +:+ "_" +:+ "20240502_090000" +:+ ".xlsx";
                             attachment_body := body |})
         | Raised e => Raised e
         end.
Proof.
  apply (@downloads_after_completion sample_runtime sample_catalogue "job-1"
           sample_request ∅).
  - vm_compute. reflexivity.
  - discriminate.
Defined.

(* ===================================================================== *)
(** * Why a fetch stops *)
(* ===================================================================== *)

(** A turn that breaks has one of the four reasons of the loop body. *)
Lemma fetch_page_Break api target_date o acc a max_records rs :
  fetch_page api target_date o acc = Returned (Break a) ->
  stop_reason api target_date max_records o rs.
Proof.
  unfold fetch_page, stop_reason, page_results, page_records. intros Hp.
  destruct (api o) as [msg|data]; [left; eauto|]. right.
  destruct data as [| | | | | | |data]; try discriminate.
  cbn [py_get mbind outcome_bind] in Hp.
  change (match data !! "results" with Some x => x | None => VList [] end)
    with (default (VList []) (data !! "results")) in Hp.
  destruct (truthy (default (VList []) (data !! "results"))) eqn:Htruthy;
    cbn [negb] in Hp; [|left; eauto]. right.
  destruct (data !! "results") as [records|] eqn:Hresults; [|discriminate].
  change (default (VList []) (Some records)) with records in Hp, Htruthy.
  destruct (target_records_of target_date records) as [tr|e];
    cbn [mbind outcome_bind] in Hp; [|discriminate].
  unfold moved_past in Hp. rewrite Htruthy in Hp.
  destruct (last_record records) as [r|e] eqn:Hlast;
    cbn [mbind outcome_bind] in Hp; [|discriminate].
  destruct (py_get r "dateparution" (VStr EmptyString)) as [d|e] eqn:Hget;
    cbn [mbind outcome_bind] in Hp; [|discriminate].
  destruct d as [| | | | |s| |]; try discriminate.
  destruct (String.ltb s target_date) eqn:Hlt.
  - left.
    destruct r as [| | | | | | |r]; try discriminate. injection Hget as Hget.
    exists r. split.
    + destruct records as [| | | | | |l|]; cbn [last_record] in Hlast; try discriminate.
      * destruct (PyStr.last_char s0); discriminate.
      * destruct (last l); [by injection Hlast as ->|discriminate].
    + unfold date_or_empty. destruct (r !! "dateparution") as [v|]; [by subst v|].
      by injection Hget as <-.
  - right. left. unfold limit in Hp.
    destruct (Z.ltb_spec 10000 (o + 100)); [done|discriminate].
Qed.

(** A turn that goes on is the last one only when the records accumulated
    reach [max_records]. *)
Lemma fetch_loop_last_Next api target_date max_records fuel offset acc
    out requested before o a o' :
  (offset <= 10000)%Z ->
  (10000 < offset + 100 * Z.of_nat fuel)%Z ->
  fetch_loop fuel api target_date max_records offset acc = (out, requested) ->
  requested = before ++ [o] ->
  fetch_page api target_date o (acc ++ concat (page_matches api target_date <$> before))
  = Returned (Next a o') ->
  (max_records <= Z.of_nat (length a))%Z.
Proof.
  revert offset acc requested before.
  induction fuel as [|fuel IH]; intros offset acc requested before Hle Hfuel Hrun Hreq Hp;
    [lia|].
  cbn [fetch_loop] in Hrun.
  destruct (Z.of_nat (length acc) <? max_records)%Z.
  2:{ injection Hrun as _ <-. by destruct before. }
  destruct (fetch_page api target_date offset acc) as [[a1|a1 o1]|e] eqn:Hp1.
  - injection Hrun as _ <-. destruct before as [|? [|]]; try discriminate.
    injection Hreq as <-. cbn in Hp. rewrite app_nil_r, Hp1 in Hp. discriminate.
  - destruct (fetch_loop fuel api target_date max_records o1 a1) as [out' req'] eqn:Hrec.
    injection Hrun as <- <-.
    pose proof (fetch_page_next _ _ _ _ _ _ Hp1) as [-> Hle1].
    destruct before as [|b before]; cbn [app] in Hreq; injection Hreq as <- Hreq.
    + subst req'. cbn in Hp. rewrite app_nil_r, Hp1 in Hp. injection Hp as <- _.
      destruct fuel as [|fuel]; [lia|]. cbn [fetch_loop] in Hrec.
      destruct (Z.ltb_spec (Z.of_nat (length a1)) max_records) as [Hlt|Hge]; [|done].
      destruct (fetch_page api target_date (offset + 100) a1) as [[?|? ?]|?];
        try discriminate.
      destruct (fetch_loop fuel api target_date max_records _ _). discriminate.
    + apply (IH _ _ _ before Hle1 ltac:(lia) Hrec Hreq).
      pose proof (fetch_page_records _ _ _ _ _ Hp1) as Ha1. cbn in Ha1. subst a1.
      cbn in Hp. by rewrite <- app_assoc.
  - injection Hrun as _ <-. destruct before as [|? [|]]; try discriminate.
    injection Hreq as <-. cbn in Hp. rewrite app_nil_r, Hp1 in Hp. discriminate.
Qed.

(** A run with fuel left that requests nothing has its quota filled. *)
Lemma fetch_loop_no_request api target_date max_records fuel offset acc out :
  fetch_loop (S fuel) api target_date max_records offset acc = (out, []) ->
  (max_records <= Z.of_nat (length acc))%Z.
Proof.
  cbn [fetch_loop].
  destruct (Z.ltb_spec (Z.of_nat (length acc)) max_records) as [Hlt|Hge]; [|done].
  destruct (fetch_page api target_date offset acc) as [[?|? ?]|?]; try discriminate.
  destruct (fetch_loop fuel api target_date max_records _ _). discriminate.
Qed.

(** X20.  A fetch that returns never stops without a reason: after its last
    request, either that request failed, or its page had no results, or the
    last record of the page is older than the target date, or the next offset
    would pass 10000, or the records returned reach [max_records]; and a fetch
    that makes no request at all has [max_records] zero or negative. *)
Theorem fetch_stops_for_a_reason api target_date max_records rs requested :
  get_all_records_for_date api target_date max_records = (Returned rs, requested) ->
  match last requested with
  | Some o => stop_reason api target_date max_records o rs
  | None => (max_records <= 0)%Z
  end.
Proof.
  intros Hrun.
  destruct (last requested) as [o|] eqn:Hlast.
  - apply last_Some in Hlast as [before Hreq].
    pose proof (fetch_loop_inv _ _ _ _ _ _ _ _ _ _ _ Hrun Hreq) as (_ & _ & Hout).
    cbn [app] in Hout.
    destruct (fetch_page api target_date o
                (concat (page_matches api target_date <$> before)))
      as [[a|a o']|e] eqn:Hp; cbn [last_turn flow_records] in Hout; try discriminate.
    + by eapply fetch_page_Break.
    + injection Hout as ->. unfold stop_reason. do 4 right.
      unfold get_all_records_for_date in Hrun.
      assert (H1 : (0 <= 10000)%Z) by lia.
      assert (H2 : (10000 < 0 + 100 * Z.of_nat 101)%Z) by lia.
      exact (fetch_loop_last_Next _ _ _ 101 0%Z [] _ _ before o a o' H1 H2 Hrun Hreq Hp).
  - apply last_None in Hlast as ->.
    apply (fetch_loop_no_request _ _ _ 100) in Hrun. simpl in Hrun. lia.
Qed.

Lemma fetch_stops_for_a_reason_witness :
  match last [0%Z; 100%Z] with
  | Some o =>
      stop_reason sample_catalogue "2024-05-01" 5000 o
        [notice "2024-05-01" (VStr "['75','92']");
         notice "2024-05-01" (VStr "92");
         notice "2024-05-01" VNone]
  | None => (5000 <= 0)%Z
  end.
Proof.
  apply (fetch_stops_for_a_reason sample_catalogue "2024-05-01" 5000).
  vm_compute. reflexivity.
Defined.

(* ===================================================================== *)
(** * The distribution, department by department *)
(* ===================================================================== *)

Lemma py_eqb_is_str k t : py_eqb k (VStr t) = is_str t k.
Proof. by destruct k. Qed.

Lemma is_str_eq s v : is_str s v = true -> v = VStr s.
Proof. destruct v; try discriminate. by intros ->%String.eqb_eq. Qed.

Lemma key_count_cons s k n counts :
  key_count s ((k, n) :: counts)
  = (if is_str s k then n else 0) + key_count s counts.
Proof. unfold key_count. cbn [List.filter fst]. by destruct (is_str s k). Qed.

Lemma key_count_count_up s t counts :
  key_count s (count_up (VStr t) counts)
  = key_count s counts + (if String.eqb t s then 1 else 0).
Proof.
  induction counts as [|[k n] counts IH]; cbn [count_up].
  - rewrite key_count_cons. cbn [is_str]. unfold key_count. simpl.
    destruct (String.eqb t s); lia.
  - rewrite py_eqb_is_str. destruct (is_str t k) eqn:Hk.
    + apply is_str_eq in Hk as ->. rewrite !key_count_cons. cbn [is_str].
      destruct (String.eqb t s); lia.
    + rewrite !key_count_cons, IH. lia.
Qed.

Lemma value_counts_from_key_count s column counts counts' :
  Forall (fun v => exists t, v = VStr t) column ->
  value_counts_from counts column = Returned counts' ->
  key_count s counts' = key_count s counts + length (List.filter (is_str s) column).
Proof.
  intros Hcol. revert counts.
  induction Hcol as [|v column [t ->] _ IH]; intros counts; cbn [value_counts_from].
  - intros [= <-]. simpl. lia.
  - cbn [is_na]. intros Hrun%IH. rewrite Hrun, key_count_count_up.
    cbn [List.filter is_str]. destruct (String.eqb t s); simpl; lia.
Qed.

Lemma key_count_absent s counts :
  VStr s ∉ (fst <$> counts) -> key_count s counts = 0.
Proof.
  induction counts as [|[k n] counts IH]; [done|].
  rewrite fmap_cons, not_elem_of_cons, key_count_cons. cbn [fst].
  intros [Hk Hrest]. rewrite (IH Hrest).
  destruct (is_str s k) eqn:Hs; [|done]. apply is_str_eq in Hs. congruence.
Qed.

Lemma key_count_entry s n counts :
  NoDup (fst <$> counts) -> (VStr s, n) ∈ counts -> key_count s counts = n.
Proof.
  induction counts as [|[k m] counts IH]; [by intros _ ?%elem_of_nil|].
  rewrite fmap_cons, NoDup_cons, key_count_cons. cbn [fst].
  intros [Hk Hnodup] [[= <- <-]|Hin]%elem_of_cons.
  - cbn [is_str]. rewrite String.eqb_refl, (key_count_absent s counts Hk). lia.
  - rewrite (IH Hnodup Hin).
    destruct (is_str s k) eqn:Hs; [|done]. apply is_str_eq in Hs as ->.
    destruct Hk. apply list_elem_of_fmap. by exists (VStr s, n).
Qed.

Lemma key_count_positive s counts :
  0 < key_count s counts -> exists n, (VStr s, n) ∈ counts.
Proof.
  induction counts as [|[k m] counts IH]; [unfold key_count; simpl; lia|].
  rewrite key_count_cons. destruct (is_str s k) eqn:Hs.
  - apply is_str_eq in Hs as ->. intros _. exists m. left.
  - intros [n Hn]%IH. exists n. by right.
Qed.

Lemma column_tagged s (rows : list (gmap string value)) :
  List.filter (is_str s) ((fun row => default VNaN (row !! matched_column)) <$> rows)
  = (fun row => default VNaN (row !! matched_column)) <$> List.filter (tagged_with s) rows.
Proof.
  induction rows as [|row rows IH]; [done|].
  rewrite fmap_cons. cbn [List.filter]. rewrite IH. unfold tagged_with.
  destruct (row !! matched_column) as [v|] eqn:Hrow; simpl; [|done].
  destruct (is_str s v); [|done]. by rewrite fmap_cons, Hrow.
Qed.

(** X21.  For a job that ends completed, the distribution holds, for each
    department, exactly the number of rows of the filtered dataset that carry
    it in the new column, and holds no entry for a department without such a
    row. *)
Theorem distribution_counts_rows_per_department `{PyRuntime}
    api job_id request jobs job' s n :
  (submit_and_run api job_id request jobs).2 !! job_id = Some job' ->
  status job' = "completed" ->
  (VStr s, n) ∈ default [] (department_distribution job')
  <-> n = length (List.filter (tagged_with s) (filtered_rows job')) /\ 0 < n.
Proof.
  intros Hjob Hstatus.
  destruct (fetch_outcome_cases
              (fst (get_all_records_for_date api (req_target_date request)
                      (req_max_records request))))
    as [[e Hfetch]|[Hfetch|(rs & Hfetch & Hrs)]].
  - destruct (submit_and_run_Raised api job_id request jobs e Hfetch) as [_ Hjob'].
    cbv zeta in Hjob'. rewrite Hjob in Hjob'. injection Hjob' as ->. discriminate.
  - destruct (submit_and_run_zero api job_id request jobs Hfetch) as [_ Hjob'].
    cbv zeta in Hjob'. rewrite Hjob in Hjob'. injection Hjob' as ->.
    unfold filtered_rows. simpl. split; [by intros ?%elem_of_nil|lia].
  - destruct (submit_and_run_records api job_id request jobs rs Hfetch Hrs)
      as (df & dff & counts & _ & _ & Hdff & Hcounts & _ & Hjob').
    cbv zeta in Hjob'. rewrite Hjob in Hjob'. injection Hjob' as ->.
    unfold filtered_rows. cbn [department_distribution filtered_df default].
    change (default [] (Some counts)) with counts.
    destruct (0 <? df_len dff) eqn:Hpos.
    2:{ subst counts. apply Nat.ltb_ge in Hpos. unfold df_len in Hpos.
        destruct (df_rows dff); simpl in *; [|lia].
        split; [by intros ?%elem_of_nil|lia]. }
    pose proof (filtered_column_targets _ _ _ Hdff) as Hcol.
    destruct (value_counts_strings _ _ Hcol) as (counts' & Hc' & [Hall Hnodup] & _).
    rewrite Hcounts in Hc'. injection Hc' as <-.
    assert (Hkey : key_count s counts
                   = length (List.filter (tagged_with s) (df_rows dff))).
    { assert (Hstr : Forall (fun v => exists t, v = VStr t)
                            (df_column matched_column dff)).
      { eapply Forall_impl; [exact Hcol|]. intros v (t & -> & _). eauto. }
      unfold value_counts in Hcounts.
      rewrite (value_counts_from_key_count s _ [] counts Hstr Hcounts).
      unfold df_column. rewrite column_tagged, length_fmap. unfold key_count. simpl. lia. }
    split.
    + intros Hin. rewrite <- Hkey, (key_count_entry s n counts Hnodup Hin).
      split; [done|]. rewrite Forall_forall in Hall.
      destruct (Hall _ Hin) as [_ Hn]. simpl in Hn. lia.
    + intros [-> Hn]. rewrite <- Hkey in *.
      destruct (key_count_positive s counts Hn) as [m Hm].
      by rewrite (key_count_entry s m counts Hnodup Hm).
Qed.

Lemma distribution_counts_rows_per_department_witness :
  (VStr "75", 1) ∈ default [] (department_distribution sample_final_job)
  <-> 1 = length (List.filter (tagged_with "75") (filtered_rows sample_final_job)) /\ 0 < 1.
Proof.
  apply (@distribution_counts_rows_per_department sample_runtime sample_catalogue "job-1"
           sample_request ∅ sample_final_job "75" 1).
  - vm_compute. reflexivity.
  - vm_compute. reflexivity.
Defined.

(* ===================================================================== *)
(** * The column types of the normalised frame *)
(* ===================================================================== *)

Section ColumnTypes.
Context `{PyRuntime}.
Implicit Types (ds : list (gmap string value)) (d : gmap string value).

(** The cell that the frame holds for a field of a record. *)
Lemma create_excel_simple_cell ds target_date i d label v :
  ds !! i = Some d ->
  d !! label = Some v ->
  exists df row,
    create_excel_simple (VDict <$> ds) target_date = Returned df
    /\ df_rows df !! i = Some row
    /\ row !! label = Some (stored_cell (cleaned_column label ds) (clean_value v)).
Proof.
  intros Hd Hv. eexists. eexists.
  unfold create_excel_simple. rewrite clean_records_VDict. cbn [mbind outcome_bind].
  split; [reflexivity|]. unfold pd_DataFrame. cbn [df_rows].
  split; [by rewrite !list_lookup_fmap, Hd|].
  rewrite map_lookup_imap, lookup_union, lookup_fmap, Hv. cbn.
  rewrite union_Some_l. cbn. do 2 f_equal.
  unfold column_cells, cleaned_column. rewrite <- !list_fmap_compose.
  apply list_fmap_ext. intros j d' _. cbn.
  rewrite lookup_union, lookup_fmap, lookup_gset_to_gmap.
  destruct (d' !! label) as [v'|]; cbn.
  - by destruct (guard _).
  - by destruct (guard _).
Qed.

Lemma cleaned_column_numbers label ds :
  Forall (fun d => number_field label d = true) ds ->
  forallb is_number (cleaned_column label ds) = true
  /\ forallb (fun z => (- 2 ^ 63 <=? z)%Z && (z <=? 2 ^ 64 - 1)%Z)
       (int_cells (cleaned_column label ds)) = true
  /\ existsb (fun z => 2 ^ 63 - 1 <? z)%Z (int_cells (cleaned_column label ds)) = false.
Proof.
  induction 1 as [|d ds Hd _ (IH1 & IH2 & IH3)]; [done|].
  unfold cleaned_column in *. rewrite fmap_cons. unfold number_field in Hd.
  destruct (d !! label) as [[| | |z| | | |]|]; try discriminate;
    cbn [forallb is_number clean_value int_cells omap list_omap existsb];
    rewrite ?IH1; cbn [andb]; try done.
  apply andb_true_iff in Hd as [Hlo Hhi].
  apply Z.leb_le in Hlo, Hhi.
  fold (int_cells ((fun d => match d !! label with Some v => clean_value v | None => VNaN end) <$> ds)).
  rewrite IH2, IH3. repeat split.
  - apply andb_true_iff. split; [|done]. apply andb_true_iff. split; apply Z.leb_le; lia.
  - apply orb_false_iff. split; [|done]. apply Z.ltb_ge. lia.
Qed.

Lemma cleaned_column_float label ds :
  Exists (fun d => float_field label d = true) ds ->
  existsb is_float (cleaned_column label ds) = true.
Proof.
  induction 1 as [d ds Hd|d ds _ IH]; unfold cleaned_column in *; rewrite fmap_cons;
    cbn [existsb].
  - unfold float_field in Hd.
    by destruct (d !! label) as [[| | | | | | |]|].
  - by rewrite IH, orb_true_r.
Qed.

Lemma cleaned_column_object label ds :
  Exists (fun d => object_field label d = true) ds ->
  forallb is_number (cleaned_column label ds) = false.
Proof.
  induction 1 as [d ds Hd|d ds _ IH]; unfold cleaned_column in *; rewrite fmap_cons;
    cbn [forallb].
  - unfold object_field in Hd.
    by destruct (d !! label) as [[| | | | | | |]|].
  - by rewrite IH, andb_false_r.
Qed.

Lemma cleaned_column_ints label ds :
  Forall (fun d => int_field label d = true) ds ->
  existsb is_float (cleaned_column label ds) = false.
Proof.
  induction 1 as [|d ds Hd _ IH]; [done|].
  unfold cleaned_column in *; rewrite fmap_cons. cbn [existsb]. rewrite IH.
  unfold int_field in Hd.
  by destruct (d !! label) as [[| | | | | | |]|].
Qed.

End ColumnTypes.

(** X22.  A column of 64-bit integers in which some record has a float or
    has no value is stored as floats: the frame holds [float(z)] for the
    integer [z] of a record. *)
Theorem integer_in_a_column_with_a_gap_becomes_float `{PyRuntime}
    (ds : list (gmap string value)) target_date label i d z :
  Forall (fun d => number_field label d = true) ds ->
  Exists (fun d => float_field label d = true) ds ->
  ds !! i = Some d ->
  d !! label = Some (VInt z) ->
  exists df row,
    create_excel_simple (VDict <$> ds) target_date = Returned df
    /\ df_rows df !! i = Some row
    /\ row !! label = Some (VFloat (float_of_int z)).
Proof.
  intros Hnum Hfloat Hd Hz.
  destruct (create_excel_simple_cell ds target_date i d label _ Hd Hz)
    as (df & row & Hdf & Hrow & Hcell).
  exists df, row. split; [done|]. split; [done|]. rewrite Hcell.
  unfold stored_cell, float64_column, fits_int64.
  destruct (cleaned_column_numbers label ds Hnum) as (-> & -> & ->).
  by rewrite (cleaned_column_float label ds Hfloat).
Qed.

Lemma integer_in_a_column_with_a_gap_becomes_float_witness :
  exists df row,
    @create_excel_simple sample_runtime (VDict <$> number_code_records) "2024-05-01"
    = Returned df
    /\ df_rows df !! 0 = Some row
    /\ row !! "code_departement" = Some (VFloat (float_of_int 75)).
Proof.
  apply (@integer_in_a_column_with_a_gap_becomes_float sample_runtime number_code_records
           "2024-05-01" "code_departement" 0
           {[ "dateparution" := VStr "2024-05-01"; "code_departement" := VInt 75 ]} 75).
  - repeat constructor.
  - apply Exists_cons_tl, Exists_cons_hd. reflexivity.
  - reflexivity.
  - reflexivity.
Defined.

(** The run on these two records: the department 75, held as the float 75.0,
    is read as the text of that float and is not the target 75. *)
Example number_code_is_not_matched :
  get_job_status "job-1"
    (@submit_and_run sample_runtime number_code_catalogue "job-1" sample_request ∅).2
  = Ok {| js_job_id := "job-1";
          js_status := "completed";
          js_message := "Processing complete. 0 records after filtering.";
          js_total_records := 2;
          js_filtered_records := 0;
          js_department_distribution := [] |}.
Proof. vm_compute. reflexivity. Qed.

(** X23.  An integer keeps its value in the frame when its column holds a
    value that is not a number (a text, a boolean, a null, a list or a
    dict) in some record, and when every record has an integer there. *)
Theorem integer_beside_text_is_kept `{PyRuntime}
    (ds : list (gmap string value)) target_date label i d z :
  Exists (fun d => object_field label d = true) ds
  \/ Forall (fun d => int_field label d = true) ds ->
  ds !! i = Some d ->
  d !! label = Some (VInt z) ->
  exists df row,
    create_excel_simple (VDict <$> ds) target_date = Returned df
    /\ df_rows df !! i = Some row
    /\ row !! label = Some (VInt z).
Proof.
  intros Hcol Hd Hz.
  destruct (create_excel_simple_cell ds target_date i d label _ Hd Hz)
    as (df & row & Hdf & Hrow & Hcell).
  exists df, row. split; [done|]. split; [done|]. rewrite Hcell.
  unfold stored_cell, float64_column. destruct Hcol as [Hobj|Hint].
  - by rewrite (cleaned_column_object label ds Hobj).
  - by rewrite (cleaned_column_ints label ds Hint), andb_false_r.
Qed.

Lemma integer_beside_text_is_kept_witness :
  exists df row,
    @create_excel_simple sample_runtime (VDict <$> mixed_code_records) "2024-05-01"
    = Returned df
    /\ df_rows df !! 0 = Some row
    /\ row !! "code_departement" = Some (VInt 75).
Proof.
  apply (@integer_beside_text_is_kept sample_runtime mixed_code_records
           "2024-05-01" "code_departement" 0 {[ "code_departement" := VInt 75 ]} 75).
  - left. apply Exists_cons_tl, Exists_cons_hd. reflexivity.
  - reflexivity.
  - reflexivity.
Defined.

(* ===================================================================== *)
(** * The download handlers, whole *)
(* ===================================================================== *)

Section Handlers.
Context `{PyRuntime}.

(** What [write_workbook] makes of what a handler prepared. *)
Lemma write_workbook_cases (prepared : http spreadsheet) :
  match write_workbook prepared with
  | Returned (Ok a) =>
      exists s, prepared = Ok s
                /\ to_excel (sheet_name s) (sheet s) = Returned (attachment_body a)
                /\ attachment_filename a = filename s
  | Returned (HTTPException code detail) => prepared = HTTPException code detail
  | Raised e =>
      exists s, prepared = Ok s /\ to_excel (sheet_name s) (sheet s) = Raised e
  end.
Proof.
  destruct prepared as [s|code detail]; [|done]. cbn [write_workbook].
  destruct (to_excel (sheet_name s) (sheet s)) as [body|e] eqn:Hbody;
    cbn [mbind outcome_bind]; eauto.
Qed.

End Handlers.

(** X24.  A download handler, encoder included, ends in one of three ways.
    It answers a workbook only when the job exists, is completed and has the
    dataset stored, and the workbook is then what the encoder wrote for that
    whole dataset, under a file name made of the target date and the time
    stamp.  It answers 404 exactly when one of the three conditions fails.
    It raises only when the three conditions hold and the encoder raised,
    with the exception of the encoder. *)
Theorem download_ends_in_workbook_404_or_encoder_error `{PyRuntime} timestamp job_id jobs :
  match download_full_data_handler timestamp job_id jobs with
  | Returned (Ok a) =>
      exists job df,
        jobs !! job_id = Some job /\ status job = "completed" /\ full_df job = Some df
        /\ to_excel "BOAMP_Data" df = Returned (attachment_body a)
        /\ attachment_filename a
           = "BOAMP_Full_Results_" +:+ target_date job +:+ "_" +:+ timestamp +:+ ".xlsx"
  | Returned (HTTPException code _) =>
      code = 404
      /\ ~ exists job df, jobs !! job_id = Some job /\ status job = "completed"
                          /\ full_df job = Some df
  | Raised e =>
      exists job df,
        jobs !! job_id = Some job /\ status job = "completed" /\ full_df job = Some df
        /\ to_excel "BOAMP_Data" df = Raised e
  end
  /\
  match download_filtered_data_handler timestamp job_id jobs with
  | Returned (Ok a) =>
      exists job df,
        jobs !! job_id = Some job /\ status job = "completed" /\ filtered_df job = Some df
        /\ to_excel "BOAMP_Filtered" df = Returned (attachment_body a)
        /\ attachment_filename a
           = "BOAMP_Filtered_Results_" +:+ target_date job +:+ "_" +:+ timestamp +:+ ".xlsx"
  | Returned (HTTPException code _) =>
      code = 404
      /\ ~ exists job df, jobs !! job_id = Some job /\ status job = "completed"
                          /\ filtered_df job = Some df
  | Raised e =>
      exists job df,
        jobs !! job_id = Some job /\ status job = "completed" /\ filtered_df job = Some df
        /\ to_excel "BOAMP_Filtered" df = Raised e
  end.
Proof.
  unfold download_full_data_handler, download_filtered_data_handler.
  split.
  - pose proof (write_workbook_cases (download_full_data timestamp job_id jobs)) as Hw.
    destruct (write_workbook (download_full_data timestamp job_id jobs)) as [[a|code detail]|e].
    + destruct Hw as (s & Hs & Hbody & Hname). unfold download_full_data in Hs.
      destruct (jobs !! job_id) as [job|]; [|discriminate].
      destruct (String.eqb (status job) "completed") eqn:Hstatus; [|discriminate].
      destruct (full_df job) as [df|] eqn:Hdf; [|discriminate].
      cbn in Hs. injection Hs as <-. cbn in Hbody, Hname.
      apply String.eqb_eq in Hstatus. exists job, df. by repeat split.
    + unfold download_full_data in Hw.
      destruct (jobs !! job_id) as [job|] eqn:Hjob.
      2:{ injection Hw as <- _. split; [done|]. by intros (? & ? & ? & _). }
      destruct (String.eqb (status job) "completed") eqn:Hstatus; cbn in Hw.
      * destruct (full_df job) as [df|] eqn:Hdf; [discriminate|].
        injection Hw as <- _. split; [done|].
        intros (job' & df & [= <-] & _ & Hdf'). congruence.
      * injection Hw as <- _. apply String.eqb_neq in Hstatus.
        split; [done|]. by intros (job' & df & [= <-] & ? & _).
    + destruct Hw as (s & Hs & Hbody). unfold download_full_data in Hs.
      destruct (jobs !! job_id) as [job|]; [|discriminate].
      destruct (String.eqb (status job) "completed") eqn:Hstatus; [|discriminate].
      destruct (full_df job) as [df|] eqn:Hdf; [|discriminate].
      cbn in Hs. injection Hs as <-. cbn in Hbody.
      apply String.eqb_eq in Hstatus. exists job, df. by repeat split.
  - pose proof (write_workbook_cases (download_filtered_data timestamp job_id jobs)) as Hw.
    destruct (write_workbook (download_filtered_data timestamp job_id jobs))
      as [[a|code detail]|e].
    + destruct Hw as (s & Hs & Hbody & Hname). unfold download_filtered_data in Hs.
      destruct (jobs !! job_id) as [job|]; [|discriminate].
      destruct (String.eqb (status job) "completed") eqn:Hstatus; [|discriminate].
      destruct (filtered_df job) as [df|] eqn:Hdf; [|discriminate].
      cbn in Hs. injection Hs as <-. cbn in Hbody, Hname.
      apply String.eqb_eq in Hstatus. exists job, df. by repeat split.
    + unfold download_filtered_data in Hw.
      destruct (jobs !! job_id) as [job|] eqn:Hjob.
      2:{ injection Hw as <- _. split; [done|]. by intros (? & ? & ? & _). }
      destruct (String.eqb (status job) "completed") eqn:Hstatus; cbn in Hw.
      * destruct (filtered_df job) as [df|] eqn:Hdf; [discriminate|].
        injection Hw as <- _. split; [done|].
        intros (job' & df & [= <-] & _ & Hdf'). congruence.
      * injection Hw as <- _. apply String.eqb_neq in Hstatus.
        split; [done|]. by intros (job' & df & [= <-] & ? & _).
    + destruct Hw as (s & Hs & Hbody). unfold download_filtered_data in Hs.
      destruct (jobs !! job_id) as [job|]; [|discriminate].
      destruct (String.eqb (status job) "completed") eqn:Hstatus; [|discriminate].
      destruct (filtered_df job) as [df|] eqn:Hdf; [|discriminate].
      cbn in Hs. injection Hs as <-. cbn in Hbody.
      apply String.eqb_eq in Hstatus. exists job, df. by repeat split.
Qed.
